(** * Office attendance tracker: access resolution, attendance ledger,
      delegation registry and capacity engine

    A shallow embedding of the route handlers and of the permission helpers
    of the backend, with the Prisma store as explicit state: every handler
    is a function from the store and the request to a response and the next
    store.  Tables are lists of rows in insertion order, identifiers are
    strings, and instants are integers (milliseconds since the epoch). *)

From Stdlib Require Import ZArith Floats Lia.
From stdpp Require Import base option strings pretty list sorting gmap.

Local Open Scope Z_scope.

(** ** Data model (Prisma models, as the handlers read them) *)

Inductive UserRole := REPORTER | CHAPTER_LEAD | TRIBE_LEAD.

#[global] Instance UserRole_eq_dec : EqDecision UserRole.
Proof. solve_decision. Defined.

(** Attendance statuses accepted by either write path: the self-service
    schema takes office/remote/absent/vacation, the allocation schema
    office/remote/off. *)
Module AttendanceStatus.
Inductive t := office | remote | absent | vacation | off.
End AttendanceStatus.

#[global] Instance AttendanceStatus_eq_dec : EqDecision AttendanceStatus.t.
Proof. solve_decision. Defined.

Module User.
Record t := mk {
  id : string;
  email : string;
  name : string;
  role : UserRole;
  chapterLeadId : option string;
  teamName : option string;
  avatarUrl : option string
}.
End User.

Module AttendanceRecord.
Record t := mk {
  id : string;
  userId : string;
  date : Z;
  status : AttendanceStatus.t;
  notes : option string
}.
End AttendanceRecord.

Module Delegation.
Record t := mk {
  id : string;
  delegatorId : string;
  delegateId : string;
  startDate : Z;
  endDate : Z;
  isActive : bool
}.
End Delegation.

Module OfficeCapacity.
Record t := mk {
  dayOfWeek : string;
  capacity : Z
}.
End OfficeCapacity.

(** The store: one list of rows per Prisma model. *)
Module DB.
Record t := mk {
  user : list User.t;
  attendanceRecord : list AttendanceRecord.t;
  delegation : list Delegation.t;
  officeCapacity : list OfficeCapacity.t
}.
End DB.

(** ** Prisma client operations on a table *)

Module prisma.
Section Table.
Context {A : Type}.

Definition findMany (where_ : A -> bool) (rows : list A) : list A :=
  filter (fun r => where_ r = true) rows.

Definition findFirst (where_ : A -> bool) (rows : list A) : option A :=
  head (findMany where_ rows).

Definition findUnique := findFirst.

Definition count (where_ : A -> bool) (rows : list A) : Z :=
  Z.of_nat (length (findMany where_ rows)).

Definition updateMany (where_ : A -> bool) (data : A -> A)
    (rows : list A) : list A :=
  (fun r => if where_ r then data r else r) <$> rows.

Definition create (row : A) (rows : list A) : list A := rows ++ [row].

Definition createMany (data : list A) (rows : list A) : list A :=
  rows ++ data.

Definition deleteMany (where_ : A -> bool) (rows : list A) : list A :=
  filter (fun r => where_ r = false) rows.

(** [upsert]: update the row selected by the unique key when there is
    one, and insert the [create] row otherwise. *)
Definition upsert (where_ : A -> bool) (update : A -> A) (create_ : A)
    (rows : list A) : list A :=
  match findUnique where_ rows with
  | Some _ => updateMany where_ update rows
  | None => create create_ rows
  end.

(** [orderBy]: a stable sort by a key comparison. *)
Definition orderBy (le : A -> A -> bool) (rows : list A) : list A :=
  merge_sort (fun x y => Is_true (le x y)) rows.
End Table.
End prisma.

(** ** Responses (lib/utils) *)

Inductive Response (A : Type) :=
  | apiResponse (data : A) (status : Z)
  | apiError (message : string) (status : Z).
Arguments apiResponse {A} data status.
Arguments apiError {A} message status.

Definition statusOf {A} (r : Response A) : Z :=
  match r with
  | apiResponse _ s => s
  | apiError _ s => s
  end.

(** ** lib/auth-helpers *)

(** A request as far as authentication reads it: the [x-user-email]
    header. *)
Definition getUserFromRequest (db : DB.t) (x_user_email : option string)
    : option User.t :=
  match x_user_email with
  | None => None
  | Some userEmail =>
      if bool_decide (userEmail = "") then None
      else prisma.findUnique
             (fun u => bool_decide (User.email u = userEmail)) (DB.user db)
  end.

(** ** lib/permissions *)

Definition isReporter (u : User.t) : bool :=
  bool_decide (User.role u = REPORTER).
Definition isChapterLead (u : User.t) : bool :=
  bool_decide (User.role u = CHAPTER_LEAD).
Definition isTribeLead (u : User.t) : bool :=
  bool_decide (User.role u = TRIBE_LEAD).

Definition findUserById (db : DB.t) (userId : string) : option User.t :=
  prisma.findUnique (fun u => bool_decide (User.id u = userId)) (DB.user db).

Definition getAccessibleUserIds (db : DB.t) (currentUser : User.t)
    : list string :=
  if isTribeLead currentUser then
    User.id <$> prisma.findMany (fun _ => true) (DB.user db)
  else if isChapterLead currentUser then
    let directReports :=
      prisma.findMany
        (fun u => bool_decide (User.chapterLeadId u = Some (User.id currentUser)))
        (DB.user db) in
    User.id currentUser :: (User.id <$> directReports)
  else [User.id currentUser].

Definition canAllocateAttendance (db : DB.t) (allocator : User.t)
    (targetUserId : string) : bool :=
  if bool_decide (User.id allocator = targetUserId) then true
  else if isTribeLead allocator then true
  else if isChapterLead allocator then
    let targetUser := findUserById db targetUserId in
    bool_decide (targetUser ≫= User.chapterLeadId = Some (User.id allocator))
  else false.

(** ** JavaScript runtime pieces the handlers rely on

    In the handlers below, [tz] is the server's zone, given as its
    [LocalTZA], and [now] or [today] is the instant of the request. *)

(** [Date]: an instant is a count of milliseconds since the epoch, and
    days are counted with the proleptic Gregorian calendar, as ECMAScript
    does.  The server's time zone enters through ECMAScript's
    [LocalTZA(t, isUTC)], the offset in milliseconds of local time from
    UTC: at the UTC instant [t] when [isUTC] holds, and for the local
    time [t] otherwise (a local time that a clock change skips or repeats
    takes the offset before the change).  The zone rules belong to the
    host, so [LocalTZA] is a parameter of everything that reads local
    time. *)
Module JSDate.
Definition msPerDay : Z := 86400000.

(** The [Date] object that [new Date(value)] builds from a request
    string: an instant, or Invalid Date when the string does not parse. *)
Inductive t := Instant (time : Z) | InvalidDate.

(** [a >= b] on two [Date] objects: a comparison with NaN is false. *)
Definition geb (a b : t) : bool :=
  match a, b with
  | Instant x, Instant y => x >=? y
  | _, _ => false
  end.

(** Days since 1970-01-01 of a calendar date ([month] is 0-based, as in
    [new Date(year, month, date)]; out-of-range months and days roll
    over). *)
Definition daysFromCivil (year month date : Z) : Z :=
  let y0 := year + month `div` 12 in
  let m := month `mod` 12 + 1 in
  let y := if m <=? 2 then y0 - 1 else y0 in
  let era := y `div` 400 in
  let yoe := y - era * 400 in
  let mp := if 2 <? m then m - 3 else m + 9 in
  let doy := (153 * mp + 2) `div` 5 in
  let doe := yoe * 365 + yoe `div` 4 - yoe `div` 100 + doy in
  era * 146097 + doe - 719468 + (date - 1).

(** The calendar date (year, 0-based month, day of month) of a day
    count. *)
Definition civilFromDays (days : Z) : Z * Z * Z :=
  let z := days + 719468 in
  let era := z `div` 146097 in
  let doe := z - era * 146097 in
  let yoe :=
    (doe - doe `div` 1460 + doe `div` 36524 - doe `div` 146096) `div` 365 in
  let doy := doe - (365 * yoe + yoe `div` 4 - yoe `div` 100) in
  let mp := (5 * doy + 2) `div` 153 in
  let d := doy - (153 * mp + 2) `div` 5 + 1 in
  let m := if mp <? 10 then mp + 3 else mp - 9 in
  let y := yoe + era * 400 + (if m <=? 2 then 1 else 0) in
  (y, m - 1, d).

Definition Day (t : Z) : Z := t `div` msPerDay.
Definition TimeWithinDay (t : Z) : Z := t `mod` msPerDay.
Definition MakeTime (hour min sec ms : Z) : Z :=
  ((hour * 60 + min) * 60 + sec) * 1000 + ms.
Definition MakeDate (day time : Z) : Z := day * msPerDay + time.

Section Zone.
Variable LocalTZA : Z -> bool -> Z.

Definition LocalTime (t : Z) : Z := t + LocalTZA t true.
Definition UTC (t : Z) : Z := t - LocalTZA t false.

(** The local calendar day of an instant, as a day count. *)
Definition localDay (t : Z) : Z := Day (LocalTime t).
Definition getFullYear (t : Z) : Z := (civilFromDays (localDay t)).1.1.
Definition getMonth (t : Z) : Z := (civilFromDays (localDay t)).1.2.
Definition getDate (t : Z) : Z := (civilFromDays (localDay t)).2.

(** 0 = Sunday ... 6 = Saturday; the epoch fell on a Thursday. *)
Definition getDay (t : Z) : Z := (localDay t + 4) `mod` 7.

(** [new Date(year, month, date)]: local midnight of that date; a year
    from 0 to 99 stands for 1900 + year. *)
Definition fromLocal (year month date : Z) : Z :=
  let year := if (0 <=? year) && (year <=? 99) then 1900 + year else year in
  UTC (MakeDate (daysFromCivil year month date) (MakeTime 0 0 0 0)).

(** [d.setDate(n)]: the local year, month and time of day are kept, the
    day of the month becomes [n], and the local time so built is
    converted back to an instant. *)
Definition setDate (t : Z) (n : Z) : Z :=
  let local := LocalTime t in
  UTC (MakeDate
         (daysFromCivil (civilFromDays (Day local)).1.1
            (civilFromDays (Day local)).1.2 n)
         (TimeWithinDay local)).

(** [d.setHours(h, m, s, ms)]: the local day is kept and the time of day
    replaced. *)
Definition setHours (t : Z) (h m s ms : Z) : Z :=
  UTC (MakeDate (Day (LocalTime t)) (MakeTime h m s ms)).
End Zone.

(** A zone at a fixed offset from UTC (such as UTC itself). *)
Definition fixedOffset (tz : Z) (t : Z) (isUTC : bool) : Z := tz.

(** Three conditions on a zone.  [keepsDay]: a local time converted to an
    instant and back falls on the same calendar day (a clock change never
    carries a local time over midnight).  [keepsMidnight]: every local
    midnight exists and converts back to itself (no clock change skips
    midnight).  [eastOfGreenwich]: local time is ahead of UTC by less
    than a day, or equal to it. *)
Definition keepsDay (LocalTZA : Z -> bool -> Z) : Prop :=
  forall t, Day (LocalTime LocalTZA (UTC LocalTZA t)) = Day t.

Definition keepsMidnight (LocalTZA : Z -> bool -> Z) : Prop :=
  forall day,
    LocalTime LocalTZA (UTC LocalTZA (MakeDate day 0)) = MakeDate day 0.

Definition eastOfGreenwich (LocalTZA : Z -> bool -> Z) : Prop :=
  forall t, 0 <= LocalTZA t false < msPerDay.

Fixpoint zeros (n : nat) : string :=
  match n with
  | O => ""
  | S k => String.append "0" (zeros k)
  end.

(** [s.padStart(n, "0")]. *)
Definition padStart (n : nat) (s : string) : string :=
  String.append (zeros (n - String.length s)) s.

(** [YYYY-MM-DD] from date parts ([month] 1-based here, as the caller
    passes it). *)
Definition formatYMD (year month date : Z) : string :=
  String.append (pretty year)
    (String.append "-" (String.append (padStart 2 (pretty month))
       (String.append "-" (padStart 2 (pretty date))))).

(** [d.toISOString().split("T")[0]] for years 0000 to 9999. *)
Definition isoDate (t : Z) : string :=
  let '(y, m, d) := civilFromDays (t `div` msPerDay) in
  String.append (padStart 4 (pretty y))
    (String.append "-" (String.append (padStart 2 (pretty (m + 1)))
       (String.append "-" (padStart 2 (pretty d))))).
End JSDate.

(** [Number]: a binary64 float.  Counts and capacities enter as integers. *)
Definition toNumber (z : Z) : float :=
  if z <? 0 then PrimFloat.opp (PrimFloat.of_uint63 (Uint63.of_Z (- z)))
  else PrimFloat.of_uint63 (Uint63.of_Z z).

(** [Math.round]: the nearest integer, ties towards plus infinity,
    computed exactly from the float's mantissa and exponent.  NaN and the
    infinities (which [Math.round] returns as they are) are sent to 0: the
    handler only rounds the quotient of a count by a positive capacity. *)
Definition Math_round (x : float) : Z :=
  match Prim2SF x with
  | S754_finite s m e =>
      let n := if s then Z.neg m else Z.pos m in
      if 0 <=? e then n * 2 ^ e
      else (2 * n + 2 ^ (- e)) `div` 2 ^ (1 - e)
  | _ => 0
  end.

(** ** Validated commands (lib/validations and the allocation schema)

    A handler receives the output of its schema: the two write paths keep
    their own status vocabularies, and a body outside the schema is
    answered 400 before any of the logic below runs. *)

Module createAttendanceSchema.
Inductive status := office | remote | absent | vacation.

Definition stored (s : status) : AttendanceStatus.t :=
  match s with
  | office => AttendanceStatus.office
  | remote => AttendanceStatus.remote
  | absent => AttendanceStatus.absent
  | vacation => AttendanceStatus.vacation
  end.

Record t := mk {
  userId : string;
  date : Z;
  status_ : status;
  notes : option string
}.
End createAttendanceSchema.

Module allocateSchema.
Inductive status := office | remote | off.

Definition stored (s : status) : AttendanceStatus.t :=
  match s with
  | office => AttendanceStatus.office
  | remote => AttendanceStatus.remote
  | off => AttendanceStatus.off
  end.

Record t := mk {
  userId : string;
  date : Z;
  status_ : status;
  notes : option string
}.
End allocateSchema.

(** The two dates of a query are any strings: the handler turns each
    into [new Date(...)], carried here. *)
Module getAttendanceQuerySchema.
Record t := mk {
  userId : option string;
  startDate : option JSDate.t;
  endDate : option JSDate.t;
  status_ : option createAttendanceSchema.status
}.
End getAttendanceQuerySchema.

(** [notes || null]: an absent or empty note is stored as null. *)
Definition notesOrNull (notes : option string) : option string :=
  match notes with
  | Some s => if bool_decide (s = "") then None else Some s
  | None => None
  end.

(** ** Rows returned with [include: { user: { select: ... } }] *)

Module UserSummary.
Record t := mk {
  id : string;
  name : string;
  email : string;
  avatarUrl : option string
}.

Definition select (u : User.t) : t :=
  mk (User.id u) (User.name u) (User.email u) (User.avatarUrl u).
End UserSummary.

Module UserProfile.
Record t := mk {
  id : string;
  name : string;
  email : string;
  role : UserRole;
  teamName : option string;
  avatarUrl : option string
}.

Definition select (u : User.t) : t :=
  mk (User.id u) (User.name u) (User.email u) (User.role u)
     (User.teamName u) (User.avatarUrl u).
End UserProfile.

Module WithUser.
Record t (S : Type) := mk {
  record : AttendanceRecord.t;
  user_ : option S
}.
Arguments mk {S} record user_.
Arguments record {S} _.
Arguments user_ {S} _.
End WithUser.

Definition includeUser {S} (select : User.t -> S) (db : DB.t)
    (r : AttendanceRecord.t) : WithUser.t S :=
  WithUser.mk r (select <$> findUserById db (AttendanceRecord.userId r)).

(** ** app/api/attendance/route.ts *)

(** A bound of [where.date]: none when the parameter is absent.  The
    store refuses an Invalid Date (the query throws), which is [None]
    here. *)
Definition dateBound (d : option JSDate.t) : option (option Z) :=
  match d with
  | None => Some None
  | Some (JSDate.Instant t) => Some (Some t)
  | Some JSDate.InvalidDate => None
  end.

(** The [where] object of the list query, as a predicate on rows. *)
Definition attendanceWhere (userIdFilter : string -> bool)
    (gte lte : option Z) (status : option createAttendanceSchema.status)
    (r : AttendanceRecord.t) : bool :=
  userIdFilter (AttendanceRecord.userId r)
  && match gte with
     | Some startDate => startDate <=? AttendanceRecord.date r
     | None => true
     end
  && match lte with
     | Some endDate => AttendanceRecord.date r <=? endDate
     | None => true
     end
  && match status with
     | Some status =>
         bool_decide (AttendanceRecord.status r = createAttendanceSchema.stored status)
     | None => true
     end.

Definition dateDesc (x y : AttendanceRecord.t) : bool :=
  AttendanceRecord.date y <=? AttendanceRecord.date x.

Definition GET_attendance (db : DB.t) (x_user_email : option string)
    (query : getAttendanceQuerySchema.t)
    : Response (list (WithUser.t UserProfile.t)) :=
  match getUserFromRequest db x_user_email with
  | None => apiError "Authentication required" 401
  | Some user =>
      let accessibleUserIds := getAccessibleUserIds db user in
      let whereUserId : Response _ + (string -> bool) :=
        match getAttendanceQuerySchema.userId query with
        | Some userId =>
            if negb (bool_decide (userId ∈ accessibleUserIds)) then
              inl (apiError
                "You do not have permission to access this user's attendance" 403)
            else inr (fun u => bool_decide (u = userId))
        | None => inr (fun u => bool_decide (u ∈ accessibleUserIds))
        end in
      match whereUserId with
      | inl denied => denied
      | inr userIdFilter =>
          match dateBound (getAttendanceQuerySchema.startDate query),
                dateBound (getAttendanceQuerySchema.endDate query) with
          | Some gte, Some lte =>
              let records :=
                prisma.orderBy dateDesc
                  (prisma.findMany
                     (attendanceWhere userIdFilter gte lte
                        (getAttendanceQuerySchema.status_ query))
                     (DB.attendanceRecord db)) in
              apiResponse (includeUser UserProfile.select db <$> records) 200
          | _, _ => apiError "Internal server error" 500
          end
      end
  end.

(** [where: { userId_date: { userId, date } }]. *)
Definition userId_date (userId : string) (date : Z) (r : AttendanceRecord.t)
    : bool :=
  bool_decide (AttendanceRecord.userId r = userId)
  && bool_decide (AttendanceRecord.date r = date).

(** [update: { status, notes: notes || null }]: both fields are replaced,
    the key and the id stay. *)
Definition overwrite (status : AttendanceStatus.t) (notes : option string)
    (r : AttendanceRecord.t) : AttendanceRecord.t :=
  AttendanceRecord.mk (AttendanceRecord.id r) (AttendanceRecord.userId r)
    (AttendanceRecord.date r) status (notesOrNull notes).

(** The attendance upsert on the unique key [(userId, date)].  The row's
    [userId] is a foreign key into the user table: writing a row for a
    user that does not exist is refused by the store, and the handler's
    [catch] answers 500. *)
Definition upsertAttendance (db : DB.t) (newId userId : string) (date : Z)
    (status : AttendanceStatus.t) (notes : option string)
    : option (AttendanceRecord.t * DB.t) :=
  match findUserById db userId with
  | None => None
  | Some _ =>
      let key := userId_date userId date in
      let update := overwrite status notes in
      let create := AttendanceRecord.mk newId userId date status (notesOrNull notes) in
      let record :=
        match prisma.findUnique key (DB.attendanceRecord db) with
        | Some r => update r
        | None => create
        end in
      let rows := prisma.upsert key update create (DB.attendanceRecord db) in
      Some (record, DB.mk (DB.user db) rows (DB.delegation db) (DB.officeCapacity db))
  end.

Definition POST_attendance (db : DB.t) (x_user_email : option string)
    (body : createAttendanceSchema.t) (newId : string)
    : Response (WithUser.t UserSummary.t) * DB.t :=
  match getUserFromRequest db x_user_email with
  | None => (apiError "Authentication required" 401, db)
  | Some user =>
      let userId := createAttendanceSchema.userId body in
      let canAllocate := canAllocateAttendance db user userId in
      if negb canAllocate then
        (apiError
           "You do not have permission to allocate attendance for this user" 403,
         db)
      else
        match upsertAttendance db newId userId
                (createAttendanceSchema.date body)
                (createAttendanceSchema.stored (createAttendanceSchema.status_ body))
                (createAttendanceSchema.notes body) with
        | Some (record, db') =>
            (apiResponse (includeUser UserSummary.select db' record) 201, db')
        | None => (apiError "Internal server error" 500, db)
        end
  end.

(** ** app/api/attendance/allocate/route.ts *)

Module Allocation.
Record allocatedBy := mkBy {
  id : string;
  name : string;
  role : UserRole
}.

Record t := mk {
  record : WithUser.t UserProfile.t;
  by_ : allocatedBy
}.
End Allocation.

Definition POST_attendance_allocate (db : DB.t) (x_user_email : option string)
    (body : allocateSchema.t) (newId : string)
    : Response Allocation.t * DB.t :=
  match getUserFromRequest db x_user_email with
  | None => (apiError "Authentication required" 401, db)
  | Some user =>
      if bool_decide (User.role user = REPORTER) then
        (apiError
           "Reporters cannot allocate attendance. Use POST /api/attendance for self-allocation."
           403, db)
      else
        let userId := allocateSchema.userId body in
        if bool_decide (userId = User.id user) then
          (apiError "Use POST /api/attendance for self-allocation" 400, db)
        else if negb (canAllocateAttendance db user userId) then
          (apiError
             "You do not have permission to allocate attendance for this user"
             403, db)
        else
          match findUserById db userId with
          | None => (apiError "User not found" 404, db)
          | Some targetUser =>
              let isDirectReport :=
                prisma.findFirst
                  (fun u => bool_decide (User.id u = userId)
                            && bool_decide (User.chapterLeadId u = Some (User.id user)))
                  (DB.user db) in
              if bool_decide (User.role user = CHAPTER_LEAD)
                 && negb (bool_decide (is_Some isDirectReport)) then
                (apiError
                   "You can only allocate attendance for your direct reports"
                   403, db)
              else
                match upsertAttendance db newId userId
                        (allocateSchema.date body)
                        (allocateSchema.stored (allocateSchema.status_ body))
                        (allocateSchema.notes body) with
                | Some (record, db') =>
                    (apiResponse
                       (Allocation.mk
                          (includeUser UserProfile.select db' record)
                          (Allocation.mkBy (User.id user) (User.name user)
                             (User.role user)))
                       201, db')
                | None => (apiError "Internal server error" 500, db)
                end
          end
  end.

(** ** app/api/attendance/week/route.ts *)

Module WeekAttendance.
Record t := mk {
  startDate : string;
  endDate : string;
  records : list (WithUser.t UserSummary.t)
}.
End WeekAttendance.

(** The requested window: [weekParam] is the parsed [year-Wweek] pair. *)
Definition weekWindow (tz : Z -> bool -> Z) (now : Z)
    (weekParam : option (Z * Z)) : Z * Z :=
  match weekParam with
  | Some (year, week) =>
      let firstDayOfYear := JSDate.fromLocal tz year 0 1 in
      let daysOffset := (week - 1) * 7 in
      let startDate :=
        JSDate.setDate tz firstDayOfYear
          (JSDate.getDate tz firstDayOfYear + daysOffset) in
      let endDate := JSDate.setDate tz startDate (JSDate.getDate tz startDate + 6) in
      (startDate, endDate)
  | None =>
      let dayOfWeek := JSDate.getDay tz now in
      let diff := if dayOfWeek =? 0 then -6 else 1 - dayOfWeek in
      let startDate := JSDate.setDate tz now (JSDate.getDate tz now + diff) in
      let startDate := JSDate.setHours tz startDate 0 0 0 0 in
      let endDate := JSDate.setDate tz startDate (JSDate.getDate tz startDate + 6) in
      let endDate := JSDate.setHours tz endDate 23 59 59 999 in
      (startDate, endDate)
  end.

(** [orderBy: [{ date: "asc" }, { user: { name: "asc" } }]]. *)
Definition dateThenUserNameAsc (db : DB.t) (x y : AttendanceRecord.t) : bool :=
  let userName r := User.name <$> findUserById db (AttendanceRecord.userId r) in
  (AttendanceRecord.date x <? AttendanceRecord.date y)
  || ((AttendanceRecord.date x =? AttendanceRecord.date y)
      && match userName x, userName y with
         | Some a, Some b => String.leb a b
         | None, _ => true
         | Some _, None => false
         end).

Definition inWindow (startDate endDate : Z) (r : AttendanceRecord.t) : bool :=
  (startDate <=? AttendanceRecord.date r) && (AttendanceRecord.date r <=? endDate).

Definition GET_attendance_week (db : DB.t) (x_user_email : option string)
    (tz : Z -> bool -> Z) (now : Z) (weekParam : option (Z * Z))
    : Response WeekAttendance.t :=
  match getUserFromRequest db x_user_email with
  | None => apiError "Authentication required" 401
  | Some user =>
      let '(startDate, endDate) := weekWindow tz now weekParam in
      let records :=
        prisma.orderBy (dateThenUserNameAsc db)
          (prisma.findMany (inWindow startDate endDate) (DB.attendanceRecord db)) in
      apiResponse
        (WeekAttendance.mk (JSDate.isoDate startDate) (JSDate.isoDate endDate)
           (includeUser UserSummary.select db <$> records))
        200
  end.

(** ** app/api/attendance/[id]/route.ts (GET) *)

Definition findAttendanceById (db : DB.t) (id : string)
    : option AttendanceRecord.t :=
  prisma.findUnique (fun r => bool_decide (AttendanceRecord.id r = id))
    (DB.attendanceRecord db).

Definition GET_attendance_id (db : DB.t) (x_user_email : option string)
    (id : string) : Response (WithUser.t UserSummary.t) :=
  match getUserFromRequest db x_user_email with
  | None => apiError "Authentication required" 401
  | Some user =>
      match findAttendanceById db id with
      | None => apiError "Attendance record not found" 404
      | Some record => apiResponse (includeUser UserSummary.select db record) 200
      end
  end.

(** ** app/api/delegations/route.ts *)

(** The JSON body of a delegation request: absent (or empty) fields are
    [None]; a date that is present is carried as [new Date(...)] of it. *)
Module DelegationBody.
Record t := mk {
  delegateId : option string;
  startDate : option JSDate.t;
  endDate : option JSDate.t
}.
End DelegationBody.

Definition deactivate (d : Delegation.t) : Delegation.t :=
  Delegation.mk (Delegation.id d) (Delegation.delegatorId d)
    (Delegation.delegateId d) (Delegation.startDate d) (Delegation.endDate d)
    false.

(** The two store writes of a creation:
    [prisma.delegation.updateMany({ where: { delegateId, isActive: true },
    data: { isActive: false } })] and [prisma.delegation.create]. *)
Definition deactivateActive (delegateId : string) (db : DB.t) : DB.t :=
  DB.mk (DB.user db) (DB.attendanceRecord db)
    (prisma.updateMany
       (fun d => bool_decide (Delegation.delegateId d = delegateId)
                 && Delegation.isActive d)
       deactivate (DB.delegation db))
    (DB.officeCapacity db).

Definition createDelegation (delegation : Delegation.t) (db : DB.t) : DB.t :=
  DB.mk (DB.user db) (DB.attendanceRecord db)
    (prisma.create delegation (DB.delegation db)) (DB.officeCapacity db).

(** The handler run from its first line to its last with no other request
    in between.  A date that does not parse passes the [start >= end]
    test (a comparison with NaN is false); [create] then refuses the
    Invalid Date and the handler's [catch] answers 500, after
    [updateMany] has run. *)
Definition POST_delegations (db : DB.t) (x_user_email : option string)
    (body : DelegationBody.t) (newId : string)
    : Response Delegation.t * DB.t :=
  match getUserFromRequest db x_user_email with
  | None => (apiError "Authentication required" 401, db)
  | Some user =>
      if negb (bool_decide (User.role user = TRIBE_LEAD)) then
        (apiError "Only Tribe Lead can create delegations" 403, db)
      else
        match DelegationBody.delegateId body, DelegationBody.startDate body,
              DelegationBody.endDate body with
        | Some delegateId, Some start, Some end_ =>
            if bool_decide (delegateId = "") then
              (apiError "Missing required fields" 400, db)
            else if JSDate.geb start end_ then
              (apiError "End date must be after start date" 400, db)
            else
              match findUserById db delegateId with
              | None => (apiError "Delegate user not found" 404, db)
              | Some delegate =>
                  let db := deactivateActive delegateId db in
                  match start, end_ with
                  | JSDate.Instant start, JSDate.Instant end_ =>
                      let delegation :=
                        Delegation.mk newId (User.id user) delegateId start end_
                          true in
                      (apiResponse delegation 201, createDelegation delegation db)
                  | _, _ => (apiError "Internal server error" 500, db)
                  end
              end
        | _, _, _ => (apiError "Missing required fields" 400, db)
        end
  end.

(** *** The same handler, one store call at a time

    A handler is a sequence of store calls, each awaited; between two of
    them the server may run other requests.  A [Task] is what is left of
    a handler: its response, or the next store call (what it does to the
    store) and the rest of the handler, which reads the store the call
    ran on. *)
Inductive Task (A : Type) :=
  | Return (response : A)
  | Await (call : DB.t -> DB.t) (next : DB.t -> Task A).
Arguments Return {A} response.
Arguments Await {A} call next.

(** A task run to its end with no other request in between. *)
Fixpoint run {A} (task : Task A) (db : DB.t) : A * DB.t :=
  match task with
  | Return response => (response, db)
  | Await call next => run (next db) (call db)
  end.

(** [POST /api/delegations] with its four awaited store calls: the two
    reads [findUnique] (the principal, then the delegate) and the two
    writes [updateMany] and [create], outside any transaction. *)
Definition POST_delegations_task (x_user_email : option string)
    (body : DelegationBody.t) (newId : string) : Task (Response Delegation.t) :=
  Await id (fun db =>
    match getUserFromRequest db x_user_email with
    | None => Return (apiError "Authentication required" 401)
    | Some user =>
        if negb (bool_decide (User.role user = TRIBE_LEAD)) then
          Return (apiError "Only Tribe Lead can create delegations" 403)
        else
          match DelegationBody.delegateId body, DelegationBody.startDate body,
                DelegationBody.endDate body with
          | Some delegateId, Some start, Some end_ =>
              if bool_decide (delegateId = "") then
                Return (apiError "Missing required fields" 400)
              else if JSDate.geb start end_ then
                Return (apiError "End date must be after start date" 400)
              else
                Await id (fun db =>
                  match findUserById db delegateId with
                  | None => Return (apiError "Delegate user not found" 404)
                  | Some delegate =>
                      Await (deactivateActive delegateId) (fun _ =>
                        match start, end_ with
                        | JSDate.Instant start, JSDate.Instant end_ =>
                            let delegation :=
                              Delegation.mk newId (User.id user) delegateId
                                start end_ true in
                            Await (createDelegation delegation) (fun _ =>
                              Return (apiResponse delegation 201))
                        | _, _ => Return (apiError "Internal server error" 500)
                        end)
                  end)
          | _, _, _ => Return (apiError "Missing required fields" 400)
          end
    end).

(** Revocation: [prisma.delegation.update] throws when no row has the id,
    and the handler's [catch] answers 500. *)
Definition DELETE_delegations (db : DB.t) (x_user_email : option string)
    (id : option string) : Response Delegation.t * DB.t :=
  match getUserFromRequest db x_user_email with
  | None => (apiError "Authentication required" 401, db)
  | Some user =>
      if negb (bool_decide (User.role user = TRIBE_LEAD)) then
        (apiError "Only Tribe Lead can revoke delegations" 403, db)
      else
        match id with
        | None => (apiError "Delegation ID required" 400, db)
        | Some id =>
            if bool_decide (id = "") then
              (apiError "Delegation ID required" 400, db)
            else
              let byId d := bool_decide (Delegation.id d = id) in
              match prisma.findUnique byId (DB.delegation db) with
              | None => (apiError "Internal server error" 500, db)
              | Some d =>
                  (apiResponse (deactivate d) 200,
                   DB.mk (DB.user db) (DB.attendanceRecord db)
                     (prisma.updateMany byId deactivate (DB.delegation db))
                     (DB.officeCapacity db))
              end
        end
  end.

(** ** app/api/delegations/active/route.ts *)

(** The currently effective delegation of a user at instant [now]. *)
Definition activeDelegation (db : DB.t) (userId : string) (now : Z)
    : option Delegation.t :=
  prisma.findFirst
    (fun d => bool_decide (Delegation.delegateId d = userId)
              && Delegation.isActive d
              && (Delegation.startDate d <=? now)
              && (now <=? Delegation.endDate d))
    (DB.delegation db).

Definition GET_delegations_active (db : DB.t) (x_user_email : option string)
    (now : Z) : Response (bool * option Delegation.t) :=
  match getUserFromRequest db x_user_email with
  | None => apiError "Authentication required" 401
  | Some user =>
      let activeDelegation := activeDelegation db (User.id user) now in
      apiResponse (bool_decide (is_Some activeDelegation), activeDelegation) 200
  end.

(** ** app/api/admin/reset-statistics/route.ts *)

Module ResetReport.
Record t := mk {
  message : string;
  attendance : string;
  delegations : string;
  officeCapacity : string
}.
End ResetReport.

Definition POST_admin_reset_statistics (db : DB.t)
    (x_user_email : option string) : Response ResetReport.t * DB.t :=
  match getUserFromRequest db x_user_email with
  | None => (apiError "Authentication required" 401, db)
  | Some user =>
      if negb (bool_decide (User.role user = TRIBE_LEAD)) then
        (apiError "Only the Tribe Lead can reset statistics" 403, db)
      else
        (apiResponse
           (ResetReport.mk "All statistics have been reset successfully"
              "all" "all" "all")
           200,
         DB.mk (DB.user db)
           (prisma.deleteMany (fun _ => true) (DB.attendanceRecord db))
           (prisma.deleteMany (fun _ => true) (DB.delegation db))
           (prisma.deleteMany (fun _ => true) (DB.officeCapacity db)))
  end.

(** ** The office-capacity route (GET and PUT /api/office-capacity) *)

Module WeekDay.
Record t := mk {
  day : string;
  date : string;
  capacity : Z;
  booked : Z;
  available : Z;
  isOverbooked : bool;
  utilizationPercent : Z
}.
End WeekDay.

Definition defaultCapacities : list OfficeCapacity.t :=
  [ OfficeCapacity.mk "Monday" 20;
    OfficeCapacity.mk "Tuesday" 10;
    OfficeCapacity.mk "Wednesday" 50;
    OfficeCapacity.mk "Thursday" 20;
    OfficeCapacity.mk "Friday" 50 ].

Definition dayNames : list string :=
  ["Monday"; "Tuesday"; "Wednesday"; "Thursday"; "Friday"].

Definition validDays : list string :=
  ["Monday"; "Tuesday"; "Wednesday"; "Thursday"; "Friday"].

Definition dayOfWeekAsc (x y : OfficeCapacity.t) : bool :=
  String.leb (OfficeCapacity.dayOfWeek x) (OfficeCapacity.dayOfWeek y).

(** Monday of the requested week, at local midnight. *)
Definition mondayOf (tz : Z -> bool -> Z) (today weekOffset : Z) : Z :=
  let todayLocal :=
    JSDate.fromLocal tz (JSDate.getFullYear tz today) (JSDate.getMonth tz today)
      (JSDate.getDate tz today) in
  let dayOfWeek := JSDate.getDay tz todayLocal in
  let mondayOffset := if dayOfWeek =? 0 then -6 else 1 - dayOfWeek in
  JSDate.setDate tz todayLocal
    (JSDate.getDate tz todayLocal + mondayOffset + weekOffset * 7).

(** The [i]-th day of the week that starts at [monday]. *)
Definition currentDateOf (tz : Z -> bool -> Z) (monday : Z) (i : nat) : Z :=
  JSDate.setDate tz monday (JSDate.getDate tz monday + Z.of_nat i).

(** Office bookings of the local day of [currentDate]. *)
Definition bookingsOn (tz : Z -> bool -> Z) (rows : list AttendanceRecord.t)
    (currentDate : Z) : Z :=
  let dayStart := JSDate.setHours tz currentDate 0 0 0 0 in
  let dayEnd := JSDate.setHours tz currentDate 23 59 59 999 in
  prisma.count
    (fun r => (dayStart <=? AttendanceRecord.date r)
              && (AttendanceRecord.date r <=? dayEnd)
              && bool_decide (AttendanceRecord.status r = AttendanceStatus.office))
    rows.

(** [capacitySetting?.capacity || 0]. *)
Definition capacityFor (capacitySettings : list OfficeCapacity.t)
    (dayName : string) : Z :=
  match prisma.findFirst
          (fun c => bool_decide (OfficeCapacity.dayOfWeek c = dayName))
          capacitySettings with
  | Some c => if OfficeCapacity.capacity c =? 0 then 0 else OfficeCapacity.capacity c
  | None => 0
  end.

Definition utilization (bookings capacity : Z) : Z :=
  if 0 <? capacity then
    Math_round
      (PrimFloat.mul (PrimFloat.div (toNumber bookings) (toNumber capacity))
         (toNumber 100))
  else 0.

(** One iteration of the loop over the five working days. *)
Definition weekDayEntry (tz : Z -> bool -> Z) (monday : Z)
    (rows : list AttendanceRecord.t)
    (capacitySettings : list OfficeCapacity.t) (i : nat) (dayName : string)
    : WeekDay.t :=
  let currentDate := currentDateOf tz monday i in
  let dateStr :=
    JSDate.formatYMD (JSDate.getFullYear tz currentDate)
      (JSDate.getMonth tz currentDate + 1) (JSDate.getDate tz currentDate) in
  let bookings := bookingsOn tz rows currentDate in
  let capacity := capacityFor capacitySettings dayName in
  let available := capacity - bookings in
  WeekDay.mk dayName dateStr capacity bookings
    (if 0 <? available then available else 0)
    (capacity <? bookings)
    (utilization bookings capacity).

Definition GET_office_capacity (db : DB.t) (x_user_email : option string)
    (tz : Z -> bool -> Z) (today weekOffset : Z)
    : Response (list WeekDay.t * list OfficeCapacity.t) * DB.t :=
  match getUserFromRequest db x_user_email with
  | None => (apiError "Authentication required" 401, db)
  | Some user =>
      if negb (bool_decide (User.role user = CHAPTER_LEAD))
         && negb (bool_decide (User.role user = TRIBE_LEAD)) then
        (apiError "Access denied" 403, db)
      else
        let monday := mondayOf tz today weekOffset in
        let capacitySettings := prisma.orderBy dayOfWeekAsc (DB.officeCapacity db) in
        let '(capacitySettings, db) :=
          if bool_decide (length capacitySettings = 0%nat) then
            let rows := prisma.createMany defaultCapacities (DB.officeCapacity db) in
            (prisma.orderBy dayOfWeekAsc rows,
             DB.mk (DB.user db) (DB.attendanceRecord db) (DB.delegation db) rows)
          else (capacitySettings, db) in
        let weekData :=
          imap (weekDayEntry tz monday (DB.attendanceRecord db) capacitySettings)
            dayNames in
        (apiResponse (weekData, capacitySettings) 200, db)
  end.

Definition PUT_office_capacity (db : DB.t) (x_user_email : option string)
    (dayOfWeek : option string) (capacity : option Z)
    : Response OfficeCapacity.t * DB.t :=
  match getUserFromRequest db x_user_email with
  | None => (apiError "Authentication required" 401, db)
  | Some user =>
      if negb (bool_decide (User.role user = TRIBE_LEAD)) then
        (apiError "Only Tribe Lead can update capacity" 403, db)
      else
        match dayOfWeek, capacity with
        | Some dayOfWeek, Some capacity =>
            if bool_decide (dayOfWeek = "") then
              (apiError "Missing required fields" 400, db)
            else if negb (bool_decide (dayOfWeek ∈ validDays)) then
              (apiError "Invalid day of week" 400, db)
            else if capacity <? 0 then
              (apiError "Capacity must be positive" 400, db)
            else
              let byDay c := bool_decide (OfficeCapacity.dayOfWeek c = dayOfWeek) in
              let updatedCapacity := OfficeCapacity.mk dayOfWeek capacity in
              (apiResponse updatedCapacity 200,
               DB.mk (DB.user db) (DB.attendanceRecord db) (DB.delegation db)
                 (prisma.upsert byDay (fun _ => updatedCapacity) updatedCapacity
                    (DB.officeCapacity db)))
        | _, _ => (apiError "Missing required fields" 400, db)
        end
  end.

(** ** A small organization used to exercise the handlers

    One Tribe Lead, two Chapter Leads and two Reporters; the Tribe Lead has
    delegated to reporter R1 and to chapter lead C1 from 2025-01-01 to
    2025-01-07. *)
Module Example.
Definition jan (day : Z) : Z := JSDate.daysFromCivil 2025 0 day * JSDate.msPerDay.

Definition T1 : User.t :=
  User.mk "t1" "t1@office.test" "Tess" TRIBE_LEAD None None None.
Definition C1 : User.t :=
  User.mk "c1" "c1@office.test" "Carl" CHAPTER_LEAD None (Some "Core") None.
Definition C2 : User.t :=
  User.mk "c2" "c2@office.test" "Cleo" CHAPTER_LEAD None (Some "Apps") None.
Definition R1 : User.t :=
  User.mk "r1" "r1@office.test" "Rhea" REPORTER (Some "c1") (Some "Core") None.
Definition U7 : User.t :=
  User.mk "u7" "u7@office.test" "Uma" REPORTER (Some "c2") (Some "Apps") None.

Definition D1 : Delegation.t := Delegation.mk "d1" "t1" "r1" (jan 1) (jan 7) true.
Definition D2 : Delegation.t := Delegation.mk "d2" "t1" "c1" (jan 1) (jan 7) true.

Definition A1 : AttendanceRecord.t :=
  AttendanceRecord.mk "a1" "u7" (jan 2) AttendanceStatus.office None.
Definition A2 : AttendanceRecord.t :=
  AttendanceRecord.mk "a2" "r1" (jan 2) AttendanceStatus.remote (Some "home").

Definition db : DB.t := DB.mk [T1; C1; C2; R1; U7] [A1; A2] [D1; D2] [].

(** Twelve more reporters of C2, all booked into the office on Tuesday
    2025-01-07. *)
Definition crowdNames : list string :=
  ["p01"; "p02"; "p03"; "p04"; "p05"; "p06";
   "p07"; "p08"; "p09"; "p10"; "p11"; "p12"].
Definition crowdUser (n : string) : User.t :=
  User.mk n (String.append n "@office.test") n REPORTER (Some "c2") (Some "Apps") None.
Definition crowdBooking (n : string) : AttendanceRecord.t :=
  AttendanceRecord.mk (String.append "b-" n) n (jan 7) AttendanceStatus.office None.
Definition crowded : DB.t :=
  DB.mk ([T1; C1; C2; R1; U7] ++ (crowdUser <$> crowdNames))
    ([A1; A2] ++ (crowdBooking <$> crowdNames)) [D1; D2] [].

(** Twenty-three people booked into the office on Tuesday 2025-01-07,
    against a configured capacity of forty. *)
Definition busyNames : list string :=
  crowdNames ++ ["p13"; "p14"; "p15"; "p16"; "p17"; "p18"; "p19"; "p20";
                 "p21"; "p22"; "p23"].
Definition busy : DB.t :=
  DB.mk ([T1; C1; C2; R1; U7] ++ (crowdUser <$> busyNames))
    (crowdBooking <$> busyNames) [] [OfficeCapacity.mk "Tuesday" 40].

Definition queryFor (userId : string) : getAttendanceQuerySchema.t :=
  getAttendanceQuerySchema.mk (Some userId) None None None.

Definition asT1 : option string := Some "t1@office.test".
Definition asC1 : option string := Some "c1@office.test".
Definition asR1 : option string := Some "r1@office.test".

(** Three users whose ids have the shape the request schemas ask for
    ([z.string().uuid()]), and an id of that shape that names nobody. *)
Definition tess : User.t :=
  User.mk "0b0e2f6e-6c1f-4c53-9f5e-3c1a7b2d4e01" "tess@office.test" "Tess"
    TRIBE_LEAD None None None.
Definition carl : User.t :=
  User.mk "1c9d4a7b-2e3f-4a5b-8c6d-7e8f9a0b1c02" "carl@office.test" "Carl"
    CHAPTER_LEAD None (Some "Core") None.
Definition uma : User.t :=
  User.mk "2dae5b8c-3f40-4b6c-9d7e-8f90a1b2c303" "uma@office.test" "Uma"
    REPORTER None (Some "Apps") None.
Definition nobody : string := "3ebf6c9d-4051-4c7d-8e8f-90a1b2c3d404".
Definition registered : DB.t := DB.mk [tess; carl; uma] [] [] [].
Definition asTess : option string := Some "tess@office.test".
Definition asCarl : option string := Some "carl@office.test".

(** The zone of an office in Berlin around the clock change of Sunday
    2025-03-30: one hour ahead of UTC until 01:00 UTC of that day, two
    hours ahead from then on.  The local times from 02:00 to 03:00 of
    that day are skipped and take the offset before the change. *)
Definition clockChange : Z :=
  JSDate.MakeDate (JSDate.daysFromCivil 2025 2 30) (JSDate.MakeTime 1 0 0 0).
Definition berlin (t : Z) (isUTC : bool) : Z :=
  if isUTC then (if t <? clockChange then 3600000 else 7200000)
  else (if t <? clockChange + 7200000 then 3600000 else 7200000).

(** R1's records of Monday 24, Sunday 30 and Monday 31 March 2025. *)
Definition march (day : Z) : Z := JSDate.MakeDate (JSDate.daysFromCivil 2025 2 day) 0.
Definition M24 : AttendanceRecord.t :=
  AttendanceRecord.mk "m24" "r1" (march 24) AttendanceStatus.office None.
Definition M30 : AttendanceRecord.t :=
  AttendanceRecord.mk "m30" "r1" (march 30) AttendanceStatus.remote None.
Definition M31 : AttendanceRecord.t :=
  AttendanceRecord.mk "m31" "r1" (march 31) AttendanceStatus.office None.
Definition spring : DB.t := DB.mk [T1; C1; C2; R1; U7] [M31; M30; M24] [] [].
End Example.

(** ** The access resolver as the specification words it

    These two definitions follow the specification, not the source: they
    add the clause "or the principal holds a currently effective
    delegation" to the hierarchy rule.  They are compared below with
    [canAllocateAttendance] and [getAccessibleUserIds]. *)

Definition hasEffectiveDelegation (db : DB.t) (userId : string) (now : Z) : Prop :=
  is_Some (activeDelegation db userId now).

Definition managedBy (db : DB.t) (targetUserId managerId : string) : Prop :=
  exists target, findUserById db targetUserId = Some target
                 /\ User.chapterLeadId target = Some managerId.

Definition spec_canActOnBehalfOf (db : DB.t) (now : Z) (actor : User.t)
    (targetUserId : string) : Prop :=
  User.id actor = targetUserId
  \/ User.role actor = TRIBE_LEAD
  \/ (User.role actor = CHAPTER_LEAD /\ managedBy db targetUserId (User.id actor))
  \/ hasEffectiveDelegation db (User.id actor) now.

Definition allUserIds (db : DB.t) : gset string :=
  list_to_set (User.id <$> DB.user db).

Definition directReportIds (db : DB.t) (managerId : string) : gset string :=
  list_to_set
    (User.id <$> filter (fun u => User.chapterLeadId u = Some managerId) (DB.user db)).

Definition spec_accessibleReadSet (db : DB.t) (now : Z) (principal : User.t)
    : gset string :=
  match User.role principal with
  | TRIBE_LEAD => allUserIds db
  | CHAPTER_LEAD => {[ User.id principal ]} ∪ directReportIds db (User.id principal)
  | REPORTER =>
      if bool_decide (hasEffectiveDelegation db (User.id principal) now)
      then allUserIds db
      else {[ User.id principal ]}
  end.

(** ** The requested week and its occupancy as the specification words
       them *)

(** The local day number of the Monday of the week that holds [today],
    shifted by [weekOffset] whole weeks. *)
Definition spec_weekStartDay (tz : Z -> bool -> Z) (today weekOffset : Z) : Z :=
  JSDate.localDay tz today - (JSDate.getDay tz today + 6) `mod` 7 + 7 * weekOffset.

(** A record is stamped with a calendar day when its instant is UTC
    midnight of that day: this is what [new Date("YYYY-MM-DD")] stores. *)
Definition stampedOn (day : Z) (r : AttendanceRecord.t) : Prop :=
  AttendanceRecord.date r = JSDate.MakeDate day 0.

#[global] Instance stampedOn_dec day r : Decision (stampedOn day r).
Proof. unfold stampedOn. apply _. Defined.

Definition dateOnly (r : AttendanceRecord.t) : Prop :=
  JSDate.TimeWithinDay (AttendanceRecord.date r) = 0.

#[global] Instance dateOnly_dec r : Decision (dateOnly r).
Proof. unfold dateOnly. apply _. Defined.

(** The attendance records with status office stamped with a calendar
    day. *)
Definition officeRecordsOn (rows : list AttendanceRecord.t) (day : Z)
    : list AttendanceRecord.t :=
  filter (fun r => stampedOn day r
                   /\ AttendanceRecord.status r = AttendanceStatus.office) rows.

(** The value of a finite binary64 number, as a fraction with a positive
    denominator. *)
Definition exactValue (x : float) : option (Z * Z) :=
  match Prim2SF x with
  | S754_zero _ => Some (0, 1)
  | S754_finite s m e =>
      let n := if s then Z.neg m else Z.pos m in
      if 0 <=? e then Some (n * 2 ^ e, 1) else Some (n, 2 ^ (- e))
  | _ => None
  end.

(** [p] is the fraction [num / den] rounded to the nearest integer, a tie
    going upward: [p - 1/2 <= num / den < p + 1/2]. *)
Definition nearestTiesUp (num den p : Z) : Prop :=
  (2 * p - 1) * den <= 2 * num < (2 * p + 1) * den.

(** ** Store invariants *)

(** The active delegations of a delegate. *)
Definition activeFor (delegateId : string) (d : Delegation.t) : bool :=
  bool_decide (Delegation.delegateId d = delegateId) && Delegation.isActive d.

Definition atMostOneActive (db : DB.t) : Prop :=
  forall delegateId,
    (length (prisma.findMany (activeFor delegateId) (DB.delegation db)) <= 1)%nat.

(** The unique key of the attendance table. *)
Definition uniqueKey (r : AttendanceRecord.t) : string * Z :=
  (AttendanceRecord.userId r, AttendanceRecord.date r).

Definition uniqueUserIdDate (db : DB.t) : Prop :=
  NoDup (uniqueKey <$> DB.attendanceRecord db).

Definition recordsOf (db : DB.t) (userId : string) (date : Z)
    : list AttendanceRecord.t :=
  prisma.findMany (userId_date userId date) (DB.attendanceRecord db).

(** ** lib/permissions: the remaining helpers *)

Definition hasMinimumRole (u : User.t) (minimumRole : UserRole) : bool :=
  let roleHierarchy (r : UserRole) : Z :=
    match r with
    | REPORTER => 1
    | CHAPTER_LEAD => 2
    | TRIBE_LEAD => 3
    end in
  roleHierarchy (User.role u) >=? roleHierarchy minimumRole.

Definition canAccessUser (db : DB.t) (currentUser : User.t)
    (targetUserId : string) : bool :=
  if bool_decide (User.id currentUser = targetUserId) then true
  else if isTribeLead currentUser then true
  else if isChapterLead currentUser then
    let targetUser := findUserById db targetUserId in
    bool_decide (targetUser ≫= User.chapterLeadId = Some (User.id currentUser))
  else false.

Definition canModifyAttendance (db : DB.t) (u : User.t)
    (attendanceUserId : string) : bool :=
  canAllocateAttendance db u attendanceUserId.

Module AnalyticsScope.
Inductive t := self | team | organization.
End AnalyticsScope.

Definition canViewAnalytics (u : User.t) (scope : AnalyticsScope.t) : bool :=
  match scope with
  | AnalyticsScope.self => true
  | AnalyticsScope.team => isChapterLead u || isTribeLead u
  | AnalyticsScope.organization => isTribeLead u
  end.

Definition getMaxAnalyticsScope (u : User.t) : AnalyticsScope.t :=
  if isTribeLead u then AnalyticsScope.organization
  else if isChapterLead u then AnalyticsScope.team
  else AnalyticsScope.self.

Module ExportScope.
Inductive t := own | team | organization.
End ExportScope.

Definition canExportData (u : User.t) (scope : ExportScope.t) : bool :=
  match scope with
  | ExportScope.own => true
  | ExportScope.team => isChapterLead u || isTribeLead u
  | ExportScope.organization => isTribeLead u
  end.

Definition canViewTeam (u : User.t) (chapterLeadId : string) : bool :=
  if isTribeLead u then true
  else if isChapterLead u && bool_decide (User.id u = chapterLeadId) then true
  else if isReporter u && bool_decide (User.chapterLeadId u = Some chapterLeadId)
  then true
  else false.

Definition canManageTeam (u : User.t) : bool := isChapterLead u || isTribeLead u.
Definition canAccessAdmin (u : User.t) : bool := isTribeLead u.
Definition canModifyRoles (u : User.t) : bool := isTribeLead u.
Definition canManageUsers (u : User.t) : bool := isTribeLead u.
Definition canAssignChapterLeads (u : User.t) : bool := isTribeLead u.

Definition isManagedBy (u : User.t) (chapterLeadId : string) : bool :=
  bool_decide (User.chapterLeadId u = Some chapterLeadId).

Definition getChapterLead (db : DB.t) (u : User.t) : option User.t :=
  match User.chapterLeadId u with
  | None => None
  | Some chapterLeadId =>
      if bool_decide (chapterLeadId = "") then None
      else findUserById db chapterLeadId
  end.

Definition validateTargetUser (db : DB.t) (targetUserId : string)
    : option User.t :=
  findUserById db targetUserId.

(** The order of the three analytics scopes, narrowest first. *)
Definition scopeRank (s : AnalyticsScope.t) : Z :=
  match s with
  | AnalyticsScope.self => 1
  | AnalyticsScope.team => 2
  | AnalyticsScope.organization => 3
  end.

(** ** lib/auth-helpers: the guards *)

(** [getCurrentUser]: the principal named by the [x-user-id] header. *)
Definition getCurrentUser (db : DB.t) (x_user_id : option string)
    : option User.t :=
  match x_user_id with
  | None => None
  | Some userId =>
      if bool_decide (userId = "") then None else findUserById db userId
  end.

(** [{ user } | { error }] as a sum: the error response on the left. *)
Definition requireAuth (db : DB.t) (x_user_id : option string)
    : Response () + User.t :=
  match getCurrentUser db x_user_id with
  | None => inl (apiError "Authentication required" 401)
  | Some u => inr u
  end.

Definition requireRole (db : DB.t) (x_user_id : option string)
    (minimumRole : UserRole) : Response () + User.t :=
  match requireAuth db x_user_id with
  | inl error => inl error
  | inr u =>
      let roleHierarchy (r : UserRole) : Z :=
        match r with
        | REPORTER => 1
        | CHAPTER_LEAD => 2
        | TRIBE_LEAD => 3
        end in
      if roleHierarchy (User.role u) <? roleHierarchy minimumRole then
        inl (apiError "Insufficient permissions" 403)
      else inr u
  end.

(** ** app/api/attendance/[id]/route.ts (PATCH and DELETE) *)

(** The output of [updateAttendanceSchema]: each field may be absent;
    [notes] may also be null. *)
Module updateAttendanceSchema.
Record t := mk {
  status_ : option createAttendanceSchema.status;
  notes : option (option string)
}.
End updateAttendanceSchema.

(** [data: validation.data]: only the fields that are present are
    written. *)
Definition applyUpdate (data : updateAttendanceSchema.t)
    (r : AttendanceRecord.t) : AttendanceRecord.t :=
  AttendanceRecord.mk (AttendanceRecord.id r) (AttendanceRecord.userId r)
    (AttendanceRecord.date r)
    (match updateAttendanceSchema.status_ data with
     | Some status => createAttendanceSchema.stored status
     | None => AttendanceRecord.status r
     end)
    (match updateAttendanceSchema.notes data with
     | Some notes => notes
     | None => AttendanceRecord.notes r
     end).

Definition byRecordId (id : string) (r : AttendanceRecord.t) : bool :=
  bool_decide (AttendanceRecord.id r = id).

Definition PATCH_attendance_id (db : DB.t) (x_user_email : option string)
    (id : string) (data : updateAttendanceSchema.t)
    : Response (WithUser.t UserSummary.t) * DB.t :=
  match getUserFromRequest db x_user_email with
  | None => (apiError "Authentication required" 401, db)
  | Some user =>
      match findAttendanceById db id with
      | None => (apiError "Attendance record not found" 404, db)
      | Some existingRecord =>
          if negb (bool_decide (AttendanceRecord.userId existingRecord = User.id user))
             && negb (bool_decide (User.role user = TRIBE_LEAD)) then
            (apiError "Forbidden" 403, db)
          else
            let db' :=
              DB.mk (DB.user db)
                (prisma.updateMany (byRecordId id) (applyUpdate data)
                   (DB.attendanceRecord db))
                (DB.delegation db) (DB.officeCapacity db) in
            (apiResponse
               (includeUser UserSummary.select db' (applyUpdate data existingRecord))
               200, db')
      end
  end.

Definition DELETE_attendance_id (db : DB.t) (x_user_email : option string)
    (id : string) : Response string * DB.t :=
  match getUserFromRequest db x_user_email with
  | None => (apiError "Authentication required" 401, db)
  | Some user =>
      match findAttendanceById db id with
      | None => (apiError "Attendance record not found" 404, db)
      | Some existingRecord =>
          if negb (bool_decide (AttendanceRecord.userId existingRecord = User.id user))
             && negb (bool_decide (User.role user = TRIBE_LEAD)) then
            (apiError "Forbidden" 403, db)
          else
            (apiResponse "Attendance record deleted successfully" 200,
             DB.mk (DB.user db)
               (prisma.deleteMany (byRecordId id) (DB.attendanceRecord db))
               (DB.delegation db) (DB.officeCapacity db))
      end
  end.

(** Who may change or remove a record through its id. *)
Definition ownerOrTribeLead (principal : User.t) (r : AttendanceRecord.t) : Prop :=
  AttendanceRecord.userId r = User.id principal \/ User.role principal = TRIBE_LEAD.

(** [where: { dayOfWeek }]. *)
Definition byDay (dayOfWeek : string) (c : OfficeCapacity.t) : bool :=
  bool_decide (OfficeCapacity.dayOfWeek c = dayOfWeek).

(** The statuses the two write vocabularies share. *)
Definition sharedStatus (s : allocateSchema.status)
    : option createAttendanceSchema.status :=
  match s with
  | allocateSchema.office => Some createAttendanceSchema.office
  | allocateSchema.remote => Some createAttendanceSchema.remote
  | allocateSchema.off => None
  end.

(** ** app/api/users/route.ts (GET) and app/api/users/[id]/route.ts (GET) *)

(** [orderBy: { name: "asc" }]. *)
Definition nameAsc (x y : User.t) : bool := String.leb (User.name x) (User.name y).

(** The selected columns are those of [User.t] (and timestamps, which the
    rows here do not carry), so a selected row is the row itself. *)
Definition GET_users (db : DB.t) (x_user_email : option string)
    : Response (list User.t) :=
  match getUserFromRequest db x_user_email with
  | None => apiError "Authentication required" 401
  | Some user =>
      let accessibleUserIds := getAccessibleUserIds db user in
      let users :=
        prisma.orderBy nameAsc
          (prisma.findMany (fun u => bool_decide (User.id u ∈ accessibleUserIds))
             (DB.user db)) in
      apiResponse users 200
  end.

Definition GET_users_id (db : DB.t) (x_user_email : option string)
    (id : string) : Response User.t :=
  match getUserFromRequest db x_user_email with
  | None => apiError "Authentication required" 401
  | Some currentUser =>
      let canAccess := canAccessUser db currentUser id in
      if negb canAccess then
        apiError "You do not have permission to access this user" 403
      else
        match findUserById db id with
        | None => apiError "User not found" 404
        | Some user => apiResponse user 200
        end
  end.

(** ** app/api/teams/hierarchy/route.ts *)

Module TeamMember.
Record t := mk {
  id : string;
  name : string;
  email : string;
  role : UserRole;
  teamName : option string
}.

Definition select (u : User.t) : t :=
  mk (User.id u) (User.name u) (User.email u) (User.role u) (User.teamName u).
End TeamMember.

(** A Chapter Lead row with [include: { directReports, _count }]. *)
Module WithReports.
Record t := mk {
  lead : User.t;
  directReports : list TeamMember.t;
  count_directReports : nat
}.
End WithReports.

(** An entry of [chapterLeads] in the response; [chapterLeadId] is a key
    of the Tribe Lead's view only. *)
Module ChapterLeadEntry.
Record t := mk {
  id : string;
  name : string;
  email : string;
  role : UserRole;
  teamName : option string;
  chapterLeadId : option (option string);
  directReportsCount : nat;
  directReports : list TeamMember.t
}.
End ChapterLeadEntry.

(** The response body; [totalUsers] is a key of the Tribe Lead's view
    only. *)
Module Hierarchy.
Record t := mk {
  tribeLead : option TeamMember.t;
  chapterLeads : list ChapterLeadEntry.t;
  totalChapterLeads : nat;
  totalReporters : nat;
  totalUsers : option nat
}.
End Hierarchy.

Definition reportsOf (db : DB.t) (cl : User.t) : list User.t :=
  prisma.findMany (fun u => bool_decide (User.chapterLeadId u = Some (User.id cl)))
    (DB.user db).

Definition includeDirectReports (db : DB.t) (cl : User.t) : WithReports.t :=
  WithReports.mk cl
    (TeamMember.select <$> prisma.orderBy nameAsc (reportsOf db cl))
    (length (reportsOf db cl)).

Definition ownTeamEntry (myTeam : WithReports.t) : ChapterLeadEntry.t :=
  let cl := WithReports.lead myTeam in
  ChapterLeadEntry.mk (User.id cl) (User.name cl) (User.email cl) (User.role cl)
    (User.teamName cl) None
    (WithReports.count_directReports myTeam) (WithReports.directReports myTeam).

Definition fullEntry (cl : WithReports.t) : ChapterLeadEntry.t :=
  let u := WithReports.lead cl in
  ChapterLeadEntry.mk (User.id u) (User.name u) (User.email u) (User.role u)
    (User.teamName u) (Some (User.chapterLeadId u))
    (WithReports.count_directReports cl) (WithReports.directReports cl).

(** [chapterLeads.reduce((sum, cl) => sum + cl._count.directReports, 0)]. *)
Definition sumDirectReports (chapterLeads : list WithReports.t) : nat :=
  foldl (fun sum cl => (sum + WithReports.count_directReports cl)%nat) 0%nat
    chapterLeads.

Definition GET_teams_hierarchy (db : DB.t) (x_user_email : option string)
    : Response Hierarchy.t :=
  match getUserFromRequest db x_user_email with
  | None => apiError "Authentication required" 401
  | Some user =>
      if bool_decide (User.role user = REPORTER) then
        apiError "Insufficient permissions" 403
      else
        let tribeLead :=
          TeamMember.select <$>
            prisma.findFirst (fun u => bool_decide (User.role u = TRIBE_LEAD))
              (DB.user db) in
        let chapterLeads :=
          includeDirectReports db <$>
            prisma.orderBy nameAsc
              (prisma.findMany (fun u => bool_decide (User.role u = CHAPTER_LEAD))
                 (DB.user db)) in
        if bool_decide (User.role user = CHAPTER_LEAD) then
          match
            List.find
              (fun cl => bool_decide (User.id (WithReports.lead cl) = User.id user))
              chapterLeads
          with
          | None => apiError "Team not found" 404
          | Some myTeam =>
              apiResponse
                (Hierarchy.mk tribeLead [ownTeamEntry myTeam] 1
                   (length (WithReports.directReports myTeam)) None)
                200
          end
        else
          apiResponse
            (Hierarchy.mk tribeLead (fullEntry <$> chapterLeads)
               (length chapterLeads) (sumDirectReports chapterLeads)
               (Some (1 + length chapterLeads + sumDirectReports chapterLeads)%nat))
            200
  end.

(** Whether a user's [chapterLeadId] names a user with role
    CHAPTER_LEAD. *)
Definition reportsToChapterLead (db : DB.t) (u : User.t) : bool :=
  bool_decide
    (User.chapterLeadId u
     ∈ (fun cl => Some (User.id cl)) <$>
         prisma.findMany (fun cl => bool_decide (User.role cl = CHAPTER_LEAD))
           (DB.user db)).

(** ** The transition relation of the store

    One request served from start to end by a handler that writes to the
    store.  The user routes ([POST /api/users], [PATCH] and [DELETE
    /api/users/[id]]) write the user table, and a deletion may take the
    user's attendance records and delegations with it, by the cascade
    rules of the Prisma schema; the schema is not among the files, so a
    user request is any change of the user table together with the
    removal of any rows of these two tables. *)
Inductive step : DB.t -> DB.t -> Prop :=
  | step_POST_attendance db h body newId :
      step db (POST_attendance db h body newId).2
  | step_POST_attendance_allocate db h body newId :
      step db (POST_attendance_allocate db h body newId).2
  | step_PATCH_attendance_id db h id data :
      step db (PATCH_attendance_id db h id data).2
  | step_DELETE_attendance_id db h id :
      step db (DELETE_attendance_id db h id).2
  | step_POST_delegations db h body newId :
      step db (run (POST_delegations_task h body newId) db).2
  | step_DELETE_delegations db h id :
      step db (DELETE_delegations db h id).2
  | step_POST_admin_reset_statistics db h :
      step db (POST_admin_reset_statistics db h).2
  | step_GET_office_capacity db h tz today weekOffset :
      step db (GET_office_capacity db h tz today weekOffset).2
  | step_PUT_office_capacity db h dayOfWeek capacity :
      step db (PUT_office_capacity db h dayOfWeek capacity).2
  | step_users db users attendance delegations :
      attendance `sublist_of` DB.attendanceRecord db ->
      delegations `sublist_of` DB.delegation db ->
      step db (DB.mk users attendance delegations (DB.officeCapacity db)).

(** The stores reached from a store without delegations when requests
    are served one at a time. *)
Inductive reachable : DB.t -> Prop :=
  | reachable_init db : DB.delegation db = [] -> reachable db
  | reachable_step db db' : reachable db -> step db db' -> reachable db'.

(** *** Requests served concurrently

    The server holds the store and the creation requests in flight; in
    one move a request arrives, or the request at position [i] makes its
    next store call (or, when it has none left, answers and leaves). *)
Definition Server : Type := DB.t * list (Task (Response Delegation.t)).

Definition advance (i : nat) (server : Server) : Server :=
  match server.2 !! i with
  | Some (Await call next) => (call server.1, <[i := next server.1]> server.2)
  | Some (Return _) => (server.1, delete i server.2)
  | None => server
  end.

Inductive interleaved : Server -> Server -> Prop :=
  | interleaved_arrive db inFlight h body newId :
      interleaved (db, inFlight)
        (db, inFlight ++ [POST_delegations_task h body newId])
  | interleaved_advance server i :
      interleaved server (advance i server).

(** A schedule: which request moves at each step. *)
Definition schedule (moves : list nat) (server : Server) : Server :=
  foldl (fun server i => advance i server) server moves.

(** * Properties *)

(** ** The table operations *)

Section TableFacts.
Context {A : Type}.
Implicit Types (p : A -> bool) (rows : list A).

Lemma findMany_elem p rows x :
  x ∈ prisma.findMany p rows <-> p x = true /\ x ∈ rows.
Proof. unfold prisma.findMany. by rewrite list_elem_of_filter. Qed.

Lemma findFirst_Some p rows x :
  prisma.findFirst p rows = Some x -> x ∈ rows /\ p x = true.
Proof.
  intros H. apply head_Some_elem_of in H.
  apply findMany_elem in H. tauto.
Qed.

Lemma findFirst_None p rows :
  prisma.findFirst p rows = None <-> forall x, x ∈ rows -> p x = false.
Proof.
  unfold prisma.findFirst. rewrite head_None. split.
  - intros H x Hx. destruct (p x) eqn:E; [|done].
    exfalso. eapply (filter_nil_not_elem_of _ rows x); eauto.
  - intros H. induction rows as [|y rows IH]; [done|].
    unfold prisma.findMany in *. rewrite filter_cons_False.
    + apply IH. intros x Hx. apply H. by right.
    + rewrite (H y); [done | by left].
Qed.

Lemma findFirst_is_Some p rows x :
  x ∈ rows -> p x = true -> is_Some (prisma.findFirst p rows).
Proof.
  intros Hx Hp. destruct (prisma.findFirst p rows) eqn:E; [by eexists|].
  rewrite findFirst_None in E. specialize (E x Hx). congruence.
Qed.

Lemma orderBy_elem (le : A -> A -> bool) rows x :
  x ∈ prisma.orderBy le rows <-> x ∈ rows.
Proof. unfold prisma.orderBy. by rewrite merge_sort_Permutation. Qed.

Lemma orderBy_Permutation (le : A -> A -> bool) rows :
  prisma.orderBy le rows ≡ₚ rows.
Proof. apply merge_sort_Permutation. Qed.

Lemma findMany_updateMany_out p q (f : A -> A) rows :
  (forall r, q r = true -> p (f r) = false) ->
  (forall r, q r = false -> p r = true -> False) ->
  prisma.findMany p (prisma.updateMany q f rows) = [].
Proof.
  intros Hin Hout. unfold prisma.findMany, prisma.updateMany.
  induction rows as [|r rows IH]; [done|].
  rewrite fmap_cons, filter_cons_False; [done|].
  destruct (q r) eqn:E.
  - rewrite (Hin r E). done.
  - intros Hp. by apply (Hout r).
Qed.

Lemma findMany_updateMany_same p q (f : A -> A) rows :
  (forall r, q r = true -> p r = false /\ p (f r) = false) ->
  prisma.findMany p (prisma.updateMany q f rows) = prisma.findMany p rows.
Proof.
  intros H. unfold prisma.findMany, prisma.updateMany.
  induction rows as [|r rows IH]; [done|].
  rewrite fmap_cons, !filter_cons, IH.
  destruct (q r) eqn:E; [|done].
  destruct (H r E) as [-> ->]. done.
Qed.

Lemma findMany_updateMany_length p q (f : A -> A) rows :
  (forall r, p (f r) = true -> p r = true) ->
  (length (prisma.findMany p (prisma.updateMany q f rows))
   <= length (prisma.findMany p rows))%nat.
Proof.
  intros H. unfold prisma.findMany, prisma.updateMany.
  induction rows as [|r rows IH]; [done|].
  rewrite fmap_cons, !filter_cons.
  destruct (q r) eqn:E.
  - destruct (p (f r)) eqn:F.
    + rewrite (H r F). rewrite !decide_True by done. simpl. lia.
    + rewrite decide_False by done. case_decide; simpl; lia.
  - case_decide; simpl; lia.
Qed.

Lemma findMany_updateMany_fmap p (f : A -> A) rows :
  (forall r, p (f r) = p r) ->
  prisma.findMany p (prisma.updateMany p f rows) = f <$> prisma.findMany p rows.
Proof.
  intros H. unfold prisma.findMany, prisma.updateMany.
  induction rows as [|r rows IH]; [done|].
  rewrite fmap_cons, !filter_cons, IH.
  destruct (p r) eqn:E.
  - rewrite H, E. rewrite !decide_True by done. done.
  - rewrite E. rewrite !decide_False by done. done.
Qed.

Lemma updateMany_id q (f : A -> A) rows :
  (forall r, r ∈ rows -> q r = true -> f r = r) ->
  prisma.updateMany q f rows = rows.
Proof.
  intros H. unfold prisma.updateMany.
  induction rows as [|r rows IH]; [done|].
  rewrite fmap_cons. f_equal.
  - destruct (q r) eqn:E; [|done]. apply H; [by left | done].
  - apply IH. intros r' Hr'. apply H. by right.
Qed.

Lemma updateMany_fmap {B} (key : A -> B) q (f : A -> A) rows :
  (forall r, key (f r) = key r) ->
  key <$> prisma.updateMany q f rows = key <$> rows.
Proof.
  intros H. unfold prisma.updateMany.
  rewrite <- list_fmap_compose. apply list_fmap_ext.
  intros _ r _. simpl. destruct (q r); [apply H | done].
Qed.
End TableFacts.

(** ** Access resolver *)

Lemma findMany_all {A} (rows : list A) : prisma.findMany (fun _ => true) rows = rows.
Proof.
  unfold prisma.findMany. induction rows as [|r rows IH]; [done|].
  rewrite filter_cons_True by done. by rewrite IH.
Qed.

Lemma getUserFromRequest_Some db h u :
  getUserFromRequest db h = Some u -> u ∈ DB.user db /\ h = Some (User.email u).
Proof.
  unfold getUserFromRequest. destruct h as [e|]; [|done].
  case_bool_decide; [done|]. intros Hf.
  apply findFirst_Some in Hf as [Hin He].
  apply bool_decide_eq_true in He. by subst.
Qed.

Lemma findUserById_Some db userId u :
  findUserById db userId = Some u -> u ∈ DB.user db /\ User.id u = userId.
Proof.
  intros H. apply findFirst_Some in H as [Hin He].
  by apply bool_decide_eq_true in He.
Qed.

Lemma findUserById_None db userId :
  findUserById db userId = None <-> userId ∉ User.id <$> DB.user db.
Proof.
  unfold findUserById, prisma.findUnique. rewrite findFirst_None. split.
  - intros H [u [-> Hu]]%list_elem_of_fmap.
    specialize (H u Hu). by apply bool_decide_eq_false in H.
  - intros H u Hu. apply bool_decide_eq_false. intros <-.
    apply H. by apply list_elem_of_fmap_2.
Qed.

Lemma findUserById_is_Some db u : u ∈ DB.user db -> is_Some (findUserById db (User.id u)).
Proof.
  intros Hu. apply (findFirst_is_Some _ _ u); [done|].
  by apply bool_decide_eq_true.
Qed.

(** The write authorization is the hierarchy rule and nothing else. *)
Lemma canAllocateAttendance_hierarchy db allocator targetUserId :
  canAllocateAttendance db allocator targetUserId = true <->
  User.id allocator = targetUserId
  \/ User.role allocator = TRIBE_LEAD
  \/ (User.role allocator = CHAPTER_LEAD
      /\ managedBy db targetUserId (User.id allocator)).
Proof.
  unfold canAllocateAttendance, isTribeLead, isChapterLead, managedBy.
  case_bool_decide as Hself; [tauto|].
  case_bool_decide as Htl; [tauto|].
  case_bool_decide as Hcl.
  - rewrite bool_decide_eq_true. split.
    + intros H. right; right. split; [done|].
      destruct (findUserById db targetUserId) as [t|]; [|done]. by exists t.
    + intros [?|[?|[_ [t [-> Ht]]]]]; done.
  - split; [done|]. intros [?|[?|[? _]]]; done.
Qed.

Lemma canAllocateAttendance_ignores_delegations db delegations allocator target :
  canAllocateAttendance
    (DB.mk (DB.user db) (DB.attendanceRecord db) delegations (DB.officeCapacity db))
    allocator target
  = canAllocateAttendance db allocator target.
Proof. reflexivity. Qed.

(** C1 (as amended): [canAllocateAttendance] holds exactly when the actor
    is the target, or is the Tribe Lead, or is a Chapter Lead whose id is
    the target's [chapterLeadId]; the delegation table is not consulted;
    and a Reporter who names another user in [POST /api/attendance] is
    answered 403 with the store unchanged, whatever delegations exist. *)
Theorem canAllocateAttendance_is_hierarchy_only
    db h actor (body : createAttendanceSchema.t) newId :
  getUserFromRequest db h = Some actor ->
  (canAllocateAttendance db actor (createAttendanceSchema.userId body) = true <->
     User.id actor = createAttendanceSchema.userId body
     \/ User.role actor = TRIBE_LEAD
     \/ (User.role actor = CHAPTER_LEAD
         /\ managedBy db (createAttendanceSchema.userId body) (User.id actor)))
  /\ (forall delegations,
        canAllocateAttendance
          (DB.mk (DB.user db) (DB.attendanceRecord db) delegations (DB.officeCapacity db))
          actor (createAttendanceSchema.userId body)
        = canAllocateAttendance db actor (createAttendanceSchema.userId body))
  /\ (User.role actor = REPORTER ->
      User.id actor <> createAttendanceSchema.userId body ->
      POST_attendance db h body newId
      = (apiError
           "You do not have permission to allocate attendance for this user" 403,
         db)).
Proof.
  intros Hauth. split; [apply canAllocateAttendance_hierarchy|].
  split; [intros; apply canAllocateAttendance_ignores_delegations|].
  intros Hrole Hne. unfold POST_attendance. rewrite Hauth.
  destruct (canAllocateAttendance db actor (createAttendanceSchema.userId body)) eqn:E;
    [|done].
  apply canAllocateAttendance_hierarchy in E as [?|[?|[? _]]]; congruence.
Qed.

(** Witness for C1: reporter R1, inside the delegation window, writes for
    U7. *)
Lemma canAllocateAttendance_is_hierarchy_only_witness :
  hasEffectiveDelegation Example.db "r1" (Example.jan 3)
  /\ POST_attendance Example.db Example.asR1
       (createAttendanceSchema.mk "u7" (Example.jan 3) createAttendanceSchema.office None)
       "a9"
     = (apiError
          "You do not have permission to allocate attendance for this user" 403,
        Example.db).
Proof.
  split; [by eexists|].
  apply (canAllocateAttendance_is_hierarchy_only Example.db Example.asR1 Example.R1
           (createAttendanceSchema.mk "u7" (Example.jan 3) createAttendanceSchema.office None)
           "a9"); [reflexivity | reflexivity | discriminate].
Defined.

(** C1 fails as stated: on 2025-01-03 reporter R1 holds a currently
    effective delegation, so the specification's rule authorizes the write
    for U7, while the code's rule does not and the upsert is answered 403. *)
Lemma canActOnBehalfOf_delegation_counterexample :
  spec_canActOnBehalfOf Example.db (Example.jan 3) Example.R1 "u7"
  /\ ~ (canAllocateAttendance Example.db Example.R1 "u7" = true <->
        spec_canActOnBehalfOf Example.db (Example.jan 3) Example.R1 "u7")
  /\ statusOf
       (POST_attendance Example.db Example.asR1
          (createAttendanceSchema.mk "u7" (Example.jan 3) createAttendanceSchema.office None)
          "a9").1 = 403.
Proof.
  assert (Hspec : spec_canActOnBehalfOf Example.db (Example.jan 3) Example.R1 "u7").
  { right; right; right. by eexists. }
  split; [done|]. split; [|reflexivity].
  intros [_ H]. specialize (H Hspec). discriminate.
Qed.

(** C2 (as amended): the read set is every user id for the Tribe Lead, the
    Chapter Lead's own id and the ids of the users whose [chapterLeadId] is
    theirs, and the Reporter's own id, with or without a delegation. *)
Theorem getAccessibleUserIds_by_role db (principal : User.t) :
  list_to_set (getAccessibleUserIds db principal) =@{gset string}
  match User.role principal with
  | TRIBE_LEAD => allUserIds db
  | CHAPTER_LEAD =>
      {[ User.id principal ]} ∪ directReportIds db (User.id principal)
  | REPORTER => {[ User.id principal ]}
  end.
Proof.
  unfold getAccessibleUserIds, isTribeLead, isChapterLead, allUserIds, directReportIds.
  destruct (User.role principal) eqn:Hrole.
  - rewrite !bool_decide_eq_false_2 by done. simpl. apply (right_id_L ∅ (∪)).
  - rewrite bool_decide_eq_false_2, bool_decide_eq_true_2 by done.
    rewrite list_to_set_cons. f_equal. f_equal. f_equal.
    apply list_filter_iff. intros u. apply bool_decide_eq_true.
  - rewrite bool_decide_eq_true_2 by done. by rewrite findMany_all.
Qed.

(** C2 fails as stated: inside the delegation window the specification
    gives reporter R1 every user id, the code gives R1 alone. *)
Lemma accessibleReadSet_delegation_counterexample :
  hasEffectiveDelegation Example.db "r1" (Example.jan 3)
  /\ getAccessibleUserIds Example.db Example.R1 = ["r1"]
  /\ list_to_set (getAccessibleUserIds Example.db Example.R1)
     <> spec_accessibleReadSet Example.db (Example.jan 3) Example.R1.
Proof.
  assert (Hd : hasEffectiveDelegation Example.db "r1" (Example.jan 3)) by (by eexists).
  split; [done|]. split; [reflexivity|].
  unfold spec_accessibleReadSet. simpl User.role. simpl User.id.
  rewrite bool_decide_eq_true_2 by done.
  intros H.
  assert (Hin : "u7" ∈ allUserIds Example.db).
  { unfold allUserIds. apply elem_of_list_to_set. simpl. set_solver. }
  rewrite <- H in Hin. apply elem_of_list_to_set in Hin.
  simpl in Hin. set_solver.
Qed.

(** ** Attendance retrieval *)

Lemma attendanceWhere_userId userIdFilter gte lte status r :
  attendanceWhere userIdFilter gte lte status r = true ->
  userIdFilter (AttendanceRecord.userId r) = true.
Proof.
  unfold attendanceWhere. intros H.
  by repeat (apply andb_prop in H as [H _]).
Qed.

Lemma accessible_ids_exist db u x :
  u ∈ DB.user db -> x ∈ getAccessibleUserIds db u -> x ∈ User.id <$> DB.user db.
Proof.
  intros Hu. unfold getAccessibleUserIds.
  destruct (isTribeLead u); [by rewrite findMany_all|].
  destruct (isChapterLead u).
  - intros [->|Hx]%elem_of_cons; [by apply list_elem_of_fmap_2|].
    apply list_elem_of_fmap in Hx as [v [-> Hv]].
    apply findMany_elem in Hv as [_ Hv]. by apply list_elem_of_fmap_2.
  - intros ->%list_elem_of_singleton. by apply list_elem_of_fmap_2.
Qed.

(** C3 (as amended): every record returned by the attendance list
    (filtered by date range, status or explicit target) belongs to a user
    of the principal's read set. *)
Theorem GET_attendance_within_read_set db h principal query records status :
  getUserFromRequest db h = Some principal ->
  GET_attendance db h query = apiResponse records status ->
  forall r, r ∈ records ->
    AttendanceRecord.userId (WithUser.record r)
    ∈ getAccessibleUserIds db principal.
Proof.
  intros Hauth. unfold GET_attendance. rewrite Hauth.
  destruct (getAttendanceQuerySchema.userId query) as [userId|] eqn:Hq.
  - case_bool_decide as Hacc; simpl; [|done].
    destruct (dateBound _) as [gte|]; [|done].
    destruct (dateBound _) as [lte|]; [|done].
    intros [= <- _] r [r0 [-> Hr0]]%list_elem_of_fmap. simpl.
    apply orderBy_elem, findMany_elem in Hr0 as [Hw _].
    apply attendanceWhere_userId, bool_decide_eq_true in Hw. by rewrite Hw.
  - destruct (dateBound _) as [gte|]; [|done].
    destruct (dateBound _) as [lte|]; [|done].
    intros [= <- _] r [r0 [-> Hr0]]%list_elem_of_fmap. simpl.
    apply orderBy_elem, findMany_elem in Hr0 as [Hw _].
    by apply attendanceWhere_userId, bool_decide_eq_true in Hw.
Qed.

(** Witness for C3: reporter R1 lists attendance and sees R1's record
    only. *)
Lemma GET_attendance_within_read_set_witness :
  exists records,
    GET_attendance Example.db Example.asR1
      (getAttendanceQuerySchema.mk None None None None)
    = apiResponse records 200
    /\ Forall
         (fun r => AttendanceRecord.userId (WithUser.record r)
                   ∈ getAccessibleUserIds Example.db Example.R1)
         records.
Proof.
  eexists. split; [vm_compute; reflexivity|].
  apply Forall_forall. intros r Hr.
  refine (GET_attendance_within_read_set Example.db Example.asR1 Example.R1
            (getAttendanceQuerySchema.mk None None None None) _ 200
            eq_refl _ r Hr).
  reflexivity.
Defined.

(** The week view applies its date window and nothing else: every stored
    record of the window is returned to every authenticated principal. *)
Lemma GET_attendance_week_unfiltered db h principal tz now weekParam :
  getUserFromRequest db h = Some principal ->
  exists week,
    GET_attendance_week db h tz now weekParam = apiResponse week 200
    /\ forall r, r ∈ DB.attendanceRecord db ->
         inWindow (weekWindow tz now weekParam).1
                  (weekWindow tz now weekParam).2 r = true ->
         includeUser UserSummary.select db r ∈ WeekAttendance.records week.
Proof.
  intros Hauth. unfold GET_attendance_week. rewrite Hauth.
  destruct (weekWindow tz now weekParam) as [startDate endDate].
  eexists. split; [reflexivity|]. simpl.
  intros r Hr Hw. apply list_elem_of_fmap_2, orderBy_elem, findMany_elem.
  done.
Qed.

(** C3 fails as stated: the week view hands reporter R1 the record of U7,
    who is outside R1's read set. *)
Lemma week_view_outside_read_set_counterexample :
  exists week r,
    GET_attendance_week Example.db Example.asR1 (JSDate.fixedOffset 0)
      (Example.jan 3) None
    = apiResponse week 200
    /\ r ∈ WeekAttendance.records week
    /\ AttendanceRecord.userId (WithUser.record r)
       ∉ getAccessibleUserIds Example.db Example.R1.
Proof.
  eexists. exists (includeUser UserSummary.select Example.db Example.A1).
  split; [reflexivity|]. split.
  - vm_compute. apply list_elem_of_further, list_elem_of_here.
  - vm_compute. intros [=]%list_elem_of_singleton.
Qed.

(** ** Unknown and inaccessible targets *)
Lemma unknown_user_not_accessible db actor userId :
  actor ∈ DB.user db ->
  findUserById db userId = None ->
  userId ∉ getAccessibleUserIds db actor.
Proof.
  intros Hactor Hnone Hin. apply findUserById_None in Hnone.
  apply Hnone. by eapply accessible_ids_exist.
Qed.

Lemma GET_attendance_denied db h actor query userId :
  getUserFromRequest db h = Some actor ->
  getAttendanceQuerySchema.userId query = Some userId ->
  userId ∉ getAccessibleUserIds db actor ->
  GET_attendance db h query
  = apiError "You do not have permission to access this user's attendance" 403.
Proof.
  intros Hauth Hq Hnot. unfold GET_attendance. rewrite Hauth, Hq.
  by rewrite bool_decide_eq_false_2.
Qed.

Lemma GET_attendance_status db h query :
  statusOf (GET_attendance db h query) = 200
  \/ statusOf (GET_attendance db h query) = 401
  \/ statusOf (GET_attendance db h query) = 403
  \/ statusOf (GET_attendance db h query) = 500.
Proof.
  unfold GET_attendance.
  destruct (getUserFromRequest db h); [|tauto].
  destruct (getAttendanceQuerySchema.userId query).
  - case_bool_decide; simpl; [|tauto].
    destruct (dateBound _); [|tauto]. destruct (dateBound _); tauto.
  - destruct (dateBound _); [|tauto]. destruct (dateBound _); tauto.
Qed.

Lemma POST_attendance_allocate_404 db h actor body newId :
  getUserFromRequest db h = Some actor ->
  statusOf (POST_attendance_allocate db h body newId).1 = 404 <->
  User.role actor = TRIBE_LEAD
  /\ allocateSchema.userId body <> User.id actor
  /\ findUserById db (allocateSchema.userId body) = None.
Proof.
  intros Hauth. unfold POST_attendance_allocate. rewrite Hauth.
  case_bool_decide as Hrep; simpl.
  { split; [done|]. intros [? _]. congruence. }
  case_bool_decide as Hself; simpl.
  { split; [done|]. tauto. }
  destruct (canAllocateAttendance db actor (allocateSchema.userId body)) eqn:Hcan; simpl.
  - apply canAllocateAttendance_hierarchy in Hcan.
    destruct (findUserById db (allocateSchema.userId body)) as [t|] eqn:Hfind; simpl.
    + split; [|intros (_ & _ & [=])].
      match goal with |- context [if ?c then _ else _] => destruct c end; simpl;
        [done|].
      destruct (upsertAttendance _ _ _ _ _ _) as [[? ?]|]; simpl; done.
    + split; [|done]. intros _.
      destruct Hcan as [?|[?|[_ [t [Ht _]]]]]; [congruence|done|congruence].
  - split; [done|]. intros (Htl & _ & _).
    assert (canAllocateAttendance db actor (allocateSchema.userId body) = true);
      [|congruence].
    apply canAllocateAttendance_hierarchy. tauto.
Qed.

(** The permission check of the allocation route comes before its
    existence check: whoever is not the Tribe Lead is refused when the
    target is unknown. *)
Lemma POST_attendance_allocate_unknown db h actor body newId :
  getUserFromRequest db h = Some actor ->
  User.role actor <> TRIBE_LEAD ->
  findUserById db (allocateSchema.userId body) = None ->
  statusOf (POST_attendance_allocate db h body newId).1 = 403
  /\ (POST_attendance_allocate db h body newId).2 = db
  /\ (User.role actor = CHAPTER_LEAD ->
      POST_attendance_allocate db h body newId
      = (apiError
           "You do not have permission to allocate attendance for this user"
           403, db)).
Proof.
  intros Hauth Hrole Hnone. unfold POST_attendance_allocate. rewrite Hauth.
  case_bool_decide as Hrep; [split; [done|]; split; [done|congruence]|].
  assert (Hne : allocateSchema.userId body <> User.id actor).
  { intros Heq. apply getUserFromRequest_Some in Hauth as [Hin _].
    destruct (findUserById_is_Some db actor Hin) as [v Hv]. congruence. }
  rewrite bool_decide_eq_false_2 by done.
  destruct (canAllocateAttendance db actor (allocateSchema.userId body)) eqn:Hcan.
  - exfalso. apply canAllocateAttendance_hierarchy in Hcan
      as [?|[?|[_ [t [Ht _]]]]]; congruence.
  - done.
Qed.

(** C4 (as amended): in the attendance list a target outside the actor's
    read set is answered NotAuthorized (403) whether or not the user
    exists, an unknown user is never in a read set, and the list never
    answers NotFound; the allocation route answers NotFound (404) exactly
    when a Tribe Lead names an unknown user other than themselves, and a
    Chapter Lead (like everybody who is not the Tribe Lead) who names an
    unknown user is answered NotAuthorized (403) with the store
    unchanged. *)
Theorem attendance_target_outcomes db h actor :
  getUserFromRequest db h = Some actor ->
  (forall query userId,
     getAttendanceQuerySchema.userId query = Some userId ->
     userId ∉ getAccessibleUserIds db actor ->
     GET_attendance db h query
     = apiError "You do not have permission to access this user's attendance" 403)
  /\ (forall userId,
        findUserById db userId = None -> userId ∉ getAccessibleUserIds db actor)
  /\ (forall query, statusOf (GET_attendance db h query) <> 404)
  /\ (forall body newId,
        statusOf (POST_attendance_allocate db h body newId).1 = 404 <->
        User.role actor = TRIBE_LEAD
        /\ allocateSchema.userId body <> User.id actor
        /\ findUserById db (allocateSchema.userId body) = None)
  /\ (forall body newId,
        User.role actor <> TRIBE_LEAD ->
        findUserById db (allocateSchema.userId body) = None ->
        statusOf (POST_attendance_allocate db h body newId).1 = 403
        /\ (POST_attendance_allocate db h body newId).2 = db)
  /\ (forall body newId,
        User.role actor = CHAPTER_LEAD ->
        findUserById db (allocateSchema.userId body) = None ->
        POST_attendance_allocate db h body newId
        = (apiError
             "You do not have permission to allocate attendance for this user"
             403, db)).
Proof.
  intros Hauth. split; [|split; [|split; [|split; [|split]]]].
  - intros query userId. by apply GET_attendance_denied.
  - intros userId. apply unknown_user_not_accessible.
    by apply getUserFromRequest_Some in Hauth as [? _].
  - intros query.
    destruct (GET_attendance_status db h query) as [->|[->|[->| ->]]]; done.
  - intros body newId. by apply POST_attendance_allocate_404.
  - intros body newId Hrole Hnone.
    destruct (POST_attendance_allocate_unknown db h actor body newId Hauth Hrole Hnone)
      as (H1 & H2 & _). done.
  - intros body newId Hrole Hnone.
    destruct (POST_attendance_allocate_unknown db h actor body newId Hauth)
      as (_ & _ & H3); [congruence|done|]. by apply H3.
Qed.

(** Witness for C4: chapter lead Carl names an id that belongs to nobody,
    in the attendance list and in the allocation route. *)
Lemma attendance_target_outcomes_witness :
  GET_attendance Example.registered Example.asCarl (Example.queryFor Example.nobody)
  = apiError "You do not have permission to access this user's attendance" 403
  /\ POST_attendance_allocate Example.registered Example.asCarl
       (allocateSchema.mk Example.nobody (Example.jan 3) allocateSchema.office None)
       "a9"
     = (apiError
          "You do not have permission to allocate attendance for this user" 403,
        Example.registered).
Proof.
  destruct (attendance_target_outcomes Example.registered Example.asCarl
              Example.carl eq_refl) as (Hlist & Hout & _ & _ & _ & Hlead).
  split.
  - apply (Hlist (Example.queryFor Example.nobody) Example.nobody eq_refl).
    by apply Hout.
  - by apply Hlead.
Defined.

(** C4 fails as stated: a query for an unknown user is answered 403, not
    404, and the answer is the very one given for an existing user outside
    the read set. *)
Lemma attendance_query_unknown_user_counterexample :
  findUserById Example.registered Example.nobody = None
  /\ statusOf
       (GET_attendance Example.registered Example.asTess
          (Example.queryFor Example.nobody)) = 403
  /\ is_Some (findUserById Example.registered (User.id Example.uma))
  /\ GET_attendance Example.registered Example.asCarl
       (Example.queryFor Example.nobody)
     = GET_attendance Example.registered Example.asCarl
         (Example.queryFor (User.id Example.uma)).
Proof. repeat split; try reflexivity. by eexists. Qed.

(** ** Delegation registry *)

Lemma activeFor_deactivate delegateId d : activeFor delegateId (deactivate d) = false.
Proof. unfold activeFor, deactivate. simpl. apply andb_false_r. Qed.

Lemma activeFor_other X Y d : X <> Y -> activeFor X d = true -> activeFor Y d = false.
Proof.
  unfold activeFor. intros Hne [HX _]%andb_prop.
  apply bool_decide_eq_true in HX. rewrite bool_decide_eq_false_2; [done|congruence].
Qed.

Lemma created_is_only_active X created rows :
  activeFor X created = true ->
  prisma.findMany (activeFor X)
    (prisma.create created (prisma.updateMany (activeFor X) deactivate rows))
  = [created].
Proof.
  intros Hc. unfold prisma.create, prisma.findMany. rewrite filter_app.
  fold (prisma.findMany (activeFor X) (prisma.updateMany (activeFor X) deactivate rows)).
  rewrite findMany_updateMany_out.
  - rewrite filter_cons_True by done. done.
  - intros r _. apply activeFor_deactivate.
  - intros r H1 H2. congruence.
Qed.

Lemma created_keeps_others X Y created rows :
  X <> Y -> activeFor X created = true ->
  prisma.findMany (activeFor Y)
    (prisma.create created (prisma.updateMany (activeFor X) deactivate rows))
  = prisma.findMany (activeFor Y) rows.
Proof.
  intros Hne Hc. unfold prisma.create, prisma.findMany at 1. rewrite filter_app.
  fold (prisma.findMany (activeFor Y) (prisma.updateMany (activeFor X) deactivate rows)).
  rewrite findMany_updateMany_same.
  - rewrite filter_cons_False, app_nil_r; [done|].
    rewrite (activeFor_other X Y created); done.
  - intros r Hr. split; [by eapply activeFor_other | apply activeFor_deactivate].
Qed.

Lemma POST_delegations_created db h user delegateId start end_ newId :
  getUserFromRequest db h = Some user ->
  User.role user = TRIBE_LEAD ->
  delegateId <> "" ->
  start < end_ ->
  is_Some (findUserById db delegateId) ->
  POST_delegations db h
    (DelegationBody.mk (Some delegateId) (Some (JSDate.Instant start))
       (Some (JSDate.Instant end_))) newId
  = (apiResponse (Delegation.mk newId (User.id user) delegateId start end_ true) 201,
     DB.mk (DB.user db) (DB.attendanceRecord db)
       (prisma.create (Delegation.mk newId (User.id user) delegateId start end_ true)
          (prisma.updateMany (activeFor delegateId) deactivate (DB.delegation db)))
       (DB.officeCapacity db)).
Proof.
  intros Hauth Hrole Hne Hlt [delegate Hd]. unfold POST_delegations.
  rewrite Hauth. rewrite bool_decide_eq_true_2 by done. simpl.
  rewrite bool_decide_eq_false_2 by done.
  destruct (start >=? end_) eqn:E; [lia|]. by rewrite Hd.
Qed.

Lemma deactivateActive_atMostOneActive X db :
  atMostOneActive db -> atMostOneActive (deactivateActive X db).
Proof.
  intros Hinv Y. cbn [deactivateActive DB.delegation].
  etrans; [|apply (Hinv Y)].
  apply findMany_updateMany_length.
  intros r. by rewrite activeFor_deactivate.
Qed.

Lemma POST_delegations_atMostOneActive db h body newId :
  atMostOneActive db -> atMostOneActive (POST_delegations db h body newId).2.
Proof.
  intros Hinv. unfold POST_delegations.
  destruct (getUserFromRequest db h) as [user|]; [|exact Hinv].
  destruct (negb _); [exact Hinv|].
  destruct body as [[X|] [start|] [end_|]]; try exact Hinv.
  cbn [DelegationBody.delegateId DelegationBody.startDate DelegationBody.endDate].
  destruct (bool_decide (X = "")); [exact Hinv|].
  destruct (JSDate.geb start end_); [exact Hinv|].
  destruct (findUserById db X); [|exact Hinv].
  destruct start as [start|], end_ as [end_|];
    try (by apply deactivateActive_atMostOneActive).
  intros Y. cbn [snd createDelegation deactivateActive DB.delegation].
  fold (activeFor X).
  destruct (decide (X = Y)) as [<-|Hne].
  - rewrite created_is_only_active; [done|].
    unfold activeFor. simpl. by rewrite bool_decide_eq_true_2.
  - rewrite created_keeps_others; [apply Hinv|done|].
    unfold activeFor. simpl. by rewrite bool_decide_eq_true_2.
Qed.

(** Run with no other request in between, the four store calls make the
    handler as a whole. *)
Lemma POST_delegations_run db h body newId :
  run (POST_delegations_task h body newId) db = POST_delegations db h body newId.
Proof.
  unfold POST_delegations_task, POST_delegations. cbn [run id].
  destruct (getUserFromRequest db h) as [user|]; [|reflexivity].
  destruct (negb _); [reflexivity|].
  destruct body as [[X|] [start|] [end_|]]; try reflexivity.
  cbn [DelegationBody.delegateId DelegationBody.startDate DelegationBody.endDate].
  destruct (bool_decide (X = "")); [reflexivity|].
  destruct (JSDate.geb start end_); [reflexivity|]. cbn [run id].
  destruct (findUserById db X); [|reflexivity]. cbn [run].
  destruct start as [start|], end_ as [end_|]; reflexivity.
Qed.

Lemma DELETE_delegations_atMostOneActive db h id :
  atMostOneActive db -> atMostOneActive (DELETE_delegations db h id).2.
Proof.
  intros Hinv. unfold DELETE_delegations.
  destruct (getUserFromRequest db h) as [user|]; [|exact Hinv].
  destruct (negb _); [exact Hinv|].
  destruct id as [id|]; [|exact Hinv].
  destruct (bool_decide (id = "")); [exact Hinv|].
  destruct (prisma.findUnique _ _); [|exact Hinv].
  intros Y. cbn [snd DB.delegation]. etrans; [|apply (Hinv Y)].
  apply findMany_updateMany_length.
  intros r. by rewrite activeFor_deactivate.
Qed.

Lemma upsertAttendance_delegation db newId userId date status notes record db' :
  upsertAttendance db newId userId date status notes = Some (record, db') ->
  DB.delegation db' = DB.delegation db /\ DB.user db' = DB.user db.
Proof.
  unfold upsertAttendance. destruct (findUserById db userId); [|done].
  by intros [= _ <-].
Qed.

Lemma findMany_sublist_length {A} (p : A -> bool) (rows rows' : list A) :
  rows' `sublist_of` rows ->
  (length (prisma.findMany p rows') <= length (prisma.findMany p rows))%nat.
Proof.
  unfold prisma.findMany.
  induction 1 as [|x l k _ IH|x l k _ IH]; [done| |].
  - rewrite !filter_cons. destruct (decide (p x = true)); simpl; lia.
  - rewrite filter_cons. destruct (decide (p x = true)); simpl; lia.
Qed.

Lemma step_delegation_frame db db' :
  step db db' ->
  atMostOneActive db -> atMostOneActive db'.
Proof.
  intros Hstep Hinv. destruct Hstep.
  - unfold POST_attendance.
    destruct (getUserFromRequest db h); [|exact Hinv].
    destruct (negb _); [exact Hinv|].
    destruct (upsertAttendance _ _ _ _ _ _) as [[record db']|] eqn:E; [|exact Hinv].
    apply upsertAttendance_delegation in E as [E _].
    intros Y. cbn [snd]. rewrite E. apply Hinv.
  - unfold POST_attendance_allocate.
    destruct (getUserFromRequest db h); [|exact Hinv].
    repeat (match goal with |- context [if ?c then _ else _] => destruct c end;
            [exact Hinv|]).
    destruct (findUserById db _); [|exact Hinv].
    match goal with |- context [if ?c then _ else _] => destruct c end;
      [exact Hinv|].
    destruct (upsertAttendance _ _ _ _ _ _) as [[record db']|] eqn:E; [|exact Hinv].
    apply upsertAttendance_delegation in E as [E _].
    intros Y. cbn [snd]. rewrite E. apply Hinv.
  - unfold PATCH_attendance_id.
    destruct (getUserFromRequest db h); [|exact Hinv].
    destruct (findAttendanceById db id); [|exact Hinv].
    destruct (negb _ && negb _); exact Hinv.
  - unfold DELETE_attendance_id.
    destruct (getUserFromRequest db h); [|exact Hinv].
    destruct (findAttendanceById db id); [|exact Hinv].
    destruct (negb _ && negb _); exact Hinv.
  - rewrite POST_delegations_run. by apply POST_delegations_atMostOneActive.
  - by apply DELETE_delegations_atMostOneActive.
  - unfold POST_admin_reset_statistics.
    destruct (getUserFromRequest db h); [|exact Hinv].
    destruct (negb _); [exact Hinv|]. intros Y. cbn [snd DB.delegation].
    unfold prisma.deleteMany.
    replace (filter _ (DB.delegation db)) with (@nil Delegation.t); [simpl; lia|].
    symmetry. induction (DB.delegation db) as [|d l IH]; [done|].
    by rewrite filter_cons_False.
  - unfold GET_office_capacity.
    destruct (getUserFromRequest db h); [|exact Hinv].
    destruct (negb _ && negb _); [exact Hinv|].
    destruct (bool_decide _); exact Hinv.
  - unfold PUT_office_capacity.
    destruct (getUserFromRequest db h); [|exact Hinv].
    destruct (negb _); [exact Hinv|].
    destruct dayOfWeek, capacity; try exact Hinv.
    repeat (match goal with |- context [if ?c then _ else _] => destruct c end;
            [exact Hinv|]).
    exact Hinv.
  - intros Y. cbn [DB.delegation]. etrans; [|apply (Hinv Y)].
    by apply findMany_sublist_length.
Qed.

Lemma reachable_atMostOneActive db : reachable db -> atMostOneActive db.
Proof.
  induction 1 as [db Hnil | db db' _ IH Hstep].
  - intros Y. rewrite Hnil. simpl. lia.
  - by eapply step_delegation_frame.
Qed.

Lemma schedule_interleaved moves server :
  rtc interleaved server (schedule moves server).
Proof.
  revert server. induction moves as [|i moves IH]; intros server; [done|].
  eapply rtc_l; [apply (interleaved_advance server i)|]. apply IH.
Qed.




(** ** Attendance ledger *)

Lemma userId_date_uniqueKey userId date r :
  userId_date userId date r = true <-> uniqueKey r = (userId, date).
Proof.
  unfold userId_date, uniqueKey. rewrite andb_true_iff, !bool_decide_eq_true.
  split; [intros [-> ->]; done | intros [= -> ->]; done].
Qed.

Lemma unique_key_at_most_one userId date rows r :
  NoDup (uniqueKey <$> rows) ->
  prisma.findFirst (userId_date userId date) rows = Some r ->
  prisma.findMany (userId_date userId date) rows = [r].
Proof.
  unfold prisma.findFirst, prisma.findMany.
  induction rows as [|x rows IH]; [done|].
  rewrite fmap_cons, NoDup_cons. intros [Hx Hnd].
  rewrite filter_cons. case_decide as Hk.
  - intros [= ->]. f_equal.
    assert (prisma.findFirst (userId_date userId date) rows = None) as Hnone.
    { apply findFirst_None. intros y Hy.
      destruct (userId_date userId date y) eqn:E; [|done].
      exfalso. apply Hx. apply userId_date_uniqueKey in Hk, E.
      apply list_elem_of_fmap. exists y. split; [congruence|done]. }
    by apply head_None in Hnone.
  - by apply IH.
Qed.

Lemma overwrite_key status notes userId date r :
  userId_date userId date (overwrite status notes r) = userId_date userId date r.
Proof. reflexivity. Qed.

Lemma overwrite_same status notes r :
  AttendanceRecord.status r = status ->
  AttendanceRecord.notes r = notesOrNull notes ->
  overwrite status notes r = r.
Proof. destruct r. unfold overwrite. simpl. by intros -> ->. Qed.

(** What one upsert does to the table, given the key is unique. *)
Lemma upsertAttendance_spec db newId userId date status notes :
  is_Some (findUserById db userId) ->
  uniqueUserIdDate db ->
  exists record db',
    upsertAttendance db newId userId date status notes = Some (record, db')
    /\ recordsOf db' userId date = [record]
    /\ AttendanceRecord.status record = status
    /\ AttendanceRecord.notes record = notesOrNull notes
    /\ DB.user db' = DB.user db
    /\ uniqueUserIdDate db'.
Proof.
  intros [target Ht] Hnd. unfold upsertAttendance. rewrite Ht.
  unfold recordsOf, uniqueUserIdDate, prisma.upsert, prisma.findUnique in *.
  destruct (prisma.findFirst (userId_date userId date) (DB.attendanceRecord db))
    as [r|] eqn:Hfind.
  - eexists _, _. split; [reflexivity|]. cbn [DB.attendanceRecord DB.user].
    rewrite findMany_updateMany_fmap by apply overwrite_key.
    rewrite (unique_key_at_most_one _ _ _ r) by done.
    repeat split; try done.
    by rewrite (updateMany_fmap uniqueKey).
  - eexists _, _. split; [reflexivity|]. cbn [DB.attendanceRecord DB.user].
    pose proof Hfind as Hnil. apply head_None in Hnil.
    unfold prisma.create, prisma.findMany in *. rewrite filter_app, Hnil.
    rewrite filter_cons_True
      by (apply userId_date_uniqueKey; reflexivity).
    repeat split; try done.
    rewrite fmap_app. apply NoDup_app. split; [done|]. split; [|apply NoDup_singleton].
    intros k [y [-> Hy]]%list_elem_of_fmap Hk%list_elem_of_singleton.
    rewrite findFirst_None in Hfind. specialize (Hfind y Hy).
    assert (userId_date userId date y = true); [|congruence].
    by apply userId_date_uniqueKey.
Qed.

(** A second upsert with the same status and note changes nothing. *)
Lemma upsertAttendance_again db newId userId date status notes record :
  is_Some (findUserById db userId) ->
  recordsOf db userId date = [record] ->
  AttendanceRecord.status record = status ->
  AttendanceRecord.notes record = notesOrNull notes ->
  upsertAttendance db newId userId date status notes = Some (record, db).
Proof.
  intros [target Ht] Hrec Hs Hn. unfold upsertAttendance. rewrite Ht.
  unfold recordsOf, prisma.upsert, prisma.findUnique, prisma.findFirst in *.
  rewrite Hrec. simpl. rewrite overwrite_same by done.
  f_equal. f_equal. destruct db as [us rows ds cs]. simpl in *. f_equal.
  apply updateMany_id. intros r Hr Hk.
  assert (r ∈ prisma.findMany (userId_date userId date) rows)
    as Hin by by apply findMany_elem.
  rewrite Hrec in Hin. apply list_elem_of_singleton in Hin as ->.
  by apply overwrite_same.
Qed.

Lemma same_users_same_principal db db' h :
  DB.user db' = DB.user db ->
  getUserFromRequest db' h = getUserFromRequest db h.
Proof. unfold getUserFromRequest. by intros ->. Qed.

Lemma same_users_same_authorization db db' actor target :
  DB.user db' = DB.user db ->
  canAllocateAttendance db' actor target = canAllocateAttendance db actor target.
Proof. unfold canAllocateAttendance, findUserById. by intros ->. Qed.

Lemma same_users_same_lookup db db' userId :
  DB.user db' = DB.user db -> findUserById db' userId = findUserById db userId.
Proof. unfold findUserById. by intros ->. Qed.

Lemma POST_attendance_created db h actor body newId :
  getUserFromRequest db h = Some actor ->
  canAllocateAttendance db actor (createAttendanceSchema.userId body) = true ->
  is_Some (findUserById db (createAttendanceSchema.userId body)) ->
  uniqueUserIdDate db ->
  exists record db',
    POST_attendance db h body newId
    = (apiResponse (includeUser UserSummary.select db' record) 201, db')
    /\ recordsOf db' (createAttendanceSchema.userId body)
         (createAttendanceSchema.date body) = [record]
    /\ AttendanceRecord.status record
       = createAttendanceSchema.stored (createAttendanceSchema.status_ body)
    /\ AttendanceRecord.notes record = notesOrNull (createAttendanceSchema.notes body)
    /\ DB.user db' = DB.user db
    /\ uniqueUserIdDate db'.
Proof.
  intros Hauth Hcan Hex Hnd. unfold POST_attendance. rewrite Hauth, Hcan. simpl.
  destruct (upsertAttendance_spec db newId (createAttendanceSchema.userId body)
              (createAttendanceSchema.date body)
              (createAttendanceSchema.stored (createAttendanceSchema.status_ body))
              (createAttendanceSchema.notes body) Hex Hnd)
    as (record & db' & -> & H).
  by exists record, db'.
Qed.



(** ** Statistics reset *)

Lemma deleteMany_all {A} (rows : list A) : prisma.deleteMany (fun _ => true) rows = [].
Proof.
  unfold prisma.deleteMany. induction rows as [|r rows IH]; [done|].
  by rewrite filter_cons_False.
Qed.

(** C7: the reset answers 200 exactly when the principal's own role is
    TRIBE_LEAD; every other principal, with or without a delegation, is
    answered 403 and the store is left as it was. *)
Theorem reset_statistics_tribe_lead_only db h principal :
  getUserFromRequest db h = Some principal ->
  (statusOf (POST_admin_reset_statistics db h).1 = 200 <->
   User.role principal = TRIBE_LEAD)
  /\ (User.role principal <> TRIBE_LEAD ->
      POST_admin_reset_statistics db h
      = (apiError "Only the Tribe Lead can reset statistics" 403, db)).
Proof.
  intros Hauth. unfold POST_admin_reset_statistics. rewrite Hauth.
  case_bool_decide as Hrole; simpl.
  - split; [done|]. intros. congruence.
  - split; [|done]. split; [done|]. intros. congruence.
Qed.

(** Witness for C7: chapter lead C1, inside the window of delegation D2. *)
Lemma reset_statistics_tribe_lead_only_witness :
  hasEffectiveDelegation Example.db "c1" (Example.jan 3)
  /\ POST_admin_reset_statistics Example.db Example.asC1
     = (apiError "Only the Tribe Lead can reset statistics" 403, Example.db).
Proof.
  split; [by eexists|].
  apply (reset_statistics_tribe_lead_only Example.db Example.asC1 Example.C1);
    [reflexivity | discriminate].
Defined.

(** C10: performed by the Tribe Lead, the reset empties the attendance,
    delegation and office-capacity tables in one store transition and
    leaves the user table as it was. *)
Theorem reset_statistics_frame db h principal :
  getUserFromRequest db h = Some principal ->
  User.role principal = TRIBE_LEAD ->
  exists report,
    POST_admin_reset_statistics db h
    = (apiResponse report 200, DB.mk (DB.user db) [] [] []).
Proof.
  intros Hauth Hrole. unfold POST_admin_reset_statistics. rewrite Hauth.
  rewrite bool_decide_eq_true_2 by done. simpl.
  rewrite !deleteMany_all. by eexists.
Qed.

(** Witness for C10: the Tribe Lead resets the example store. *)
Lemma reset_statistics_frame_witness :
  exists report,
    POST_admin_reset_statistics Example.db Example.asT1
    = (apiResponse report 200, DB.mk (DB.user Example.db) [] [] []).
Proof.
  apply (reset_statistics_frame Example.db Example.asT1 Example.T1); reflexivity.
Defined.

(** ** Attendance record by id *)

Lemma NoDup_fmap_eq {A B} (f : A -> B) (l : list A) x y :
  NoDup (f <$> l) -> x ∈ l -> y ∈ l -> f x = f y -> x = y.
Proof.
  induction l as [|z l IH]; [by intros _ ?%elem_of_nil|].
  rewrite fmap_cons, NoDup_cons. intros [Hz Hnd] Hx Hy Hf.
  apply elem_of_cons in Hx as [->|Hx]; apply elem_of_cons in Hy as [->|Hy].
  - done.
  - exfalso. apply Hz. rewrite Hf. by apply list_elem_of_fmap_2.
  - exfalso. apply Hz. rewrite <- Hf. by apply list_elem_of_fmap_2.
  - by apply IH.
Qed.

Lemma findAttendanceById_stored db record :
  NoDup (AttendanceRecord.id <$> DB.attendanceRecord db) ->
  record ∈ DB.attendanceRecord db ->
  findAttendanceById db (AttendanceRecord.id record) = Some record.
Proof.
  intros Hnd Hin. unfold findAttendanceById, prisma.findUnique.
  destruct (findFirst_is_Some
              (fun r => bool_decide (AttendanceRecord.id r = AttendanceRecord.id record))
              (DB.attendanceRecord db) record Hin) as [r Hr].
  { by apply bool_decide_eq_true. }
  rewrite Hr. f_equal.
  apply findFirst_Some in Hr as [Hr Hid]. apply bool_decide_eq_true in Hid.
  by eapply NoDup_fmap_eq.
Qed.

Lemma findAttendanceById_None db id :
  findAttendanceById db id = None
  <-> id ∉ AttendanceRecord.id <$> DB.attendanceRecord db.
Proof.
  unfold findAttendanceById, prisma.findUnique. rewrite findFirst_None. split.
  - intros H [r [-> Hr]]%list_elem_of_fmap.
    specialize (H r Hr). by apply bool_decide_eq_false in H.
  - intros H r Hr. apply bool_decide_eq_false. intros <-.
    apply H. by apply list_elem_of_fmap_2.
Qed.

Lemma findUserById_stored db u :
  NoDup (User.id <$> DB.user db) -> u ∈ DB.user db ->
  findUserById db (User.id u) = Some u.
Proof.
  intros Hnd Hu. destruct (findUserById_is_Some db u Hu) as [v Hv].
  rewrite Hv. f_equal.
  apply findUserById_Some in Hv as [Hv Hid].
  by eapply NoDup_fmap_eq.
Qed.

(** C9: on a store whose record ids and user ids are unique, every stored
    record is returned under its id to every authenticated principal,
    with status 200 and with the id, name, email and avatar of the stored
    user who owns it, whoever that owner is; the answer is 404 exactly
    when no stored record has the requested id, 401 exactly when no
    principal is resolved, and never anything but 200, 401 or 404. *)
Theorem GET_attendance_id_unrestricted db :
  NoDup (AttendanceRecord.id <$> DB.attendanceRecord db) ->
  NoDup (User.id <$> DB.user db) ->
  (forall h principal record,
     getUserFromRequest db h = Some principal ->
     record ∈ DB.attendanceRecord db ->
     exists answer,
       GET_attendance_id db h (AttendanceRecord.id record) = apiResponse answer 200
       /\ WithUser.record answer = record
       /\ forall owner,
            owner ∈ DB.user db ->
            User.id owner = AttendanceRecord.userId record ->
            WithUser.user_ answer
            = Some (UserSummary.mk (User.id owner) (User.name owner)
                      (User.email owner) (User.avatarUrl owner)))
  /\ (forall h id,
        is_Some (getUserFromRequest db h) ->
        statusOf (GET_attendance_id db h id) = 404 <->
        id ∉ AttendanceRecord.id <$> DB.attendanceRecord db)
  /\ (forall h id,
        statusOf (GET_attendance_id db h id) = 401 <-> getUserFromRequest db h = None)
  /\ (forall h id,
        statusOf (GET_attendance_id db h id) = 200
        \/ statusOf (GET_attendance_id db h id) = 401
        \/ statusOf (GET_attendance_id db h id) = 404).
Proof.
  intros Hrecords Husers. unfold GET_attendance_id.
  split; [|split; [|split]].
  - intros h principal record -> Hin.
    rewrite (findAttendanceById_stored db record Hrecords Hin).
    eexists. split; [reflexivity|]. split; [reflexivity|].
    intros owner Howner Hid. cbn [includeUser WithUser.user_]. rewrite <- Hid.
    by rewrite (findUserById_stored db owner Husers Howner).
  - intros h id [principal ->]. rewrite <- findAttendanceById_None.
    destruct (findAttendanceById db id); simpl; split; done.
  - intros h id. destruct (getUserFromRequest db h); [|done].
    destruct (findAttendanceById db id); done.
  - intros h id. destruct (getUserFromRequest db h); [|tauto].
    destruct (findAttendanceById db id); simpl; tauto.
Qed.

(** Witness for C9: reporter R1 fetches record a1, which belongs to U7,
    a user outside R1's read set. *)
Lemma GET_attendance_id_unrestricted_witness :
  ("u7" ∉ getAccessibleUserIds Example.db Example.R1)
  /\ exists answer,
       GET_attendance_id Example.db Example.asR1 "a1" = apiResponse answer 200
       /\ WithUser.record answer = Example.A1
       /\ WithUser.user_ answer
          = Some (UserSummary.mk "u7" "Uma" "u7@office.test" None).
Proof.
  split.
  - vm_compute. intros [=]%list_elem_of_singleton.
  - destruct (GET_attendance_id_unrestricted Example.db) as (Hget & _).
    + apply (bool_decide_unpack _). vm_compute. exact I.
    + apply (bool_decide_unpack _). vm_compute. exact I.
    + destruct (Hget Example.asR1 Example.R1 Example.A1 eq_refl)
        as (answer & Heq & Hrec & Howner); [apply list_elem_of_here|].
      exists answer. split; [exact Heq|]. split; [exact Hrec|].
      apply (Howner Example.U7); [|reflexivity].
      do 4 apply list_elem_of_further. apply list_elem_of_here.
Defined.

(** ** Calendar arithmetic *)

Lemma daysFromCivil_civilFromDays days :
  JSDate.daysFromCivil (JSDate.civilFromDays days).1.1
    (JSDate.civilFromDays days).1.2 (JSDate.civilFromDays days).2 = days.
Proof.
  unfold JSDate.civilFromDays, JSDate.daysFromCivil. cbn [fst snd].
  set (z := days + 719468).
  set (era := z `div` 146097).
  set (doe := z - era * 146097).
  assert (Hdoe : 0 <= doe < 146097).
  { subst doe era. Z.div_mod_to_equations. lia. }
  assert (Hz : days = era * 146097 + doe - 719468) by (subst doe z; lia).
  clearbody doe.
  set (yoe := (doe - doe `div` 1460 + doe `div` 36524 - doe `div` 146096) `div` 365).
  assert (Hyoe : 0 <= yoe < 400).
  { subst yoe. Z.div_mod_to_equations. lia. }
  set (doy := doe - (365 * yoe + yoe `div` 4 - yoe `div` 100)).
  assert (Hdoy : 0 <= doy <= 365).
  { subst doy yoe. Z.div_mod_to_equations. lia. }
  assert (Hdoe' : doe = 365 * yoe + yoe `div` 4 - yoe `div` 100 + doy) by (subst doy; ring).
  clearbody doy. clearbody yoe.
  set (mp := (5 * doy + 2) `div` 153).
  assert (Hmp : 0 <= mp <= 11).
  { subst mp. Z.div_mod_to_equations. lia. }
  clearbody mp.
  clearbody era. clear z.
  destruct (mp <? 10) eqn:E10.
  - assert (mp < 10) by lia.
    replace (mp + 3 - 1) with (mp + 2) by lia.
    replace ((mp + 2) `div` 12) with 0 by (Z.div_mod_to_equations; lia).
    replace ((mp + 2) `mod` 12 + 1) with (mp + 3) by (Z.div_mod_to_equations; lia).
    destruct (mp + 3 <=? 2) eqn:E2; [lia|].
    replace (2 <? mp + 3) with true by lia.
    replace ((yoe + era * 400 + 0 + 0) `div` 400) with era
      by (Z.div_mod_to_equations; lia).
    replace (yoe + era * 400 + 0 + 0 - era * 400) with yoe by lia.
    replace (mp + 3 - 3) with mp by lia. lia.
  - assert (10 <= mp) by lia.
    replace (mp - 9 - 1) with (mp - 10) by lia.
    replace ((mp - 10) `div` 12) with 0 by (Z.div_mod_to_equations; lia).
    replace ((mp - 10) `mod` 12 + 1) with (mp - 9) by (Z.div_mod_to_equations; lia).
    destruct (mp - 9 <=? 2) eqn:E2; [|lia].
    replace (2 <? mp - 9) with false by lia.
    replace ((yoe + era * 400 + 1 + 0 - 1) `div` 400) with era
      by (Z.div_mod_to_equations; lia).
    replace (yoe + era * 400 + 1 + 0 - 1 - era * 400) with yoe by lia.
    replace (mp - 9 + 9) with mp by lia. lia.
Qed.

Lemma daysFromCivil_date year month date k :
  JSDate.daysFromCivil year month (date + k)
  = JSDate.daysFromCivil year month date + k.
Proof. unfold JSDate.daysFromCivil. cbv zeta. lia. Qed.

Lemma Day_MakeDate day time :
  0 <= time < JSDate.msPerDay -> JSDate.Day (JSDate.MakeDate day time) = day.
Proof.
  unfold JSDate.Day, JSDate.MakeDate, JSDate.msPerDay. intros H.
  Z.div_mod_to_equations. lia.
Qed.

Lemma TimeWithinDay_bounds t : 0 <= JSDate.TimeWithinDay t < JSDate.msPerDay.
Proof.
  unfold JSDate.TimeWithinDay, JSDate.msPerDay. Z.div_mod_to_equations. lia.
Qed.

Lemma fixedOffset_keepsDay tz : JSDate.keepsDay (JSDate.fixedOffset tz).
Proof.
  intros t. unfold JSDate.LocalTime, JSDate.UTC, JSDate.fixedOffset.
  f_equal. lia.
Qed.

Lemma fixedOffset_keepsMidnight tz : JSDate.keepsMidnight (JSDate.fixedOffset tz).
Proof.
  intros day. unfold JSDate.LocalTime, JSDate.UTC, JSDate.fixedOffset. lia.
Qed.

Lemma fixedOffset_eastOfGreenwich tz :
  0 <= tz < JSDate.msPerDay -> JSDate.eastOfGreenwich (JSDate.fixedOffset tz).
Proof. intros H t. exact H. Qed.

(** The Berlin zone, with its clock change, meets the three conditions. *)
Lemma berlin_keepsDay : JSDate.keepsDay Example.berlin.
Proof.
  intros t. unfold JSDate.LocalTime, JSDate.UTC, Example.berlin, JSDate.Day.
  change Example.clockChange with 1743296400000.
  unfold JSDate.msPerDay.
  repeat match goal with |- context [?a <? ?b] => destruct (Z.ltb_spec a b) end;
    Z.div_mod_to_equations; lia.
Qed.

Lemma berlin_keepsMidnight : JSDate.keepsMidnight Example.berlin.
Proof.
  intros day. unfold JSDate.LocalTime, JSDate.UTC, Example.berlin, JSDate.MakeDate.
  change Example.clockChange with 1743296400000.
  unfold JSDate.msPerDay.
  repeat match goal with |- context [?a <? ?b] => destruct (Z.ltb_spec a b) end;
    lia.
Qed.

Lemma berlin_eastOfGreenwich : JSDate.eastOfGreenwich Example.berlin.
Proof.
  intros t. unfold Example.berlin, JSDate.msPerDay.
  destruct (_ <? _); lia.
Qed.

Lemma filter_iff_elem {A} (P Q : A -> Prop) `{!forall x, Decision (P x)}
    `{!forall x, Decision (Q x)} (l : list A) :
  (forall x, x ∈ l -> P x <-> Q x) -> filter P l = filter Q l.
Proof.
  induction l as [|x l IH]; intros Hl; [done|].
  rewrite !filter_cons.
  assert (HPQ : P x <-> Q x) by (apply Hl, list_elem_of_here).
  rewrite IH by (intros y Hy; apply Hl; by apply list_elem_of_further).
  destruct (decide (P x)), (decide (Q x)); tauto.
Qed.

Section ZoneFacts.
Variable tz : Z -> bool -> Z.

Lemma getDay_localDay t :
  JSDate.getDay tz t = (JSDate.localDay tz t + 4) `mod` 7.
Proof. reflexivity. Qed.

(** [setDate] moves the local day and keeps the local time of day. *)
Lemma setDate_shift t k :
  JSDate.setDate tz t (JSDate.getDate tz t + k)
  = JSDate.UTC tz
      (JSDate.MakeDate (JSDate.localDay tz t + k)
         (JSDate.TimeWithinDay (JSDate.LocalTime tz t))).
Proof.
  unfold JSDate.setDate, JSDate.getDate, JSDate.localDay.
  by rewrite daysFromCivil_date, daysFromCivil_civilFromDays.
Qed.

Lemma setHours_local t h m s ms :
  JSDate.setHours tz t h m s ms
  = JSDate.UTC tz (JSDate.MakeDate (JSDate.localDay tz t) (JSDate.MakeTime h m s ms)).
Proof. reflexivity. Qed.

Lemma monday_offset day weekOffset :
  let dayOfWeek := (day + 4) `mod` 7 in
  let mondayOffset := if dayOfWeek =? 0 then -6 else 1 - dayOfWeek in
  day + (mondayOffset + weekOffset * 7)
  = day - (dayOfWeek + 6) `mod` 7 + 7 * weekOffset
  /\ (day - (dayOfWeek + 6) `mod` 7 + 7 * weekOffset + 4) `mod` 7 = 1.
Proof.
  intros dayOfWeek mondayOffset. subst mondayOffset dayOfWeek.
  destruct (_ =? 0) eqn:E; [apply Z.eqb_eq in E|apply Z.eqb_neq in E];
    split; Z.div_mod_to_equations; lia.
Qed.

(** A calendar-day record lies between the first and the last instant of
    a local day exactly when it is stamped with that day, in a zone at or
    east of Greenwich. *)
Lemma stamped_same_day t r :
  JSDate.eastOfGreenwich tz ->
  dateOnly r ->
  (JSDate.setHours tz t 0 0 0 0 <=? AttendanceRecord.date r)
  && (AttendanceRecord.date r <=? JSDate.setHours tz t 23 59 59 999) = true
  <-> stampedOn (JSDate.localDay tz t) r.
Proof.
  intros Heast Hr. rewrite !setHours_local. unfold JSDate.UTC, stampedOn.
  pose proof (Heast (JSDate.MakeDate (JSDate.localDay tz t) (JSDate.MakeTime 0 0 0 0)))
    as H1.
  pose proof (Heast (JSDate.MakeDate (JSDate.localDay tz t)
                       (JSDate.MakeTime 23 59 59 999))) as H2.
  revert H1 H2.
  generalize (tz (JSDate.MakeDate (JSDate.localDay tz t) (JSDate.MakeTime 0 0 0 0))
                false).
  generalize (tz (JSDate.MakeDate (JSDate.localDay tz t)
                    (JSDate.MakeTime 23 59 59 999)) false).
  generalize (JSDate.localDay tz t). intros day o2 o1 H1 H2.
  unfold dateOnly, JSDate.TimeWithinDay in Hr.
  revert Hr. generalize (AttendanceRecord.date r). intros d Hr.
  unfold JSDate.MakeDate, JSDate.MakeTime, JSDate.msPerDay in *.
  rewrite andb_true_iff, !Z.leb_le. Z.div_mod_to_equations. lia.
Qed.

Lemma bookingsOn_officeRecordsOn rows currentDate :
  JSDate.eastOfGreenwich tz ->
  (forall r, r ∈ rows -> dateOnly r) ->
  bookingsOn tz rows currentDate
  = Z.of_nat (length (officeRecordsOn rows (JSDate.localDay tz currentDate))).
Proof.
  intros Heast Hrows.
  unfold bookingsOn, officeRecordsOn, prisma.count, prisma.findMany.
  f_equal. f_equal. apply filter_iff_elem. intros r Hr.
  rewrite andb_true_iff, bool_decide_eq_true.
  by rewrite (stamped_same_day _ _ Heast (Hrows r Hr)).
Qed.

Hypothesis Hday : JSDate.keepsDay tz.

Lemma localDay_UTC t : JSDate.localDay tz (JSDate.UTC tz t) = JSDate.Day t.
Proof. apply Hday. Qed.

Lemma localDay_setDate t k :
  JSDate.localDay tz (JSDate.setDate tz t (JSDate.getDate tz t + k))
  = JSDate.localDay tz t + k.
Proof.
  rewrite setDate_shift, localDay_UTC.
  apply Day_MakeDate, TimeWithinDay_bounds.
Qed.

Lemma localDay_midnight day :
  JSDate.localDay tz (JSDate.UTC tz (JSDate.MakeDate day 0)) = day.
Proof. rewrite localDay_UTC. by apply Day_MakeDate. Qed.

Lemma fromLocal_today t :
  ~ (0 <= JSDate.getFullYear tz t <= 99) ->
  JSDate.fromLocal tz (JSDate.getFullYear tz t) (JSDate.getMonth tz t)
    (JSDate.getDate tz t)
  = JSDate.UTC tz (JSDate.MakeDate (JSDate.localDay tz t) 0).
Proof.
  intros Hyear. unfold JSDate.fromLocal.
  replace ((0 <=? JSDate.getFullYear tz t) && (JSDate.getFullYear tz t <=? 99))
    with false.
  - unfold JSDate.getFullYear, JSDate.getMonth, JSDate.getDate.
    by rewrite daysFromCivil_civilFromDays.
  - symmetry. apply andb_false_iff. rewrite !Z.leb_gt. lia.
Qed.

Lemma getDay_midnight day :
  JSDate.getDay tz (JSDate.UTC tz (JSDate.MakeDate day 0)) = (day + 4) `mod` 7.
Proof. by rewrite getDay_localDay, localDay_midnight. Qed.

(** The handler's Monday is the Monday of the requested week. *)
Lemma mondayOf_weekStart today weekOffset :
  ~ (0 <= JSDate.getFullYear tz today <= 99) ->
  JSDate.localDay tz (mondayOf tz today weekOffset)
  = spec_weekStartDay tz today weekOffset
  /\ (spec_weekStartDay tz today weekOffset + 4) `mod` 7 = 1.
Proof.
  intros Hyear. unfold mondayOf, spec_weekStartDay.
  rewrite (fromLocal_today today Hyear).
  destruct (monday_offset (JSDate.localDay tz today) weekOffset) as [H1 H2].
  cbv zeta in H1, H2.
  rewrite <- Z.add_assoc, getDay_midnight, getDay_localDay.
  split; [|exact H2].
  by rewrite localDay_setDate, localDay_midnight.
Qed.

Lemma localDay_currentDateOf monday i :
  JSDate.localDay tz (currentDateOf tz monday i)
  = JSDate.localDay tz monday + Z.of_nat i.
Proof. apply localDay_setDate. Qed.
End ZoneFacts.

(** ** Capacity engine *)

Lemma capacityFor_configured table c :
  NoDup (OfficeCapacity.dayOfWeek <$> table) ->
  c ∈ table ->
  capacityFor (prisma.orderBy dayOfWeekAsc table) (OfficeCapacity.dayOfWeek c)
  = OfficeCapacity.capacity c.
Proof.
  intros Hnd Hc. unfold capacityFor.
  destruct (prisma.findFirst _ _) as [c'|] eqn:Hfind.
  - apply findFirst_Some in Hfind as [Hin Hday].
    apply orderBy_elem in Hin. apply bool_decide_eq_true in Hday.
    assert (c' = c) as -> by by eapply NoDup_fmap_eq.
    destruct (_ =? 0) eqn:E; lia.
  - rewrite findFirst_None in Hfind.
    specialize (Hfind c (proj2 (orderBy_elem _ _ _) Hc)).
    by apply bool_decide_eq_false in Hfind.
Qed.

Lemma orderBy_nil {A} (le : A -> A -> bool) rows :
  length (prisma.orderBy le rows) = 0%nat <-> rows = [].
Proof.
  rewrite (Permutation_length (orderBy_Permutation le rows)).
  apply length_zero_iff_nil.
Qed.

Lemma default_capacities :
  capacityFor (prisma.orderBy dayOfWeekAsc defaultCapacities) <$> dayNames
  = [20; 10; 50; 20; 50].
Proof. reflexivity. Qed.

Lemma weekData_capacities tz monday rows capacitySettings :
  WeekDay.capacity
    <$> imap (weekDayEntry tz monday rows capacitySettings) dayNames
  = capacityFor capacitySettings <$> dayNames.
Proof. reflexivity. Qed.

Lemma round_12_10 :
  Math_round
    (PrimFloat.mul (PrimFloat.div (toNumber 12) (toNumber 10)) (toNumber 100))
  = 120.
Proof. vm_compute. reflexivity. Qed.

(** The answer of the office-capacity route to a Chapter Lead or the
    Tribe Lead. *)
Lemma GET_office_capacity_ok db h principal tz today weekOffset :
  getUserFromRequest db h = Some principal ->
  User.role principal <> REPORTER ->
  let table :=
    if bool_decide (DB.officeCapacity db = []) then defaultCapacities
    else DB.officeCapacity db in
  let capacitySettings := prisma.orderBy dayOfWeekAsc table in
  GET_office_capacity db h tz today weekOffset
  = (apiResponse
       (imap (weekDayEntry tz (mondayOf tz today weekOffset)
                (DB.attendanceRecord db) capacitySettings) dayNames,
        capacitySettings) 200,
     DB.mk (DB.user db) (DB.attendanceRecord db) (DB.delegation db) table).
Proof.
  intros Hauth Hrole. unfold GET_office_capacity. rewrite Hauth.
  replace (negb (bool_decide (User.role principal = CHAPTER_LEAD))
           && negb (bool_decide (User.role principal = TRIBE_LEAD))) with false
    by (destruct (User.role principal); done).
  case_bool_decide as Hlen.
  - apply orderBy_nil in Hlen. rewrite Hlen.
    rewrite bool_decide_eq_true_2 by done. reflexivity.
  - rewrite bool_decide_eq_false_2 by (by rewrite <- orderBy_nil).
    by destruct db.
Qed.

(** [Math.round] gives the nearest integer, a tie going upward. *)
Lemma Math_round_nearest x num den :
  exactValue x = Some (num, den) ->
  0 < den /\ nearestTiesUp num den (Math_round x).
Proof.
  unfold exactValue, Math_round, nearestTiesUp.
  destruct (Prim2SF x) as [| | |s m e]; try done.
  - intros [= <- <-]. lia.
  - destruct (0 <=? e) eqn:He.
    + intros [= <- <-]. lia.
    + intros [= <- <-]. apply Z.leb_gt in He.
      assert (Hd : 0 < 2 ^ (- e)) by (apply Z.pow_pos_nonneg; lia).
      replace (1 - e) with (1 + - e) by lia.
      rewrite Z.pow_add_r by lia. change (2 ^ 1) with 2.
      revert Hd. generalize (2 ^ (- e)).
      generalize (if s then Z.neg m else Z.pos m). intros n d Hd.
      split; [done|]. Z.div_mod_to_equations. nia.
Qed.

Lemma weekDayEntry_math tz monday rows capacitySettings i dayName :
  let entry := weekDayEntry tz monday rows capacitySettings i dayName in
  WeekDay.day entry = dayName
  /\ WeekDay.capacity entry = capacityFor capacitySettings dayName
  /\ WeekDay.available entry
     = Z.max (WeekDay.capacity entry - WeekDay.booked entry) 0
  /\ WeekDay.isOverbooked entry
     = bool_decide (WeekDay.booked entry > WeekDay.capacity entry)
  /\ WeekDay.utilizationPercent entry
     = utilization (WeekDay.booked entry) (WeekDay.capacity entry).
Proof.
  intros entry. subst entry. unfold weekDayEntry.
  cbn [WeekDay.day WeekDay.booked WeekDay.capacity WeekDay.available
       WeekDay.isOverbooked WeekDay.utilizationPercent].
  split; [reflexivity|]. split; [reflexivity|].
  set (capacity := capacityFor _ _). set (booked := bookingsOn _ _ _).
  clearbody capacity booked.
  split.
  { destruct (0 <? _) eqn:E; lia. }
  split; [|reflexivity].
  destruct (_ <? _) eqn:E.
  - apply Z.ltb_lt in E. rewrite bool_decide_eq_true_2 by lia. reflexivity.
  - apply Z.ltb_ge in E. rewrite bool_decide_eq_false_2 by lia. reflexivity.
Qed.

(** The entry's date and bookings: the local calendar day of the
    iteration, and the office records stamped with that day. *)
Lemma weekDayEntry_day tz monday rows capacitySettings i dayName :
  JSDate.keepsDay tz ->
  JSDate.eastOfGreenwich tz ->
  (forall r, r ∈ rows -> dateOnly r) ->
  let entry := weekDayEntry tz monday rows capacitySettings i dayName in
  let day := JSDate.localDay tz monday + Z.of_nat i in
  WeekDay.date entry
  = JSDate.formatYMD (JSDate.civilFromDays day).1.1
      ((JSDate.civilFromDays day).1.2 + 1) (JSDate.civilFromDays day).2
  /\ WeekDay.booked entry = Z.of_nat (length (officeRecordsOn rows day)).
Proof.
  intros Hday Heast Hrows entry day. subst entry day. unfold weekDayEntry.
  cbn [WeekDay.date WeekDay.booked].
  unfold JSDate.getFullYear, JSDate.getMonth, JSDate.getDate.
  rewrite (bookingsOn_officeRecordsOn tz rows _ Heast Hrows).
  by rewrite (localDay_currentDateOf tz Hday).
Qed.

Lemma working_day ws (i : nat) :
  (ws + 4) `mod` 7 = 1 -> (i < 5)%nat ->
  (ws + Z.of_nat i + 4) `mod` 7 = 1 + Z.of_nat i.
Proof. intros Hws Hi. Z.div_mod_to_equations. lia. Qed.

(** The quotient is formed and scaled in binary64 before rounding: 23
    bookings against a capacity of 40 give 57.49999999999999, hence 57. *)
Lemma utilization_binary64 : utilization 23 40 = 57.
Proof. vm_compute. reflexivity. Qed.




(** ** Permission helpers *)

Lemma canAccessUser_hierarchy db currentUser targetUserId :
  canAccessUser db currentUser targetUserId
  = canAllocateAttendance db currentUser targetUserId.
Proof. reflexivity. Qed.

Lemma canAllocateAttendance_accessible db currentUser targetUserId :
  NoDup (User.id <$> DB.user db) ->
  is_Some (findUserById db targetUserId) ->
  canAllocateAttendance db currentUser targetUserId = true <->
  targetUserId ∈ getAccessibleUserIds db currentUser.
Proof.
  intros Hnd [target Ht].
  rewrite canAllocateAttendance_hierarchy.
  pose proof (findUserById_Some _ _ _ Ht) as [Hin Hid].
  unfold getAccessibleUserIds, isTribeLead, isChapterLead, managedBy.
  destruct (User.role currentUser) eqn:Hrole.
  - rewrite !bool_decide_eq_false_2 by done. rewrite list_elem_of_singleton.
    split; [intros [?|[?|[? _]]]; done | by left].
  - rewrite bool_decide_eq_false_2, bool_decide_eq_true_2 by done.
    rewrite elem_of_cons, list_elem_of_fmap. split.
    + intros [?|[?|[_ (t & Ht' & Hcl)]]]; [by left|done|right].
      exists t. split.
      * apply findUserById_Some in Ht' as [_ ?]. done.
      * apply findMany_elem. split; [by apply bool_decide_eq_true|].
        by apply findUserById_Some in Ht' as [? _].
    + intros [?|(t & -> & Hr)]; [by left|].
      right; right. split; [done|].
      apply findMany_elem in Hr as [Hcl Hr]. apply bool_decide_eq_true in Hcl.
      exists t. split; [by apply findUserById_stored|done].
  - rewrite bool_decide_eq_true_2 by done. rewrite findMany_all.
    split; [|by right; left]. intros _. subst targetUserId.
    by apply list_elem_of_fmap_2.
Qed.

(** X1: on a user table with unique ids, the point check [canAccessUser]
    and the enumeration [getAccessibleUserIds] agree on every existing
    target. *)
Theorem canAccessUser_iff_accessible db currentUser targetUserId :
  NoDup (User.id <$> DB.user db) ->
  is_Some (findUserById db targetUserId) ->
  canAccessUser db currentUser targetUserId = true <->
  targetUserId ∈ getAccessibleUserIds db currentUser.
Proof.
  intros Hnd Ht. rewrite canAccessUser_hierarchy.
  by apply canAllocateAttendance_accessible.
Qed.

(** Witness for X1: chapter lead C1 and reporter R1. *)
Lemma canAccessUser_iff_accessible_witness :
  canAccessUser Example.db Example.C1 "r1" = true <->
  "r1" ∈ getAccessibleUserIds Example.db Example.C1.
Proof.
  apply (canAccessUser_iff_accessible Example.db Example.C1 "r1").
  - apply (bool_decide_unpack _). vm_compute. exact I.
  - by eexists.
Defined.

(** X2: [getMaxAnalyticsScope] is the widest scope [canViewAnalytics]
    grants: a scope is allowed exactly when it is no wider. *)
Theorem getMaxAnalyticsScope_greatest u scope :
  canViewAnalytics u scope = true <->
  scopeRank scope <= scopeRank (getMaxAnalyticsScope u).
Proof.
  unfold canViewAnalytics, getMaxAnalyticsScope, isTribeLead, isChapterLead.
  destruct (User.role u), scope; simpl; split; (done || lia).
Qed.

(** X3: the role gates are the levels of [hasMinimumRole]: team
    management, team analytics and team export ask for CHAPTER_LEAD;
    admin access, role changes, user management, organization analytics
    and organization export ask for TRIBE_LEAD; every user reaches
    REPORTER. *)
Theorem role_gates_are_levels u :
  hasMinimumRole u REPORTER = true
  /\ canManageTeam u = hasMinimumRole u CHAPTER_LEAD
  /\ canViewAnalytics u AnalyticsScope.team = hasMinimumRole u CHAPTER_LEAD
  /\ canExportData u ExportScope.team = hasMinimumRole u CHAPTER_LEAD
  /\ canAccessAdmin u = hasMinimumRole u TRIBE_LEAD
  /\ canModifyRoles u = hasMinimumRole u TRIBE_LEAD
  /\ canManageUsers u = hasMinimumRole u TRIBE_LEAD
  /\ canAssignChapterLeads u = hasMinimumRole u TRIBE_LEAD
  /\ canViewAnalytics u AnalyticsScope.organization = hasMinimumRole u TRIBE_LEAD
  /\ canExportData u ExportScope.organization = hasMinimumRole u TRIBE_LEAD.
Proof.
  unfold hasMinimumRole, canManageTeam, canViewAnalytics, canExportData,
    canAccessAdmin, canModifyRoles, canManageUsers, canAssignChapterLeads,
    isTribeLead, isChapterLead.
  destruct (User.role u); repeat split; reflexivity.
Qed.

Lemma getCurrentUser_stored db x_user_id u :
  NoDup (User.id <$> DB.user db) ->
  getCurrentUser db x_user_id = Some u <->
  u ∈ DB.user db /\ x_user_id = Some (User.id u) /\ User.id u <> "".
Proof.
  intros Hnd. unfold getCurrentUser. destruct x_user_id as [userId|].
  - case_bool_decide as Hempty.
    + split; [done|]. intros (_ & [= ->] & Hne). done.
    + split.
      * intros Hfind. apply findUserById_Some in Hfind as [Hin <-]. done.
      * intros (Hin & [= ->] & _). by apply findUserById_stored.
  - split; [done|]. by intros (_ & ? & _).
Qed.

Lemma getCurrentUser_None db x_user_id :
  getCurrentUser db x_user_id = None <->
  forall u, u ∈ DB.user db -> x_user_id = Some (User.id u) -> User.id u = "".
Proof.
  unfold getCurrentUser. destruct x_user_id as [userId|].
  - case_bool_decide as Hempty.
    + split; [|done]. intros _ u _ [= ->]. done.
    + rewrite findUserById_None. split.
      * intros Hnot u Hu [= ->]. exfalso. apply Hnot. by apply list_elem_of_fmap_2.
      * intros Hall [u [-> Hu]]%list_elem_of_fmap. apply Hempty. by apply Hall.
  - split; [|done]. by intros _ u _ ?.
Qed.

(** The role table of [requireRole] and that of [hasMinimumRole] agree. *)
Lemma requireRole_gate db x_user_id minimumRole :
  requireRole db x_user_id minimumRole
  = match getCurrentUser db x_user_id with
    | None => inl (apiError "Authentication required" 401)
    | Some u =>
        if hasMinimumRole u minimumRole then inr u
        else inl (apiError "Insufficient permissions" 403)
    end.
Proof.
  unfold requireRole, requireAuth, hasMinimumRole.
  destruct (getCurrentUser db x_user_id) as [u|]; [|reflexivity].
  destruct (User.role u), minimumRole; reflexivity.
Qed.

(** X4: [requireRole] on a user table with unique ids.  It lets the
    request through, as user [u], exactly when [u] is a stored user with
    a non-empty id, the [x-user-id] header carries that id and [u] passes
    [hasMinimumRole] (the two functions keep separate role tables, which
    agree); it answers 401 exactly when the header names no such stored
    user, and 403 exactly when it names one who fails [hasMinimumRole].
    A user passes exactly when the minimum is REPORTER, or it is
    CHAPTER_LEAD and the user is no Reporter, or the user is the Tribe
    Lead. *)
Theorem requireRole_outcomes db x_user_id minimumRole :
  NoDup (User.id <$> DB.user db) ->
  (forall u, requireRole db x_user_id minimumRole = inr u <->
             u ∈ DB.user db /\ x_user_id = Some (User.id u) /\ User.id u <> ""
             /\ hasMinimumRole u minimumRole = true)
  /\ (requireRole db x_user_id minimumRole
      = inl (apiError "Authentication required" 401)
      <-> forall u, u ∈ DB.user db -> x_user_id = Some (User.id u) ->
                    User.id u = "")
  /\ (requireRole db x_user_id minimumRole
      = inl (apiError "Insufficient permissions" 403)
      <-> exists u, u ∈ DB.user db /\ x_user_id = Some (User.id u)
                    /\ User.id u <> "" /\ hasMinimumRole u minimumRole = false)
  /\ (forall u, hasMinimumRole u minimumRole = true <->
                minimumRole = REPORTER
                \/ (minimumRole = CHAPTER_LEAD /\ User.role u <> REPORTER)
                \/ User.role u = TRIBE_LEAD).
Proof.
  intros Hnd. rewrite requireRole_gate.
  split; [|split; [|split]].
  - intros u. pose proof (getCurrentUser_stored db x_user_id u Hnd) as Hs.
    destruct (getCurrentUser db x_user_id) as [v|].
    + destruct (hasMinimumRole v minimumRole) eqn:Hmin; split.
      * intros [= <-]. split_and!; try done; by apply Hs.
      * intros (H1 & H2 & H3 & _).
        assert (Some v = Some u) as [= ->] by (by apply Hs). done.
      * done.
      * intros (H1 & H2 & H3 & H4).
        assert (Some v = Some u) as [= ->] by (by apply Hs). congruence.
    + split; [done|]. intros (H1 & H2 & H3 & _).
      assert (None = Some u) by (by apply Hs). done.
  - rewrite <- getCurrentUser_None.
    destruct (getCurrentUser db x_user_id) as [v|]; [|done].
    by destruct (hasMinimumRole v minimumRole).
  - split.
    + destruct (getCurrentUser db x_user_id) as [v|] eqn:Hv; [|done].
      destruct (hasMinimumRole v minimumRole) eqn:Hmin; [done|].
      intros _. exists v.
      apply (getCurrentUser_stored db x_user_id v Hnd) in Hv as (? & ? & ?). done.
    + intros (u & Hu & Hh & Hne & Hmin).
      assert (getCurrentUser db x_user_id = Some u) as ->
        by by apply getCurrentUser_stored.
      by rewrite Hmin.
  - intros u. unfold hasMinimumRole.
    destruct (User.role u), minimumRole; vm_compute; intuition congruence.
Qed.

(** Witness for X4: chapter lead C1 passes the CHAPTER_LEAD gate. *)
Lemma requireRole_outcomes_witness :
  requireRole Example.db (Some "c1") CHAPTER_LEAD = inr Example.C1.
Proof.
  destruct (requireRole_outcomes Example.db (Some "c1") CHAPTER_LEAD) as (Hpass & _).
  - apply (bool_decide_unpack _). vm_compute. exact I.
  - apply Hpass. split; [|done].
    apply list_elem_of_further, list_elem_of_here.
Defined.

(** ** Attendance record by id: update and delete *)

Lemma deleteMany_elem {A} (p : A -> bool) (rows : list A) x :
  x ∈ prisma.deleteMany p rows <-> p x = false /\ x ∈ rows.
Proof. unfold prisma.deleteMany. by rewrite list_elem_of_filter. Qed.

Lemma deleteMany_NoDup {A B} (key : A -> B) (p : A -> bool) (rows : list A) :
  NoDup (key <$> rows) -> NoDup (key <$> prisma.deleteMany p rows).
Proof.
  intros Hnd. eapply sublist_NoDup; [exact Hnd|].
  apply fmap_sublist. unfold prisma.deleteMany. apply sublist_filter.
Qed.

Lemma applyUpdate_key data r : uniqueKey (applyUpdate data r) = uniqueKey r.
Proof. reflexivity. Qed.

Lemma applyUpdate_id data r :
  AttendanceRecord.id (applyUpdate data r) = AttendanceRecord.id r.
Proof. reflexivity. Qed.

Lemma applyUpdate_nothing r :
  applyUpdate (updateAttendanceSchema.mk None None) r = r.
Proof. by destruct r. Qed.

Lemma findAttendanceById_Some db id r :
  findAttendanceById db id = Some r ->
  r ∈ DB.attendanceRecord db /\ AttendanceRecord.id r = id.
Proof.
  intros H. apply findFirst_Some in H as [Hin He].
  by apply bool_decide_eq_true in He.
Qed.

Lemma guard_ownerOrTribeLead principal r :
  negb (bool_decide (AttendanceRecord.userId r = User.id principal))
  && negb (bool_decide (User.role principal = TRIBE_LEAD)) = false
  <-> ownerOrTribeLead principal r.
Proof.
  unfold ownerOrTribeLead.
  do 2 case_bool_decide; simpl; split; (done || tauto).
Qed.

(** X5: deleting by id answers 200 exactly when the record exists and the
    principal owns it or is the Tribe Lead; then no row with that id is
    left, every other row is kept, the other tables are untouched and the
    (userId, date) key stays unique; any other answer leaves the store as
    it was. *)
Theorem DELETE_attendance_id_outcome db h principal id :
  getUserFromRequest db h = Some principal ->
  (statusOf (DELETE_attendance_id db h id).1 = 200 <->
   exists r, findAttendanceById db id = Some r /\ ownerOrTribeLead principal r)
  /\ (statusOf (DELETE_attendance_id db h id).1 <> 200 ->
      (DELETE_attendance_id db h id).2 = db)
  /\ (statusOf (DELETE_attendance_id db h id).1 = 200 ->
      findAttendanceById (DELETE_attendance_id db h id).2 id = None
      /\ (forall r, r ∈ DB.attendanceRecord (DELETE_attendance_id db h id).2 <->
                    r ∈ DB.attendanceRecord db /\ AttendanceRecord.id r <> id)
      /\ DB.user (DELETE_attendance_id db h id).2 = DB.user db
      /\ DB.delegation (DELETE_attendance_id db h id).2 = DB.delegation db
      /\ DB.officeCapacity (DELETE_attendance_id db h id).2 = DB.officeCapacity db
      /\ (uniqueUserIdDate db ->
          uniqueUserIdDate (DELETE_attendance_id db h id).2)).
Proof.
  intros Hauth. unfold DELETE_attendance_id. rewrite Hauth.
  destruct (findAttendanceById db id) as [r|] eqn:Hfind.
  - destruct (negb _ && negb _) eqn:Hguard.
    + split; [|split]; [|done|done].
      split; [done|]. intros (r' & [= <-] & Hown).
      apply guard_ownerOrTribeLead in Hown. congruence.
    + apply guard_ownerOrTribeLead in Hguard.
      split; [|split]; [|done|].
      * split; [|done]. intros _. by exists r.
      * intros _. cbn [fst snd DB.user DB.delegation DB.officeCapacity].
        split; [|split; [|repeat split; try done]].
        -- apply findFirst_None. cbn [DB.attendanceRecord].
           intros x [Hx _]%deleteMany_elem.
           unfold byRecordId in *. done.
        -- intros x. cbn [DB.attendanceRecord]. rewrite deleteMany_elem.
           unfold byRecordId. rewrite bool_decide_eq_false. tauto.
        -- unfold uniqueUserIdDate. cbn [DB.attendanceRecord].
           apply deleteMany_NoDup.
  - split; [|split]; [|done|done].
    split; [done|]. by intros (r' & [=] & _).
Qed.

(** Witness for X5: reporter R1 deletes R1's own record a2. *)
Lemma DELETE_attendance_id_outcome_witness :
  statusOf (DELETE_attendance_id Example.db Example.asR1 "a2").1 = 200
  /\ findAttendanceById (DELETE_attendance_id Example.db Example.asR1 "a2").2 "a2"
     = None.
Proof.
  pose proof (DELETE_attendance_id_outcome Example.db Example.asR1 Example.R1
                "a2" eq_refl) as (H1 & _ & H3).
  assert (Hok : statusOf (DELETE_attendance_id Example.db Example.asR1 "a2").1 = 200).
  { apply H1. exists Example.A2. split; [reflexivity | by left]. }
  split; [exact Hok | exact (proj1 (H3 Hok))].
Defined.



(** X7: write reach and delete reach differ.  A Chapter Lead may upsert
    attendance for a direct report, but the record that upsert leaves is
    neither updated nor deleted through its id by that Chapter Lead: both
    by-id requests answer 403 and leave the store as it was. *)
Theorem chapter_lead_writes_but_cannot_remove
    db h actor (body : createAttendanceSchema.t) newId :
  getUserFromRequest db h = Some actor ->
  User.role actor = CHAPTER_LEAD ->
  User.id actor <> createAttendanceSchema.userId body ->
  managedBy db (createAttendanceSchema.userId body) (User.id actor) ->
  NoDup (AttendanceRecord.id <$> DB.attendanceRecord db) ->
  newId ∉ AttendanceRecord.id <$> DB.attendanceRecord db ->
  exists record db',
    POST_attendance db h body newId
    = (apiResponse (includeUser UserSummary.select db' record) 201, db')
    /\ findAttendanceById db' (AttendanceRecord.id record) = Some record
    /\ DELETE_attendance_id db' h (AttendanceRecord.id record)
       = (apiError "Forbidden" 403, db')
    /\ forall data,
         PATCH_attendance_id db' h (AttendanceRecord.id record) data
         = (apiError "Forbidden" 403, db').
Proof.
  intros Hauth Hrole Hne Hman Hids Hfresh.
  assert (Hcan : canAllocateAttendance db actor (createAttendanceSchema.userId body)
                 = true).
  { apply canAllocateAttendance_hierarchy. right; right. by split. }
  assert (Hex : is_Some (findUserById db (createAttendanceSchema.userId body))).
  { destruct Hman as (t & Ht & _). by exists t. }
  unfold POST_attendance. rewrite Hauth, Hcan. cbn [negb]. cbv iota.
  unfold upsertAttendance. destruct Hex as [t Ht]. rewrite Ht.
  set (key := userId_date (createAttendanceSchema.userId body)
                (createAttendanceSchema.date body)).
  set (rows' := prisma.upsert key _ _ (DB.attendanceRecord db)).
  set (record := match prisma.findUnique key (DB.attendanceRecord db) with
                 | Some r => _ | None => _ end).
  set (db' := DB.mk (DB.user db) rows' (DB.delegation db) (DB.officeCapacity db)).
  exists record, db'. split; [reflexivity|].
  assert (Hauth' : getUserFromRequest db' h = Some actor) by exact Hauth.
  assert (Hrec : record ∈ rows' /\ AttendanceRecord.userId record
                                   = createAttendanceSchema.userId body
                 /\ NoDup (AttendanceRecord.id <$> rows')).
  { subst record rows'. unfold prisma.upsert, prisma.findUnique.
    destruct (prisma.findFirst key (DB.attendanceRecord db)) as [r|] eqn:Hf.
    - apply findFirst_Some in Hf as [Hin Hk].
      split; [|split].
      + unfold prisma.updateMany. apply list_elem_of_fmap. exists r.
        by rewrite Hk.
      + unfold key, userId_date in Hk. apply andb_prop in Hk as [Hk _].
        by apply bool_decide_eq_true in Hk.
      + by rewrite (updateMany_fmap AttendanceRecord.id).
    - split; [|split].
      + unfold prisma.create. apply elem_of_app. right. apply list_elem_of_here.
      + done.
      + unfold prisma.create. rewrite fmap_app. apply NoDup_app.
        split; [done|]. split; [|apply NoDup_singleton].
        intros x Hx ->%list_elem_of_singleton. done. }
  destruct Hrec as (Hin & Huser & Hids').
  assert (Hfind : findAttendanceById db' (AttendanceRecord.id record) = Some record).
  { destruct (findFirst_is_Some (byRecordId (AttendanceRecord.id record)) rows' record)
      as [r Hr]; [done | by apply bool_decide_eq_true|].
    change (findAttendanceById db' (AttendanceRecord.id record))
      with (prisma.findFirst (byRecordId (AttendanceRecord.id record)) rows').
    rewrite Hr. f_equal.
    apply findFirst_Some in Hr as [Hr Hid]. apply bool_decide_eq_true in Hid.
    by eapply NoDup_fmap_eq. }
  split; [exact Hfind|].
  assert (Hguard :
    negb (bool_decide (AttendanceRecord.userId record = User.id actor))
    && negb (bool_decide (User.role actor = TRIBE_LEAD)) = true).
  { rewrite !bool_decide_eq_false_2; [done| |]; congruence. }
  split.
  - unfold DELETE_attendance_id. by rewrite Hauth', Hfind, Hguard.
  - intros data. unfold PATCH_attendance_id. by rewrite Hauth', Hfind, Hguard.
Qed.

(** Witness for X7: chapter lead C1 books direct report R1 for 2025-01-03
    and then tries to delete the record. *)
Lemma chapter_lead_writes_but_cannot_remove_witness :
  exists record db',
    POST_attendance Example.db Example.asC1
      (createAttendanceSchema.mk "r1" (Example.jan 3) createAttendanceSchema.office None)
      "a9"
    = (apiResponse (includeUser UserSummary.select db' record) 201, db')
    /\ DELETE_attendance_id db' Example.asC1 (AttendanceRecord.id record)
       = (apiError "Forbidden" 403, db').
Proof.
  destruct (chapter_lead_writes_but_cannot_remove Example.db Example.asC1 Example.C1
              (createAttendanceSchema.mk "r1" (Example.jan 3)
                 createAttendanceSchema.office None) "a9")
    as (record & db' & Heq & _ & Hdel & _).
  - reflexivity.
  - reflexivity.
  - discriminate.
  - exists Example.R1. split; reflexivity.
  - apply (bool_decide_unpack _). vm_compute. exact I.
  - apply (bool_decide_unpack _). vm_compute. exact I.
  - exists record, db'. split; [exact Heq | exact Hdel].
Defined.

(** ** Delegation registry: revocation and the active lookup *)

Lemma deactivate_idem d : deactivate (deactivate d) = deactivate d.
Proof. reflexivity. Qed.

Lemma revoke_success db h user id d :
  getUserFromRequest db h = Some user ->
  User.role user = TRIBE_LEAD ->
  id <> "" ->
  prisma.findUnique (fun d => bool_decide (Delegation.id d = id)) (DB.delegation db)
  = Some d ->
  DELETE_delegations db h (Some id)
  = (apiResponse (deactivate d) 200,
     DB.mk (DB.user db) (DB.attendanceRecord db)
       (prisma.updateMany (fun d => bool_decide (Delegation.id d = id)) deactivate
          (DB.delegation db))
       (DB.officeCapacity db)).
Proof.
  intros Hauth Hrole Hid Hfind. unfold DELETE_delegations.
  rewrite Hauth. rewrite bool_decide_eq_true_2 by done. cbn [negb]. cbv iota.
  rewrite bool_decide_eq_false_2 by done. by rewrite Hfind.
Qed.

(** X8: revocation is idempotent on an existing delegation and an error
    on an unknown one.  Revoking a stored delegation answers 200 with the
    delegation inactive; revoking it again answers 200 with the same body
    and leaves the store as the first revocation left it; an id that
    names no delegation is answered 500 with the store unchanged. *)
Theorem revoke_twice db h user id :
  getUserFromRequest db h = Some user ->
  User.role user = TRIBE_LEAD ->
  id <> "" ->
  (forall d,
     prisma.findUnique (fun d => bool_decide (Delegation.id d = id)) (DB.delegation db)
     = Some d ->
     exists db',
       DELETE_delegations db h (Some id) = (apiResponse (deactivate d) 200, db')
       /\ DELETE_delegations db' h (Some id) = (apiResponse (deactivate d) 200, db'))
  /\ (prisma.findUnique (fun d => bool_decide (Delegation.id d = id)) (DB.delegation db)
      = None ->
      DELETE_delegations db h (Some id) = (apiError "Internal server error" 500, db)).
Proof.
  intros Hauth Hrole Hid. split.
  - intros d Hfind. eexists. split; [by apply (revoke_success db h user id d)|].
    set (byId := fun d => bool_decide (Delegation.id d = id)) in *.
    set (rows' := prisma.updateMany byId deactivate (DB.delegation db)).
    assert (Hfind' : prisma.findUnique byId rows' = Some (deactivate d)).
    { subst rows'. unfold prisma.findUnique, prisma.findFirst in *.
      rewrite findMany_updateMany_fmap by done.
      destruct (prisma.findMany byId (DB.delegation db)); [done|].
      by injection Hfind as ->. }
    rewrite (revoke_success _ h user id (deactivate d)); try done.
    cbn [DB.user DB.attendanceRecord DB.delegation DB.officeCapacity].
    f_equal. f_equal. fold byId. fold rows'.
    apply updateMany_id. intros x Hx Hq.
    apply list_elem_of_fmap in Hx as (y & -> & _).
    destruct (byId y) eqn:Hy; [reflexivity | congruence].
  - intros Hnone. unfold DELETE_delegations.
    rewrite Hauth. rewrite bool_decide_eq_true_2 by done. cbn [negb]. cbv iota.
    rewrite bool_decide_eq_false_2 by done. by rewrite Hnone.
Qed.

(** Witness for X8: the Tribe Lead revokes delegation d1 twice. *)
Lemma revoke_twice_witness :
  DELETE_delegations (DELETE_delegations Example.db Example.asT1 (Some "d1")).2
    Example.asT1 (Some "d1")
  = DELETE_delegations Example.db Example.asT1 (Some "d1").
Proof.
  destruct (proj1 (revoke_twice Example.db Example.asT1 Example.T1 "d1"
                     eq_refl eq_refl ltac:(discriminate)) Example.D1 eq_refl)
    as (db' & H1 & H2).
  rewrite H1. cbn [snd]. exact H2.
Defined.

Lemma activeDelegation_Some db userId now d :
  activeDelegation db userId now = Some d ->
  d ∈ DB.delegation db
  /\ Delegation.delegateId d = userId
  /\ Delegation.isActive d = true
  /\ Delegation.startDate d <= now <= Delegation.endDate d.
Proof.
  intros H. apply findFirst_Some in H as [Hin Hp].
  repeat (apply andb_prop in Hp as [Hp ?]).
  apply bool_decide_eq_true in Hp. repeat split; (done || lia).
Qed.

Lemma activeDelegation_findMany db userId now :
  activeDelegation db userId now
  = head (filter (fun d => Delegation.startDate d <= now <= Delegation.endDate d)
            (prisma.findMany (activeFor userId) (DB.delegation db))).
Proof.
  unfold activeDelegation, prisma.findFirst, prisma.findMany. f_equal.
  rewrite list_filter_filter. apply list_filter_iff. intros d.
  unfold activeFor. rewrite !andb_true_iff, !Z.leb_le. tauto.
Qed.

(** X9: once the Tribe Lead has created a delegation, the active lookup
    for the delegate returns that delegation at every instant from its
    start to its end, both included, and nothing outside; an earlier
    delegation of the delegate is never returned, even inside its own
    window. *)
Theorem created_delegation_is_the_effective_one
    db h user delegateId start end_ newId now :
  getUserFromRequest db h = Some user ->
  User.role user = TRIBE_LEAD ->
  delegateId <> "" ->
  start < end_ ->
  is_Some (findUserById db delegateId) ->
  activeDelegation
    (POST_delegations db h
       (DelegationBody.mk (Some delegateId) (Some (JSDate.Instant start))
          (Some (JSDate.Instant end_))) newId).2
    delegateId now
  = if bool_decide (start <= now <= end_) then
      Some (Delegation.mk newId (User.id user) delegateId start end_ true)
    else None.
Proof.
  intros Hauth Hrole Hne Hlt Hex.
  rewrite (POST_delegations_created db h user) by done. cbn [snd].
  rewrite activeDelegation_findMany. cbn [DB.delegation].
  rewrite created_is_only_active
    by (unfold activeFor; simpl; by rewrite bool_decide_eq_true_2).
  rewrite filter_cons, filter_nil. simpl.
  case_decide; [by rewrite bool_decide_eq_true_2 | by rewrite bool_decide_eq_false_2].
Qed.

(** Witness for X9: a new delegation for R1 from 2025-01-10 to
    2025-01-12, looked up on 2025-01-03, inside the window of the older
    delegation d1. *)
Lemma created_delegation_is_the_effective_one_witness :
  activeDelegation Example.db "r1" (Example.jan 3) = Some Example.D1
  /\ activeDelegation
       (POST_delegations Example.db Example.asT1
          (DelegationBody.mk (Some "r1") (Some (JSDate.Instant (Example.jan 10)))
             (Some (JSDate.Instant (Example.jan 12)))) "d3").2
       "r1" (Example.jan 3)
     = None.
Proof.
  split; [reflexivity|].
  rewrite (created_delegation_is_the_effective_one Example.db Example.asT1
             Example.T1 "r1" (Example.jan 10) (Example.jan 12) "d3" (Example.jan 3));
    [reflexivity | reflexivity | reflexivity | discriminate | reflexivity
     | by eexists].
Defined.

(** X10: a revoked delegation is never effective again: after a
    successful revocation the active lookup returns no delegation with
    the revoked id, for any user and at any instant. *)
Theorem revoked_delegation_is_never_effective db h id userId now d :
  statusOf (DELETE_delegations db h (Some id)).1 = 200 ->
  activeDelegation (DELETE_delegations db h (Some id)).2 userId now = Some d ->
  Delegation.id d <> id.
Proof.
  unfold DELETE_delegations.
  destruct (getUserFromRequest db h) as [user|]; [|done].
  destruct (negb _); [done|].
  destruct (bool_decide (id = "")); [done|].
  destruct (prisma.findUnique _ _) as [d0|]; [|done].
  intros _ Hact. cbn [snd] in Hact.
  apply activeDelegation_Some in Hact as (Hin & _ & Hactive & _).
  cbn [DB.delegation] in Hin. unfold prisma.updateMany in Hin.
  apply list_elem_of_fmap in Hin as (y & -> & _).
  case_bool_decide as Hy; [done|]. exact Hy.
Qed.

(** Witness for X10: d2 is revoked; the lookup for R1 still returns d1. *)
Lemma revoked_delegation_is_never_effective_witness :
  activeDelegation (DELETE_delegations Example.db Example.asT1 (Some "d2")).2
    "r1" (Example.jan 3) = Some Example.D1
  /\ Delegation.id Example.D1 <> "d2".
Proof.
  split; [reflexivity|].
  apply (revoked_delegation_is_never_effective Example.db Example.asT1 "d2" "r1"
           (Example.jan 3) Example.D1); reflexivity.
Defined.

(** ** Capacity settings: writing and reading back *)

Lemma capacityFor_lookup table dayName :
  NoDup (OfficeCapacity.dayOfWeek <$> table) ->
  capacityFor (prisma.orderBy dayOfWeekAsc table) dayName
  = match prisma.findFirst (byDay dayName) table with
    | Some c => OfficeCapacity.capacity c
    | None => 0
    end.
Proof.
  intros Hnd. destruct (prisma.findFirst (byDay dayName) table) as [c|] eqn:Hf.
  - apply findFirst_Some in Hf as [Hin Hday]. apply bool_decide_eq_true in Hday.
    rewrite <- Hday. by apply capacityFor_configured.
  - unfold capacityFor.
    destruct (prisma.findFirst _ (prisma.orderBy _ _)) as [c|] eqn:Hs; [|done].
    apply findFirst_Some in Hs as [Hin Hday]. apply orderBy_elem in Hin.
    rewrite findFirst_None in Hf. specialize (Hf c Hin).
    unfold byDay in Hf. congruence.
Qed.

Lemma PUT_office_capacity_ok db h user dayOfWeek capacity :
  getUserFromRequest db h = Some user ->
  User.role user = TRIBE_LEAD ->
  dayOfWeek ∈ validDays ->
  0 <= capacity ->
  PUT_office_capacity db h (Some dayOfWeek) (Some capacity)
  = (apiResponse (OfficeCapacity.mk dayOfWeek capacity) 200,
     DB.mk (DB.user db) (DB.attendanceRecord db) (DB.delegation db)
       (prisma.upsert (byDay dayOfWeek)
          (fun _ => OfficeCapacity.mk dayOfWeek capacity)
          (OfficeCapacity.mk dayOfWeek capacity) (DB.officeCapacity db))).
Proof.
  intros Hauth Hrole Hday Hcap. unfold PUT_office_capacity. rewrite Hauth.
  rewrite bool_decide_eq_true_2 by done. cbn [negb]. cbv iota.
  rewrite bool_decide_eq_false_2.
  - rewrite (bool_decide_eq_true_2 _ Hday). cbn [negb]. cbv iota.
    destruct (capacity <? 0) eqn:E; [lia|]. reflexivity.
  - intros ->. unfold validDays in Hday.
    repeat (apply elem_of_cons in Hday as [Hday|Hday]; [discriminate|]).
    by apply elem_of_nil in Hday.
Qed.

Lemma findMany_updateMany_selected {A} (p : A -> bool) (f : A -> A) rows :
  (forall r, p r = true -> p (f r) = true) ->
  prisma.findMany p (prisma.updateMany p f rows) = f <$> prisma.findMany p rows.
Proof.
  intros H. unfold prisma.findMany, prisma.updateMany.
  induction rows as [|r rows IH]; [done|].
  rewrite fmap_cons, !filter_cons, IH.
  destruct (p r) eqn:E.
  - rewrite (H r E). rewrite !decide_True by done. done.
  - rewrite E. rewrite !decide_False by done. done.
Qed.

Lemma upsert_capacity_lookup dayOfWeek capacity table other :
  prisma.findFirst (byDay other)
    (prisma.upsert (byDay dayOfWeek)
       (fun _ => OfficeCapacity.mk dayOfWeek capacity)
       (OfficeCapacity.mk dayOfWeek capacity) table)
  = if bool_decide (other = dayOfWeek)
    then Some (OfficeCapacity.mk dayOfWeek capacity)
    else prisma.findFirst (byDay other) table.
Proof.
  unfold prisma.upsert, prisma.findUnique.
  destruct (prisma.findFirst (byDay dayOfWeek) table) as [r|] eqn:Hf.
  - case_bool_decide as Ho.
    + subst other. unfold prisma.findFirst in *.
      rewrite findMany_updateMany_selected
        by (intros; unfold byDay; simpl; by apply bool_decide_eq_true).
      destruct (prisma.findMany (byDay dayOfWeek) table); [done|reflexivity].
    + unfold prisma.findFirst. rewrite findMany_updateMany_same; [done|].
      intros x Hx. unfold byDay in *. apply bool_decide_eq_true in Hx.
      simpl. rewrite !bool_decide_eq_false_2; [done| |]; congruence.
  - unfold prisma.create, prisma.findFirst, prisma.findMany in *.
    rewrite filter_app, head_app. rewrite filter_cons, filter_nil.
    case_bool_decide as Ho.
    + subst other. rewrite Hf. unfold byDay. simpl.
      by rewrite decide_True by by apply bool_decide_eq_true.
    + rewrite decide_False.
      * clear Hf. by destruct (head (filter _ table)).
      * unfold byDay. simpl. rewrite bool_decide_eq_true. congruence.
Qed.

Lemma updateMany_fmap_selected {A B} (key : A -> B) (q : A -> bool)
    (f : A -> A) rows :
  (forall r, q r = true -> key (f r) = key r) ->
  key <$> prisma.updateMany q f rows = key <$> rows.
Proof.
  intros H. unfold prisma.updateMany.
  rewrite <- list_fmap_compose. apply list_fmap_ext.
  intros _ r _. simpl. destruct (q r) eqn:E; [by apply H | done].
Qed.

Lemma upsert_capacity_NoDup dayOfWeek capacity table :
  NoDup (OfficeCapacity.dayOfWeek <$> table) ->
  NoDup (OfficeCapacity.dayOfWeek
           <$> prisma.upsert (byDay dayOfWeek)
                 (fun _ => OfficeCapacity.mk dayOfWeek capacity)
                 (OfficeCapacity.mk dayOfWeek capacity) table).
Proof.
  intros Hnd. unfold prisma.upsert, prisma.findUnique.
  destruct (prisma.findFirst (byDay dayOfWeek) table) as [r|] eqn:Hf.
  - rewrite updateMany_fmap_selected; [done|].
    intros x Hx. unfold byDay in Hx. by apply bool_decide_eq_true in Hx.
  - unfold prisma.create. rewrite fmap_app. apply NoDup_app.
    split; [done|]. split; [|apply NoDup_singleton].
    intros k (x & -> & Hx)%list_elem_of_fmap Hk%list_elem_of_singleton.
    rewrite findFirst_None in Hf. specialize (Hf x Hx).
    unfold byDay in Hf. by apply bool_decide_eq_false in Hf.
Qed.

(** X11: a capacity update answers 200 exactly when the principal is the
    Tribe Lead, the weekday is one of Monday to Friday and the capacity is
    not negative; any other answer leaves the store as it was.  After a
    successful update of a table with one row per weekday at most, the
    table still has one row per weekday at most, the capacity read for
    the weekday is the value written, and the capacity read for every
    other weekday is what it was. *)
Theorem PUT_office_capacity_read_back db h user dayOfWeek capacity :
  getUserFromRequest db h = Some user ->
  (statusOf (PUT_office_capacity db h (Some dayOfWeek) (Some capacity)).1 = 200
   <-> User.role user = TRIBE_LEAD /\ dayOfWeek ∈ validDays /\ 0 <= capacity)
  /\ (statusOf (PUT_office_capacity db h (Some dayOfWeek) (Some capacity)).1 <> 200 ->
      (PUT_office_capacity db h (Some dayOfWeek) (Some capacity)).2 = db)
  /\ (statusOf (PUT_office_capacity db h (Some dayOfWeek) (Some capacity)).1 = 200 ->
      NoDup (OfficeCapacity.dayOfWeek <$> DB.officeCapacity db) ->
      NoDup (OfficeCapacity.dayOfWeek
               <$> DB.officeCapacity
                     (PUT_office_capacity db h (Some dayOfWeek) (Some capacity)).2)
      /\ capacityFor
           (prisma.orderBy dayOfWeekAsc
              (DB.officeCapacity
                 (PUT_office_capacity db h (Some dayOfWeek) (Some capacity)).2))
           dayOfWeek = capacity
      /\ forall other, other <> dayOfWeek ->
           capacityFor
             (prisma.orderBy dayOfWeekAsc
                (DB.officeCapacity
                   (PUT_office_capacity db h (Some dayOfWeek) (Some capacity)).2))
             other
           = capacityFor (prisma.orderBy dayOfWeekAsc (DB.officeCapacity db)) other).
Proof.
  intros Hauth.
  destruct (decide (User.role user = TRIBE_LEAD /\ dayOfWeek ∈ validDays
                    /\ 0 <= capacity)) as [(Hrole & Hday & Hcap)|Hno].
  - rewrite (PUT_office_capacity_ok db h user) by done.
    cbn [fst snd statusOf DB.officeCapacity].
    split; [done|]. split; [done|]. intros _ Hnd.
    pose proof (upsert_capacity_NoDup dayOfWeek capacity _ Hnd) as Hnd'.
    split; [exact Hnd'|]. split.
    + rewrite capacityFor_lookup by done. rewrite upsert_capacity_lookup.
      by rewrite bool_decide_eq_true_2.
    + intros other Ho. rewrite !capacityFor_lookup by done.
      rewrite upsert_capacity_lookup. by rewrite bool_decide_eq_false_2.
  - assert (Hfail :
      statusOf (PUT_office_capacity db h (Some dayOfWeek) (Some capacity)).1 <> 200
      /\ (PUT_office_capacity db h (Some dayOfWeek) (Some capacity)).2 = db).
    { unfold PUT_office_capacity. rewrite Hauth.
      case_bool_decide as Hrole; cbn [negb]; cbv iota; [|done].
      case_bool_decide as He; [done|].
      case_bool_decide as Hday; cbn [negb]; cbv iota; [|done].
      destruct (capacity <? 0) eqn:E; [done|].
      exfalso. apply Hno. repeat split; (done || lia). }
    destruct Hfail as [Hs Hdb]. split; [|split]; [| done | done].
    split; [done | by intros; exfalso].
Qed.

(** Witness for X11: on the default table the Tribe Lead sets Tuesday to
    15. *)
Lemma PUT_office_capacity_read_back_witness :
  capacityFor
    (prisma.orderBy dayOfWeekAsc
       (DB.officeCapacity
          (PUT_office_capacity
             (DB.mk [Example.T1] [] [] defaultCapacities) Example.asT1
             (Some "Tuesday") (Some 15)).2))
    "Tuesday" = 15.
Proof.
  pose proof (PUT_office_capacity_read_back
                (DB.mk [Example.T1] [] [] defaultCapacities) Example.asT1
                Example.T1 "Tuesday" 15 eq_refl) as (_ & _ & H).
  apply H.
  - reflexivity.
  - apply (bool_decide_unpack _). vm_compute. exact I.
Defined.

Lemma capacityFor_single dayOfWeek capacity dayName :
  capacityFor (prisma.orderBy dayOfWeekAsc [OfficeCapacity.mk dayOfWeek capacity])
    dayName
  = if bool_decide (dayName = dayOfWeek) then capacity else 0.
Proof.
  rewrite capacityFor_lookup by (simpl; apply NoDup_singleton).
  unfold prisma.findFirst, prisma.findMany. rewrite filter_cons, filter_nil.
  case_bool_decide as Hd.
  - rewrite decide_True; [done|].
    unfold byDay. cbn [OfficeCapacity.dayOfWeek]. by apply bool_decide_eq_true.
  - rewrite decide_False; [done|].
    unfold byDay. cbn [OfficeCapacity.dayOfWeek]. rewrite bool_decide_eq_true.
    congruence.
Qed.



(** X13: the defaults are materialized once.  For a Chapter Lead or the
    Tribe Lead, a read of the week leaves a non-empty capacity table; a
    store whose table is not empty is left exactly as it was; so a second
    read, of any week, changes nothing more.  A Reporter is answered 403
    and nothing is stored. *)
Theorem GET_office_capacity_materializes_once
    db h principal tz today weekOffset tz' today' weekOffset' :
  getUserFromRequest db h = Some principal ->
  (User.role principal = REPORTER ->
   GET_office_capacity db h tz today weekOffset = (apiError "Access denied" 403, db))
  /\ (User.role principal <> REPORTER ->
      DB.officeCapacity (GET_office_capacity db h tz today weekOffset).2 <> []
      /\ (DB.officeCapacity db <> [] ->
          (GET_office_capacity db h tz today weekOffset).2 = db)
      /\ (GET_office_capacity (GET_office_capacity db h tz today weekOffset).2
            h tz' today' weekOffset').2
         = (GET_office_capacity db h tz today weekOffset).2).
Proof.
  intros Hauth. split.
  - intros Hrole. unfold GET_office_capacity. rewrite Hauth, Hrole. reflexivity.
  - intros Hrole.
    rewrite (GET_office_capacity_ok db h principal) by done. cbn [snd].
    set (table := if bool_decide (DB.officeCapacity db = []) then defaultCapacities
                  else DB.officeCapacity db).
    assert (Htable : table <> []).
    { subst table. case_bool_decide; done. }
    split; [exact Htable|]. split.
    + intros Hne. subst table. rewrite bool_decide_eq_false_2 by done.
      by destruct db.
    + rewrite (GET_office_capacity_ok _ h principal) by done. cbn [snd].
      cbn [DB.officeCapacity DB.user DB.attendanceRecord DB.delegation].
      by rewrite (bool_decide_eq_false_2 _ Htable).
Qed.

(** Witness for X13: chapter lead C1 reads two different weeks from the
    example store. *)
Lemma GET_office_capacity_materializes_once_witness :
  DB.officeCapacity
    (GET_office_capacity Example.db Example.asC1 (JSDate.fixedOffset 0) (Example.jan 8) 0).2
  = defaultCapacities
  /\ (GET_office_capacity
        (GET_office_capacity Example.db Example.asC1 (JSDate.fixedOffset 0) (Example.jan 8) 0).2
        Example.asC1 (JSDate.fixedOffset 0) (Example.jan 8) 1).2
     = (GET_office_capacity Example.db Example.asC1 (JSDate.fixedOffset 0) (Example.jan 8) 0).2.
Proof.
  split; [reflexivity|].
  apply (proj2 (GET_office_capacity_materializes_once Example.db Example.asC1
                  Example.C1 (JSDate.fixedOffset 0) (Example.jan 8) 0
                  (JSDate.fixedOffset 0) (Example.jan 8) 1 eq_refl)).
  discriminate.
Defined.

(** ** The allocation route *)

Lemma upsertAttendance_is_Some db newId userId date status notes :
  is_Some (findUserById db userId) ->
  is_Some (upsertAttendance db newId userId date status notes).
Proof. intros [t Ht]. unfold upsertAttendance. rewrite Ht. by eexists. Qed.

Lemma direct_report_found db actor userId :
  managedBy db userId (User.id actor) ->
  is_Some
    (prisma.findFirst
       (fun u => bool_decide (User.id u = userId)
                 && bool_decide (User.chapterLeadId u = Some (User.id actor)))
       (DB.user db)).
Proof.
  intros (t & Ht & Hcl). apply findUserById_Some in Ht as [Hin Hid].
  apply (findFirst_is_Some _ _ t); [done|].
  by rewrite !bool_decide_eq_true_2.
Qed.

(** X14: the allocation route answers 201 exactly when the target is not
    the actor and either the actor is the Tribe Lead and the target
    exists, or the actor is a Chapter Lead and the target's chapter lead;
    any other answer leaves the store as it was.  Its second Chapter Lead
    test never decides: the answer "You can only allocate attendance for
    your direct reports" is not given for any request. *)
Theorem POST_attendance_allocate_outcome db h actor body newId :
  getUserFromRequest db h = Some actor ->
  (statusOf (POST_attendance_allocate db h body newId).1 = 201 <->
   allocateSchema.userId body <> User.id actor
   /\ ((User.role actor = TRIBE_LEAD
        /\ is_Some (findUserById db (allocateSchema.userId body)))
       \/ (User.role actor = CHAPTER_LEAD
           /\ managedBy db (allocateSchema.userId body) (User.id actor))))
  /\ (statusOf (POST_attendance_allocate db h body newId).1 <> 201 ->
      (POST_attendance_allocate db h body newId).2 = db)
  /\ (POST_attendance_allocate db h body newId).1
     <> apiError "You can only allocate attendance for your direct reports" 403.
Proof.
  intros Hauth. unfold POST_attendance_allocate. rewrite Hauth.
  case_bool_decide as Hrep.
  { split; [|done]. split; [done|]. intros [_ [[? _]|[? _]]]; congruence. }
  case_bool_decide as Hself.
  { split; [|done]. split; [done|]. by intros [? _]. }
  destruct (canAllocateAttendance db actor (allocateSchema.userId body)) eqn:Hcan;
    cbn [negb]; cbv iota.
  2:{ split; [|done]. split; [done|]. intros [_ H].
      assert (canAllocateAttendance db actor (allocateSchema.userId body) = true);
        [|congruence].
      apply canAllocateAttendance_hierarchy. destruct H as [[? _]|[? ?]]; tauto. }
  apply canAllocateAttendance_hierarchy in Hcan.
  destruct (findUserById db (allocateSchema.userId body)) as [t|] eqn:Hfind.
  2:{ split; [|done]. split; [done|].
      intros [_ [[_ [? ?]]|[_ (t & Ht & _)]]]; congruence. }
  assert (Hgate :
    bool_decide (User.role actor = CHAPTER_LEAD)
    && negb (bool_decide (is_Some
         (prisma.findFirst
            (fun u => bool_decide (User.id u = allocateSchema.userId body)
                      && bool_decide (User.chapterLeadId u = Some (User.id actor)))
            (DB.user db)))) = false).
  { case_bool_decide as Hcl; [|done]. cbn [andb].
    rewrite bool_decide_eq_true_2; [done|].
    apply direct_report_found.
    destruct Hcan as [?|[?|[_ ?]]]; [congruence|congruence|done]. }
  rewrite Hgate.
  destruct (upsertAttendance_is_Some db newId (allocateSchema.userId body)
              (allocateSchema.date body)
              (allocateSchema.stored (allocateSchema.status_ body))
              (allocateSchema.notes body)) as [[record db'] ->];
    [by rewrite Hfind|].
  cbn [fst snd statusOf]. split; [|done]. split; [|done]. intros _.
  split; [congruence|].
  destruct Hcan as [?|[?|[? ?]]]; [congruence | left | right]; done.
Qed.

(** Witness for X14: chapter lead C1 allocates for direct report R1. *)
Lemma POST_attendance_allocate_outcome_witness :
  statusOf
    (POST_attendance_allocate Example.db Example.asC1
       (allocateSchema.mk "r1" (Example.jan 3) allocateSchema.off None) "a9").1
  = 201.
Proof.
  apply (proj1 (POST_attendance_allocate_outcome Example.db Example.asC1 Example.C1
                  (allocateSchema.mk "r1" (Example.jan 3) allocateSchema.off None)
                  "a9" eq_refl)).
  split; [discriminate|]. right. split; [reflexivity|].
  exists Example.R1. split; reflexivity.
Defined.

(** X15: on the statuses both vocabularies have (office and remote), the
    allocation route and the self-service route write the same thing:
    for an actor who is not a Reporter and a target other than the actor,
    the store after [POST /api/attendance/allocate] is the store after
    [POST /api/attendance] with the same user, date, status and note. *)
Theorem allocate_agrees_with_upsert db h actor userId date status status' notes newId :
  getUserFromRequest db h = Some actor ->
  User.role actor <> REPORTER ->
  userId <> User.id actor ->
  sharedStatus status = Some status' ->
  (POST_attendance_allocate db h (allocateSchema.mk userId date status notes) newId).2
  = (POST_attendance db h (createAttendanceSchema.mk userId date status' notes) newId).2.
Proof.
  intros Hauth Hrole Hself Hshared.
  assert (Hs : allocateSchema.stored status = createAttendanceSchema.stored status').
  { destruct status; simpl in Hshared; try done; by injection Hshared as <-. }
  pose proof (POST_attendance_allocate_outcome db h actor
                (allocateSchema.mk userId date status notes) newId Hauth)
    as (Hok & Hfail & _).
  unfold POST_attendance. rewrite Hauth.
  cbn [createAttendanceSchema.userId createAttendanceSchema.date
       createAttendanceSchema.status_ createAttendanceSchema.notes].
  destruct (canAllocateAttendance db actor userId) eqn:Hcan; cbn [negb]; cbv iota.
  - destruct (findUserById db userId) as [t|] eqn:Hfind.
    + unfold POST_attendance_allocate. rewrite Hauth.
      cbn [allocateSchema.userId allocateSchema.date allocateSchema.status_
           allocateSchema.notes].
      rewrite (bool_decide_eq_false_2 _ Hrole), (bool_decide_eq_false_2 _ Hself).
      rewrite Hcan, Hfind. cbn [negb]. cbv iota.
      apply canAllocateAttendance_hierarchy in Hcan.
      replace (bool_decide (User.role actor = CHAPTER_LEAD) && _) with false.
      * rewrite Hs. by destruct (upsertAttendance _ _ _ _ _ _) as [[? ?]|].
      * symmetry. case_bool_decide as Hcl; [|done]. cbn [andb].
        rewrite bool_decide_eq_true_2; [done|]. apply direct_report_found.
        destruct Hcan as [?|[?|[_ ?]]]; [congruence|congruence|done].
    + rewrite Hfail.
      * unfold upsertAttendance. by rewrite Hfind.
      * intros H201. apply Hok in H201 as [_ [[_ [? ?]]|[_ (t & Ht & _)]]];
          cbn in *; congruence.
  - apply Hfail. intros H201. apply Hok in H201 as [_ H]. cbn in H.
    assert (canAllocateAttendance db actor userId = true); [|congruence].
    apply canAllocateAttendance_hierarchy. destruct H as [[? _]|[? ?]]; tauto.
Qed.

(** Witness for X15: chapter lead C1 books direct report R1 into the
    office through either route. *)
Lemma allocate_agrees_with_upsert_witness :
  (POST_attendance_allocate Example.db Example.asC1
     (allocateSchema.mk "r1" (Example.jan 3) allocateSchema.office None) "a9").2
  = (POST_attendance Example.db Example.asC1
       (createAttendanceSchema.mk "r1" (Example.jan 3)
          createAttendanceSchema.office None) "a9").2.
Proof.
  apply (allocate_agrees_with_upsert Example.db Example.asC1 Example.C1 "r1"
           (Example.jan 3) allocateSchema.office createAttendanceSchema.office
           None "a9"); (reflexivity || discriminate).
Defined.

(** ** The attendance list: completeness and order *)

Lemma dateDesc_transitive :
  Transitive (fun x y : AttendanceRecord.t => Is_true (dateDesc x y)).
Proof.
  intros x y z. unfold dateDesc. rewrite !Is_true_true, !Z.leb_le. lia.
Qed.

Lemma dateDesc_total :
  Total (fun x y : AttendanceRecord.t => Is_true (dateDesc x y)).
Proof.
  intros x y. unfold dateDesc. rewrite !Is_true_true, !Z.leb_le. lia.
Qed.

Lemma orderBy_dateDesc_sorted rows :
  StronglySorted (fun x y => AttendanceRecord.date y <= AttendanceRecord.date x)
    (prisma.orderBy dateDesc rows).
Proof.
  pose proof (@StronglySorted_merge_sort _
                (fun x y : AttendanceRecord.t => Is_true (dateDesc x y)) _
                dateDesc_transitive dateDesc_total rows) as H.
  unfold prisma.orderBy. induction H as [|x l Hl IH Hx]; constructor; [done|].
  eapply Forall_impl; [exact Hx|]. intros y. unfold dateDesc.
  rewrite Is_true_true, Z.leb_le. done.
Qed.

Lemma records_of_included {S} (select : User.t -> S) db
    (rows : list AttendanceRecord.t) :
  WithUser.record <$> (includeUser select db <$> rows) = rows.
Proof.
  rewrite <- list_fmap_compose. rewrite <- (list_fmap_id rows) at 2.
  by apply list_fmap_ext.
Qed.

Lemma attendanceWhere_true userIdFilter gte lte status r :
  attendanceWhere userIdFilter gte lte status r = true <->
  userIdFilter (AttendanceRecord.userId r) = true
  /\ (forall t, gte = Some t -> t <= AttendanceRecord.date r)
  /\ (forall t, lte = Some t -> AttendanceRecord.date r <= t)
  /\ (forall s, status = Some s ->
        AttendanceRecord.status r = createAttendanceSchema.stored s).
Proof.
  unfold attendanceWhere. rewrite !andb_true_iff.
  destruct gte as [g|], lte as [l|], status as [s|];
    rewrite ?Z.leb_le, ?bool_decide_eq_true; split;
    try (intros [[[H1 H2] H3] H4]; split_and!; try done;
         by (intros ? [= <-])).
  all: intros (H1 & H2 & H3 & H4); split_and!; try done;
    by (apply H2 || apply H3 || apply H4).
Qed.

Lemma dateBound_Some d bound :
  dateBound d = Some bound ->
  d <> Some JSDate.InvalidDate
  /\ forall t, d = Some (JSDate.Instant t) <-> bound = Some t.
Proof.
  destruct d as [[t|]|]; simpl; intros [= <-]; split; try done.
  - intros t'. split; congruence.
Qed.

Lemma GET_attendance_listing db (userIdFilter : string -> bool) query :
  let answer : Response (list (WithUser.t UserProfile.t)) :=
    match dateBound (getAttendanceQuerySchema.startDate query),
          dateBound (getAttendanceQuerySchema.endDate query) with
    | Some gte, Some lte =>
        apiResponse
          (includeUser UserProfile.select db <$>
             prisma.orderBy dateDesc
               (prisma.findMany
                  (attendanceWhere userIdFilter gte lte
                     (getAttendanceQuerySchema.status_ query))
                  (DB.attendanceRecord db)))
          200
    | _, _ => apiError "Internal server error" 500
    end in
  (getAttendanceQuerySchema.startDate query = Some JSDate.InvalidDate
   \/ getAttendanceQuerySchema.endDate query = Some JSDate.InvalidDate ->
   answer = apiError "Internal server error" 500)
  /\ (getAttendanceQuerySchema.startDate query <> Some JSDate.InvalidDate ->
      getAttendanceQuerySchema.endDate query <> Some JSDate.InvalidDate ->
      exists records,
        answer = apiResponse records 200
        /\ (forall r,
              r ∈ WithUser.record <$> records <->
              r ∈ DB.attendanceRecord db
              /\ userIdFilter (AttendanceRecord.userId r) = true
              /\ (forall t,
                    getAttendanceQuerySchema.startDate query
                    = Some (JSDate.Instant t) ->
                    t <= AttendanceRecord.date r)
              /\ (forall t,
                    getAttendanceQuerySchema.endDate query
                    = Some (JSDate.Instant t) ->
                    AttendanceRecord.date r <= t)
              /\ (forall status,
                    getAttendanceQuerySchema.status_ query = Some status ->
                    AttendanceRecord.status r
                    = createAttendanceSchema.stored status))
        /\ StronglySorted
             (fun x y => AttendanceRecord.date y <= AttendanceRecord.date x)
             (WithUser.record <$> records)).
Proof.
  intros answer. subst answer. split.
  - intros [Hs|He].
    + rewrite Hs. reflexivity.
    + rewrite He. by destruct (dateBound (getAttendanceQuerySchema.startDate query)).
  - intros Hs He.
    destruct (dateBound (getAttendanceQuerySchema.startDate query)) as [gte|] eqn:Hgte;
      [|by destruct (getAttendanceQuerySchema.startDate query) as [[?|]|]].
    destruct (dateBound (getAttendanceQuerySchema.endDate query)) as [lte|] eqn:Hlte;
      [|by destruct (getAttendanceQuerySchema.endDate query) as [[?|]|]].
    apply dateBound_Some in Hgte as [_ Hgte], Hlte as [_ Hlte].
    eexists. split; [reflexivity|]. rewrite records_of_included.
    split; [|apply orderBy_dateDesc_sorted].
    intros r. rewrite orderBy_elem, findMany_elem, attendanceWhere_true.
    split.
    + intros [(H1 & H2 & H3 & H4) Hin]. split_and!; try done.
      * intros t Ht. by apply H2, Hgte.
      * intros t Ht. by apply H3, Hlte.
    + intros (Hin & H1 & H2 & H3 & H4). split_and!; try done.
      * intros t Ht. by apply H2, Hgte.
      * intros t Ht. by apply H3, Hlte.
Qed.



(** ** The week view: its window and its order *)

Lemma weekWindow_current tz now :
  JSDate.keepsDay tz ->
  weekWindow tz now None
  = (JSDate.UTC tz
       (JSDate.MakeDate
          (JSDate.localDay tz now - (JSDate.getDay tz now + 6) `mod` 7) 0),
     JSDate.UTC tz
       (JSDate.MakeDate
          (JSDate.localDay tz now - (JSDate.getDay tz now + 6) `mod` 7 + 6)
          86399999)).
Proof.
  intros Hday. unfold weekWindow. cbv zeta.
  rewrite !setHours_local.
  change (JSDate.MakeTime 0 0 0 0) with 0.
  change (JSDate.MakeTime 23 59 59 999) with 86399999.
  rewrite (localDay_setDate tz Hday _ 6), (localDay_midnight tz Hday).
  rewrite (localDay_setDate tz Hday).
  destruct (monday_offset tz (JSDate.localDay tz now) 0) as [H _].
  cbv zeta in H. rewrite <- getDay_localDay in H.
  replace (JSDate.localDay tz now
           + (if JSDate.getDay tz now =? 0 then -6 else 1 - JSDate.getDay tz now))
    with (JSDate.localDay tz now - (JSDate.getDay tz now + 6) `mod` 7)
    by (destruct (JSDate.getDay tz now =? 0); lia).
  reflexivity.
Qed.

Lemma setDate_midnight tz day k :
  JSDate.keepsMidnight tz ->
  JSDate.setDate tz (JSDate.UTC tz (JSDate.MakeDate day 0))
    (JSDate.getDate tz (JSDate.UTC tz (JSDate.MakeDate day 0)) + k)
  = JSDate.UTC tz (JSDate.MakeDate (day + k) 0).
Proof.
  intros Hmid. rewrite setDate_shift. unfold JSDate.localDay.
  rewrite (Hmid day).
  rewrite Day_MakeDate by (unfold JSDate.msPerDay; lia).
  f_equal. f_equal.
  unfold JSDate.TimeWithinDay, JSDate.MakeDate, JSDate.msPerDay.
  Z.div_mod_to_equations. lia.
Qed.

Lemma weekWindow_numbered tz now year week :
  JSDate.keepsMidnight tz ->
  ~ (0 <= year <= 99) ->
  weekWindow tz now (Some (year, week))
  = (JSDate.UTC tz
       (JSDate.MakeDate (JSDate.daysFromCivil year 0 1 + (week - 1) * 7) 0),
     JSDate.UTC tz
       (JSDate.MakeDate (JSDate.daysFromCivil year 0 1 + (week - 1) * 7 + 6) 0)).
Proof.
  intros Hmid Hyear. unfold weekWindow, JSDate.fromLocal. cbv zeta.
  replace ((0 <=? year) && (year <=? 99)) with false
    by (symmetry; apply andb_false_iff; rewrite !Z.leb_gt; lia).
  change (JSDate.MakeTime 0 0 0 0) with 0.
  by rewrite !(setDate_midnight tz _ _ Hmid).
Qed.

(** A calendar-day record and a window of whole local days, in a zone at
    or east of Greenwich. *)
Lemma stamped_in_days tz first last day r :
  JSDate.eastOfGreenwich tz ->
  stampedOn day r ->
  inWindow (JSDate.UTC tz (JSDate.MakeDate first 0))
    (JSDate.UTC tz (JSDate.MakeDate last 86399999)) r = true
  <-> first <= day <= last.
Proof.
  intros Heast Hr. unfold inWindow, JSDate.UTC. rewrite Hr.
  pose proof (Heast (JSDate.MakeDate first 0)) as H1.
  pose proof (Heast (JSDate.MakeDate last 86399999)) as H2.
  revert H1 H2.
  generalize (tz (JSDate.MakeDate first 0) false).
  generalize (tz (JSDate.MakeDate last 86399999) false).
  intros o2 o1 H1 H2.
  unfold JSDate.MakeDate, JSDate.msPerDay in *.
  rewrite andb_true_iff, !Z.leb_le. lia.
Qed.

(** The same record and a window that ends at a local midnight: the last
    day counts only where local time is UTC at that midnight. *)
Lemma stamped_in_midnights tz first last day r :
  JSDate.eastOfGreenwich tz ->
  stampedOn day r ->
  inWindow (JSDate.UTC tz (JSDate.MakeDate first 0))
    (JSDate.UTC tz (JSDate.MakeDate last 0)) r = true
  <-> first <= day
      /\ (day < last \/ (day = last /\ tz (JSDate.MakeDate last 0) false = 0)).
Proof.
  intros Heast Hr. unfold inWindow, JSDate.UTC. rewrite Hr.
  pose proof (Heast (JSDate.MakeDate first 0)) as H1.
  pose proof (Heast (JSDate.MakeDate last 0)) as H2.
  revert H1 H2.
  generalize (tz (JSDate.MakeDate first 0) false).
  generalize (tz (JSDate.MakeDate last 0) false).
  intros o2 o1 H1 H2.
  unfold JSDate.MakeDate, JSDate.msPerDay in *.
  rewrite andb_true_iff, !Z.leb_le. lia.
Qed.

Lemma dateThenUserNameAsc_total db :
  Total (fun x y : AttendanceRecord.t => Is_true (dateThenUserNameAsc db x y)).
Proof.
  intros x y. unfold dateThenUserNameAsc. rewrite !Is_true_true.
  destruct (Z.lt_total (AttendanceRecord.date x) (AttendanceRecord.date y))
    as [Hlt|[Heq|Hgt]].
  - left. apply orb_true_iff. left. by apply Z.ltb_lt.
  - rewrite <- Heq, Z.eqb_refl, Z.ltb_irrefl. cbn [orb andb].
    destruct (User.name <$> findUserById db (AttendanceRecord.userId x)) as [a|],
             (User.name <$> findUserById db (AttendanceRecord.userId y)) as [b|];
      auto using String.leb_total.
  - right. apply orb_true_iff. left. by apply Z.ltb_lt.
Qed.

Lemma dateThenUserNameAsc_date db x y :
  dateThenUserNameAsc db x y = true ->
  AttendanceRecord.date x <= AttendanceRecord.date y.
Proof.
  unfold dateThenUserNameAsc. rewrite orb_true_iff, andb_true_iff.
  rewrite Z.ltb_lt, Z.eqb_eq. lia.
Qed.

Lemma orderBy_dateThenUserNameAsc_sorted db rows :
  StronglySorted (fun x y => AttendanceRecord.date x <= AttendanceRecord.date y)
    (prisma.orderBy (dateThenUserNameAsc db) rows).
Proof.
  apply Sorted_StronglySorted; [intros x y z; lia|].
  pose proof (@Sorted_merge_sort _
                (fun x y : AttendanceRecord.t =>
                   Is_true (dateThenUserNameAsc db x y)) _
                (dateThenUserNameAsc_total db) rows) as H.
  unfold prisma.orderBy. induction H as [|x l Hl IH Hx]; constructor; [done|].
  destruct Hx as [|y l' Hy]; constructor.
  apply (dateThenUserNameAsc_date db). by apply Is_true_true.
Qed.

(** X17: the week view without a [week] parameter, on a server whose
    zone keeps the calendar day and is at or east of Greenwich.  The
    window runs from the first instant of a local Monday to the last
    millisecond of the following local Sunday, and the local day of the
    request is one of these seven days.  The response lists exactly the
    stored records, of every user, whose instant lies in the window; a
    record stamped with a calendar day is listed exactly when that day is
    one of the seven; and the records come earliest date first. *)
Theorem GET_attendance_week_current db h principal tz now :
  JSDate.keepsDay tz ->
  JSDate.eastOfGreenwich tz ->
  getUserFromRequest db h = Some principal ->
  exists week monday,
    GET_attendance_week db h tz now None = apiResponse week 200
    /\ JSDate.getDay tz (JSDate.UTC tz (JSDate.MakeDate monday 0)) = 1
    /\ monday <= JSDate.localDay tz now <= monday + 6
    /\ (forall r,
          r ∈ WithUser.record <$> WeekAttendance.records week <->
          r ∈ DB.attendanceRecord db
          /\ JSDate.UTC tz (JSDate.MakeDate monday 0) <= AttendanceRecord.date r
             <= JSDate.UTC tz (JSDate.MakeDate (monday + 6) 86399999))
    /\ (forall r day,
          stampedOn day r ->
          r ∈ WithUser.record <$> WeekAttendance.records week <->
          r ∈ DB.attendanceRecord db /\ monday <= day <= monday + 6)
    /\ StronglySorted
         (fun x y => AttendanceRecord.date x <= AttendanceRecord.date y)
         (WithUser.record <$> WeekAttendance.records week).
Proof.
  intros Hday Heast Hauth. unfold GET_attendance_week.
  rewrite Hauth, (weekWindow_current tz now Hday).
  eexists. exists (JSDate.localDay tz now - (JSDate.getDay tz now + 6) `mod` 7).
  split; [reflexivity|]. cbn [WeekAttendance.records].
  rewrite records_of_included.
  split; [|split; [|split; [|split]]].
  - rewrite (getDay_midnight tz Hday), getDay_localDay.
    Z.div_mod_to_equations. lia.
  - rewrite getDay_localDay. Z.div_mod_to_equations. lia.
  - intros r. rewrite orderBy_elem, findMany_elem. unfold inWindow.
    rewrite andb_true_iff, !Z.leb_le. tauto.
  - intros r day Hr. rewrite orderBy_elem, findMany_elem.
    rewrite (stamped_in_days tz _ _ day r Heast Hr). tauto.
  - apply orderBy_dateThenUserNameAsc_sorted.
Qed.

(** Witness for X17: the week of the clock change in Berlin.  At noon
    of Friday 2025-03-28 the window runs from Monday 24 March, 00:00 at
    one hour ahead of UTC, to Sunday 30 March, 23:59:59.999 at two hours
    ahead; the records of the 24th and the 30th are listed and that of
    Monday the 31st is not. *)
Lemma GET_attendance_week_current_witness :
  exists week,
    GET_attendance_week Example.spring Example.asR1 Example.berlin
      (Example.march 28 + 43200000) None
    = apiResponse week 200
    /\ WithUser.record <$> WeekAttendance.records week = [Example.M24; Example.M30].
Proof.
  destruct (GET_attendance_week_current Example.spring Example.asR1 Example.R1
              Example.berlin (Example.march 28 + 43200000))
    as (week & monday & Heq & _).
  - apply berlin_keepsDay.
  - apply berlin_eastOfGreenwich.
  - reflexivity.
  - exists week. split; [exact Heq|].
    vm_compute in Heq. by injection Heq as <-.
Defined.



(** ** The user list and the user detail *)

(** X19: on a user table with unique ids the user list and the user
    detail agree: a row is in the list returned to a principal exactly
    when the detail route returns that row to the same principal. *)
Theorem GET_users_agrees_with_GET_users_id db h principal :
  NoDup (User.id <$> DB.user db) ->
  getUserFromRequest db h = Some principal ->
  exists users,
    GET_users db h = apiResponse users 200
    /\ forall u, u ∈ users <-> GET_users_id db h (User.id u) = apiResponse u 200.
Proof.
  intros Hnd Hauth. unfold GET_users, GET_users_id. rewrite Hauth.
  eexists. split; [reflexivity|]. intros u.
  rewrite orderBy_elem, findMany_elem, bool_decide_eq_true.
  rewrite canAccessUser_hierarchy. split.
  - intros [Hacc Hu]. rewrite (findUserById_stored db u Hnd Hu).
    apply (canAllocateAttendance_accessible db principal) in Hacc as ->;
      [done|done|].
    by rewrite (findUserById_stored db u Hnd Hu).
  - destruct (canAllocateAttendance db principal (User.id u)) eqn:Hcan; [|done].
    cbn [negb]. destruct (findUserById db (User.id u)) as [v|] eqn:Hv; [|done].
    intros [= ->]. split.
    + apply (canAllocateAttendance_accessible db principal); [done|by eexists|done].
    + by apply findUserById_Some in Hv as [? _].
Qed.

(** Witness for X19: chapter lead C1 sees reporter R1 both ways. *)
Lemma GET_users_agrees_with_GET_users_id_witness :
  exists users,
    GET_users Example.db Example.asC1 = apiResponse users 200
    /\ Example.R1 ∈ users
    /\ GET_users_id Example.db Example.asC1 "r1" = apiResponse Example.R1 200.
Proof.
  destruct (GET_users_agrees_with_GET_users_id Example.db Example.asC1 Example.C1)
    as (users & Heq & Hiff).
  - apply (bool_decide_unpack _). vm_compute. exact I.
  - reflexivity.
  - exists users. split; [exact Heq|].
    split; [by apply Hiff|reflexivity].
Defined.

(** X20: asking for a user id that is not in the table.  A Tribe Lead is
    told that the user is not found (404); everybody else is refused
    (403), so only a Tribe Lead can tell an unknown id from a hidden
    one. *)
Theorem GET_users_id_unknown db h principal id :
  getUserFromRequest db h = Some principal ->
  findUserById db id = None ->
  GET_users_id db h id
  = if isTribeLead principal then apiError "User not found" 404
    else apiError "You do not have permission to access this user" 403.
Proof.
  intros Hauth Hnone. unfold GET_users_id, canAccessUser.
  rewrite Hauth, Hnone.
  apply getUserFromRequest_Some in Hauth as [Hin _].
  destruct (findUserById_is_Some db principal Hin) as [v Hv].
  rewrite bool_decide_eq_false_2 by (intros <-; congruence).
  destruct (isTribeLead principal); [done|].
  by destruct (isChapterLead principal).
Qed.

(** Witness for X20: a Chapter Lead asking for an unknown id is refused. *)
Lemma GET_users_id_unknown_witness :
  GET_users_id Example.db Example.asC1 "nobody"
  = apiError "You do not have permission to access this user" 403.
Proof.
  exact (GET_users_id_unknown Example.db Example.asC1 Example.C1 "nobody"
           eq_refl eq_refl).
Defined.

(** ** The team hierarchy *)

Lemma sumDirectReports_sum_list cls :
  sumDirectReports cls = sum_list (WithReports.count_directReports <$> cls).
Proof.
  unfold sumDirectReports.
  assert (forall a, foldl (fun sum cl => (sum + WithReports.count_directReports cl)%nat)
                      a cls
                    = (a + sum_list (WithReports.count_directReports <$> cls))%nat)
    as H; [|by rewrite H].
  induction cls as [|cl cls IH]; intros a; csimpl; [lia|]. rewrite IH. lia.
Qed.

Lemma sum_list_fmap_Permutation {A} (f : A -> nat) l k :
  l ≡ₚ k -> sum_list (f <$> l) = sum_list (f <$> k).
Proof. induction 1; csimpl; lia. Qed.

Lemma length_filter_disjoint {A} (P Q R : A -> Prop)
    `{!forall x, Decision (P x)} `{!forall x, Decision (Q x)}
    `{!forall x, Decision (R x)} (l : list A) :
  (forall x, R x <-> P x \/ Q x) -> (forall x, P x -> Q x -> False) ->
  length (filter R l) = (length (filter P l) + length (filter Q l))%nat.
Proof.
  intros HR Hdisj. induction l as [|x l IH]; [done|].
  rewrite !filter_cons.
  destruct (decide (P x)) as [HP|HP], (decide (Q x)) as [HQ|HQ],
           (decide (R x)) as [Hr|Hr]; simpl; rewrite ?IH;
    first [lia | exfalso; first [by eapply Hdisj | apply Hr, HR; tauto
                                | apply HR in Hr; tauto]].
Qed.

Lemma count_reports_of_leads (users cls : list User.t) :
  NoDup (User.id <$> cls) ->
  sum_list
    ((fun cl =>
        length (prisma.findMany
                  (fun u => bool_decide (User.chapterLeadId u = Some (User.id cl)))
                  users)) <$> cls)
  = length
      (prisma.findMany
         (fun u =>
            bool_decide
              (User.chapterLeadId u ∈ (fun cl => Some (User.id cl)) <$> cls))
         users).
Proof.
  induction cls as [|cl cls IH]; intros Hnd.
  - simpl. unfold prisma.findMany.
    induction users as [|u users IHu]; [done|].
    rewrite filter_cons_False; [exact IHu|done].
  - rewrite fmap_cons in Hnd. apply NoDup_cons in Hnd as [Hfresh Hnd].
    rewrite fmap_cons. simpl sum_list. rewrite (IH Hnd).
    unfold prisma.findMany. symmetry. apply length_filter_disjoint.
    + intros u. rewrite !bool_decide_eq_true, fmap_cons, elem_of_cons. done.
    + intros u. rewrite !bool_decide_eq_true. intros -> Hin.
      apply list_elem_of_fmap in Hin as (cl' & [= Hid] & Hcl').
      apply Hfresh. rewrite Hid. by apply list_elem_of_fmap_2.
Qed.

Lemma own_team_found db principal :
  principal ∈ DB.user db -> User.role principal = CHAPTER_LEAD ->
  exists cl,
    List.find
      (fun cl => bool_decide (User.id (WithReports.lead cl) = User.id principal))
      (includeDirectReports db <$>
         prisma.orderBy nameAsc
           (prisma.findMany (fun u => bool_decide (User.role u = CHAPTER_LEAD))
              (DB.user db)))
    = Some (includeDirectReports db cl)
    /\ User.id cl = User.id principal.
Proof.
  intros Hin Hrole.
  destruct (List.find _ _) as [myTeam|] eqn:Hfind.
  - apply find_some in Hfind as [Hmem Hid].
    apply list_elem_of_In, list_elem_of_fmap in Hmem as (cl & -> & _).
    apply bool_decide_eq_true in Hid. by exists cl.
  - exfalso.
    pose proof (find_none _ _ Hfind (includeDirectReports db principal)) as Hno.
    cbv beta in Hno. rewrite bool_decide_eq_true_2 in Hno by done.
    enough (true = false) by done. apply Hno.
    apply list_elem_of_In, list_elem_of_fmap_2, orderBy_elem, findMany_elem.
    split; [by apply bool_decide_eq_true|done].
Qed.

(** X21: the hierarchy route by role.  A Reporter is refused (403).  A
    Chapter Lead always gets a view (the "Team not found" answer cannot
    occur) holding one entry, their own, whose direct reports are exactly
    the users with that Chapter Lead as [chapterLeadId], and whose counts
    equal the number of those users.  A Tribe Lead gets one entry per
    user with role CHAPTER_LEAD. *)
Theorem GET_teams_hierarchy_outcome db h principal :
  getUserFromRequest db h = Some principal ->
  match User.role principal with
  | REPORTER =>
      GET_teams_hierarchy db h = apiError "Insufficient permissions" 403
  | CHAPTER_LEAD =>
      exists hierarchy entry,
        GET_teams_hierarchy db h = apiResponse hierarchy 200
        /\ Hierarchy.chapterLeads hierarchy = [entry]
        /\ ChapterLeadEntry.id entry = User.id principal
        /\ (forall m,
              m ∈ ChapterLeadEntry.directReports entry <->
              exists u, u ∈ DB.user db
                        /\ User.chapterLeadId u = Some (User.id principal)
                        /\ m = TeamMember.select u)
        /\ ChapterLeadEntry.directReportsCount entry
           = length (ChapterLeadEntry.directReports entry)
        /\ Hierarchy.totalReporters hierarchy
           = length (ChapterLeadEntry.directReports entry)
  | TRIBE_LEAD =>
      exists hierarchy,
        GET_teams_hierarchy db h = apiResponse hierarchy 200
        /\ (forall id,
              id ∈ ChapterLeadEntry.id <$> Hierarchy.chapterLeads hierarchy <->
              exists u, u ∈ DB.user db /\ User.role u = CHAPTER_LEAD
                        /\ User.id u = id)
        /\ Hierarchy.totalChapterLeads hierarchy
           = length (Hierarchy.chapterLeads hierarchy)
  end.
Proof.
  intros Hauth. unfold GET_teams_hierarchy. rewrite Hauth.
  apply getUserFromRequest_Some in Hauth as [Hin _].
  destruct (User.role principal) eqn:Hrole.
  - by rewrite bool_decide_eq_true_2.
  - rewrite bool_decide_eq_false_2, bool_decide_eq_true_2 by done.
    destruct (own_team_found db principal Hin Hrole) as (cl & -> & Hid).
    eexists. exists (ownTeamEntry (includeDirectReports db cl)).
    split; [reflexivity|]. split; [reflexivity|].
    cbn. split; [done|]. rewrite <- Hid.
    split; [|split].
    + intros m. rewrite list_elem_of_fmap. unfold reportsOf. split.
      * intros (u & -> & Hu). exists u.
        apply orderBy_elem, findMany_elem in Hu as [Hcl Hu].
        apply bool_decide_eq_true in Hcl. done.
      * intros (u & Hu & Hcl & ->). exists u. split; [done|].
        apply orderBy_elem, findMany_elem.
        split; [by apply bool_decide_eq_true|done].
    + rewrite length_fmap. symmetry.
      apply Permutation_length, orderBy_Permutation.
    + done.
  - rewrite !bool_decide_eq_false_2 by done.
    eexists. split; [reflexivity|]. cbn. split.
    + intros id. rewrite <- !list_fmap_compose, list_elem_of_fmap. split.
      * intros (u & -> & Hu). exists u.
        apply orderBy_elem, findMany_elem in Hu as [Hcl Hu].
        apply bool_decide_eq_true in Hcl. done.
      * intros (u & Hu & Hcl & <-). exists u. split; [done|].
        apply orderBy_elem, findMany_elem.
        split; [by apply bool_decide_eq_true|done].
    + by rewrite !length_fmap.
Qed.

(** Witness for X21: chapter lead C1 sees their own team, of one. *)
Lemma GET_teams_hierarchy_outcome_witness :
  exists hierarchy,
    GET_teams_hierarchy Example.db Example.asC1 = apiResponse hierarchy 200
    /\ Hierarchy.totalReporters hierarchy = 1%nat.
Proof.
  destruct (GET_teams_hierarchy_outcome Example.db Example.asC1 Example.C1 eq_refl)
    as (hierarchy & entry & Heq & _).
  exists hierarchy. split; [exact Heq|].
  vm_compute in Heq. by injection Heq as <-.
Defined.

(** X22: the Tribe Lead's totals.  On a user table with unique ids,
    [totalReporters] is the number of users whose [chapterLeadId] names a
    user with role CHAPTER_LEAD, whatever their own role, and
    [totalUsers] is that number plus the number of Chapter Leads plus
    one: users without such a [chapterLeadId] are counted only if they
    are Chapter Leads, and one Tribe Lead is assumed. *)
Theorem GET_teams_hierarchy_totals db h principal :
  NoDup (User.id <$> DB.user db) ->
  getUserFromRequest db h = Some principal ->
  User.role principal = TRIBE_LEAD ->
  exists hierarchy,
    GET_teams_hierarchy db h = apiResponse hierarchy 200
    /\ Hierarchy.totalReporters hierarchy
       = length (prisma.findMany (reportsToChapterLead db) (DB.user db))
    /\ Hierarchy.totalUsers hierarchy
       = Some (1
               + length (prisma.findMany
                           (fun u => bool_decide (User.role u = CHAPTER_LEAD))
                           (DB.user db))
               + length (prisma.findMany (reportsToChapterLead db) (DB.user db)))%nat.
Proof.
  intros Hnd Hauth Hrole. unfold GET_teams_hierarchy. rewrite Hauth, Hrole.
  rewrite !bool_decide_eq_false_2 by done.
  eexists. split; [reflexivity|]. cbn [Hierarchy.totalReporters Hierarchy.totalUsers].
  assert (sumDirectReports
            (includeDirectReports db <$>
               prisma.orderBy nameAsc
                 (prisma.findMany
                    (fun u => bool_decide (User.role u = CHAPTER_LEAD))
                    (DB.user db)))
          = length (prisma.findMany (reportsToChapterLead db) (DB.user db)))
    as ->.
  { rewrite sumDirectReports_sum_list, <- list_fmap_compose.
    rewrite (sum_list_fmap_Permutation _ _ _ (orderBy_Permutation _ _)).
    unfold reportsToChapterLead.
    rewrite <- count_reports_of_leads; [done|].
    eapply sublist_NoDup; [exact Hnd|].
    apply fmap_sublist. unfold prisma.findMany. apply sublist_filter. }
  split; [done|]. rewrite length_fmap.
  by rewrite (Permutation_length (orderBy_Permutation _ _)).
Qed.

(** Witness for X22: the Tribe Lead's totals on the example table. *)
Lemma GET_teams_hierarchy_totals_witness :
  exists hierarchy,
    GET_teams_hierarchy Example.db Example.asT1 = apiResponse hierarchy 200
    /\ Hierarchy.totalUsers hierarchy = Some 5%nat.
Proof.
  destruct (GET_teams_hierarchy_totals Example.db Example.asT1 Example.T1)
    as (hierarchy & Heq & _ & Htotal).
  - apply (bool_decide_unpack _). vm_compute. exact I.
  - reflexivity.
  - reflexivity.
  - exists hierarchy. split; [exact Heq|]. rewrite Htotal. reflexivity.
Defined.

(** ** The chapter lead of a user *)

(** X23: what [getChapterLead] returns fits the other checks.  On a user
    table with unique ids, the lead found for a stored user is a stored
    user who manages them ([isManagedBy]); the user may view that lead's
    team unless the user is a Chapter Lead themselves; and the lead may
    modify the user's attendance unless the lead is a Reporter. *)
Theorem getChapterLead_consistent db u cl :
  NoDup (User.id <$> DB.user db) ->
  u ∈ DB.user db ->
  getChapterLead db u = Some cl ->
  cl ∈ DB.user db
  /\ isManagedBy u (User.id cl) = true
  /\ (User.role u <> CHAPTER_LEAD -> canViewTeam u (User.id cl) = true)
  /\ (User.role cl <> REPORTER -> canModifyAttendance db cl (User.id u) = true).
Proof.
  intros Hnd Hu. unfold getChapterLead.
  destruct (User.chapterLeadId u) as [chapterLeadId|] eqn:Hcl; [|done].
  case_bool_decide as Hempty; [done|]. intros Hfind.
  apply findUserById_Some in Hfind as [Hin Hid]. subst chapterLeadId.
  split; [done|]. split; [|split].
  - unfold isManagedBy. by apply bool_decide_eq_true.
  - intros Hrole. unfold canViewTeam, isTribeLead, isChapterLead, isReporter.
    rewrite Hcl. destruct (User.role u); [|done|done].
    rewrite !bool_decide_eq_false_2 by done. cbn [andb].
    rewrite !bool_decide_eq_true_2 by done. reflexivity.
  - intros Hrole.
    unfold canModifyAttendance, canAllocateAttendance, isTribeLead, isChapterLead.
    case_bool_decide; [done|].
    rewrite (findUserById_stored db u Hnd Hu). cbn [mbind option_bind]. rewrite Hcl.
    destruct (User.role cl); [done| |].
    + rewrite bool_decide_eq_false_2 by done.
      rewrite !bool_decide_eq_true_2 by done. reflexivity.
    + rewrite bool_decide_eq_true_2 by done. reflexivity.
Qed.

(** Witness for X23: reporter R1 and chapter lead C1. *)
Lemma getChapterLead_consistent_witness :
  Example.C1 ∈ DB.user Example.db
  /\ isManagedBy Example.R1 "c1" = true
  /\ canViewTeam Example.R1 "c1" = true
  /\ canModifyAttendance Example.db Example.C1 "r1" = true.
Proof.
  destruct (getChapterLead_consistent Example.db Example.R1 Example.C1)
    as (Hin & Hman & Hview & Hmod).
  - apply (bool_decide_unpack _). vm_compute. exact I.
  - do 3 apply list_elem_of_further. apply list_elem_of_here.
  - reflexivity.
  - split; [exact Hin|]. split; [exact Hman|].
    split; [by apply Hview|by apply Hmod].
Defined.
